(** * Verification of the monthly invoice run (run.py)

    The development follows the source file in reverse dependency order:
    the calendar arithmetic used by the default-period loop of the script's
    entry point, the login, the data carried by an invoice, the external
    services the run talks to (spreadsheet backend, messaging platform,
    console), the spreadsheet write helper, the orchestration loop of
    [amain] and the settings read by the entry point. *)

From stdpp Require Import base list strings gmap.
From Stdlib Require Import ZArith Lia DecimalString.

Local Open Scope Z_scope.

(** ** Calendar arithmetic of [datetime]

    [datetime.datetime] is the proleptic Gregorian calendar restricted to
    the years [MINYEAR..MAXYEAR]. Subtracting a [timedelta] of whole days
    leaves the time of day untouched and moves the date back one day at a
    time; a result before 0001-01-01 raises [OverflowError]. *)
Module Calendar.

Record datetime := mk_datetime {
  year : Z;
  month : Z;
  day : Z;
  hour : Z;
  minute : Z;
  second : Z;
  microsecond : Z
}.

Definition MINYEAR : Z := 1.
Definition MAXYEAR : Z := 9999.

Definition is_leap (y : Z) : bool :=
  (y mod 4 =? 0) && (negb (y mod 100 =? 0) || (y mod 400 =? 0)).

Definition DAYS_IN_MONTH (m : Z) : Z :=
  match m with
  | 1 => 31 | 2 => 28 | 3 => 31 | 4 => 30 | 5 => 31 | 6 => 30
  | 7 => 31 | 8 => 31 | 9 => 30 | 10 => 31 | 11 => 30 | 12 => 31
  | _ => -1
  end.

Definition days_in_month (y m : Z) : Z :=
  if (m =? 2) && is_leap y then 29 else DAYS_IN_MONTH m.

Definition DAYS_BEFORE_MONTH (m : Z) : Z :=
  match m with
  | 1 => 0 | 2 => 31 | 3 => 59 | 4 => 90 | 5 => 120 | 6 => 151
  | 7 => 181 | 8 => 212 | 9 => 243 | 10 => 273 | 11 => 304 | 12 => 334
  | _ => -1
  end.

Definition days_before_year (y : Z) : Z :=
  let p := y - 1 in p * 365 + p / 4 - p / 100 + p / 400.

Definition days_before_month (y m : Z) : Z :=
  DAYS_BEFORE_MONTH m + (if (2 <? m) && is_leap y then 1 else 0).

(** [toordinal]: 0001-01-01 is day 1. *)
Definition toordinal (d : datetime) : Z :=
  days_before_year (year d) + days_before_month (year d) (month d) + day d.

Definition valid_datetime (d : datetime) : Prop :=
  MINYEAR <= year d <= MAXYEAR /\
  1 <= month d <= 12 /\
  1 <= day d <= days_in_month (year d) (month d) /\
  0 <= hour d < 24 /\ 0 <= minute d < 60 /\ 0 <= second d < 60 /\
  0 <= microsecond d < 1000000.

Definition with_date (d : datetime) (y m dd : Z) : datetime :=
  {| year := y; month := m; day := dd;
     hour := hour d; minute := minute d; second := second d;
     microsecond := microsecond d |}.

(** The day before [d], [None] when it would fall before [MINYEAR]. *)
Definition pred_day (d : datetime) : option datetime :=
  if 1 <? day d then Some (with_date d (year d) (month d) (day d - 1))
  else if 1 <? month d then
    Some (with_date d (year d) (month d - 1) (days_in_month (year d) (month d - 1)))
  else if MINYEAR <? year d then Some (with_date d (year d - 1) 12 31)
  else None.

(** [d - datetime.timedelta(days=k)]; [None] stands for [OverflowError]. *)
Fixpoint sub_days (d : datetime) (k : nat) : option datetime :=
  match k with
  | O => Some d
  | S k' => match pred_day d with
            | Some p => sub_days p k'
            | None => None
            end
  end.

(** *** The default-period loop of the entry point (run.py, 162-169) *)

Inductive outcome :=
| Found (offset : nat) (prev_month_date : datetime)
| NameError
| OverflowError.

(** [for day in range(...)]: the first offset whose date lies in another
    month breaks the loop; running off the range leaves [default_month]
    unbound, so its first use raises [NameError]. *)
Fixpoint search (now : datetime) (days : list nat) : outcome :=
  match days with
  | [] => NameError
  | d :: rest =>
      match sub_days now d with
      | None => OverflowError
      | Some prev_month_date =>
          if negb (month prev_month_date =? month now)
          then Found d prev_month_date
          else search now rest
      end
  end.

Definition max_days_in_month : nat := 31.

Definition default_period (now : datetime) : outcome :=
  search now (seq 1 max_days_in_month).

Definition default_month (o : outcome) : option Z :=
  match o with Found _ p => Some (month p) | _ => None end.

Definition default_year (o : outcome) : option Z :=
  match o with Found _ p => Some (year p) | _ => None end.

(** The calendar month strictly before month [m] of year [y]. *)
Definition previous_month (y m : Z) : Z * Z :=
  if m =? 1 then (y - 1, 12) else (y, m - 1).

End Calendar.

(** ** The login to the spreadsheet backend (run.py, 52-80)

    [GoogleLoginer] keeps the client it has obtained. A login reads the
    stored token when its file exists and the credentials otherwise, asks
    the authorisation library for a client, keeps the client, and then
    writes the token to the file of the stored token. *)
Module Login.

Inductive error :=
| FileNotFoundError (path : string)
| PermissionError (path : string)
| JSONDecodeError
| AuthError.

Inductive outcome (A : Type) :=
| Returned (a : A)
| Raised (e : error).
Arguments Returned {A} a.
Arguments Raised {A} e.

Section Login.
(** Decoded JSON and the client of the backend. *)
Variable json : Type.
Variable client : Type.
(** [json.load] and [json.dump] *)
Variable json_load : string -> option json.
Variable json_dump : json -> string.

(** What [gspread.oauth_from_dict] is given: [credentials] or
    [authorized_user_info]. *)
Inductive request :=
| credentials (c : json)
| authorized_user_info (a : json).

(** The token it returns beside the client: a string, or anything else. *)
Inductive token :=
| token_str (s : string)
| token_json (j : json).

(** [gspread.oauth_from_dict]: its answer to the n-th request of the run,
    [None] when it raises. *)
Variable oauth_from_dict : nat -> request -> option (client * token).
(** The error that opening a path for writing raises, if any; the empty
    path names no file whatever this says. *)
Variable open_error : string -> option error.

Record GoogleLoginer := mk_loginer {
  credentials_file_path : string;
  authorized_user_file_path : string;
  google_client : option client;
  authorized_user : option json
}.

(** The files, and the requests made to the authorisation library. *)
Record World := mk_world {
  files : gmap string string;
  requests : list request
}.

(** [GoogleLoginer.__init__] *)
Definition init (credentials_file_path authorized_user_file_path : string) : GoogleLoginer :=
  {| credentials_file_path := credentials_file_path;
     authorized_user_file_path := authorized_user_file_path;
     google_client := None;
     authorized_user := None |}.

Definition set_google_client (c : client) (self : GoogleLoginer) : GoogleLoginer :=
  {| credentials_file_path := credentials_file_path self;
     authorized_user_file_path := authorized_user_file_path self;
     google_client := Some c;
     authorized_user := authorized_user self |}.

Definition set_authorized_user (a : json) (self : GoogleLoginer) : GoogleLoginer :=
  {| credentials_file_path := credentials_file_path self;
     authorized_user_file_path := authorized_user_file_path self;
     google_client := google_client self;
     authorized_user := Some a |}.

(** [open(path).read()]: no file is named by the empty path. *)
Definition read_file (w : World) (path : string) : option string :=
  if String.eqb path "" then None else files w !! path.

(** [os.path.exists(path)] *)
Definition exists_ (w : World) (path : string) : bool :=
  match read_file w path with Some _ => true | None => false end.

(** [with open(path, 'w') as f: f.write(text)] *)
Definition write_file (w : World) (path text : string) : outcome World :=
  if String.eqb path "" then Raised (FileNotFoundError path)
  else
    match open_error path with
    | Some e => Raised e
    | None => Returned {| files := <[path := text]> (files w); requests := requests w |}
    end.

(** [json.load] of an opened file *)
Definition load_file (w : World) (path : string) : outcome json :=
  match read_file w path with
  | None => Raised (FileNotFoundError path)
  | Some text =>
      match json_load text with
      | Some j => Returned j
      | None => Raised JSONDecodeError
      end
  end.

(** One call of [gspread.oauth_from_dict]. *)
Definition oauth (w : World) (r : request) : outcome (client * token) * World :=
  let w' := {| files := files w; requests := requests w ++ [r] |} in
  match oauth_from_dict (length (requests w)) r with
  | Some answer => (Returned answer, w')
  | None => (Raised AuthError, w')
  end.

(** What lines 75-78 write: a string as it is, anything else as JSON. *)
Definition token_text (authorized_user : token) : string :=
  match authorized_user with
  | token_str s => s
  | token_json j => json_dump j
  end.

(** Lines 72-78: keep the client, then store the token. *)
Definition keep_and_store (self : GoogleLoginer) (w : World) (answer : client * token)
  : outcome unit * GoogleLoginer * World :=
  let '(google_client, authorized_user) := answer in
  let self := set_google_client google_client self in
  match write_file w (authorized_user_file_path self) (token_text authorized_user) with
  | Returned w' => (Returned tt, self, w')
  | Raised e => (Raised e, self, w)
  end.

(** [GoogleLoginer._login] *)
Definition _login (self : GoogleLoginer) (w : World)
  : outcome unit * GoogleLoginer * World :=
  if exists_ w (authorized_user_file_path self) then
    match load_file w (authorized_user_file_path self) with
    | Raised e => (Raised e, self, w)
    | Returned a =>
        let self := set_authorized_user a self in
        match oauth w (authorized_user_info a) with
        | (Raised e, w) => (Raised e, self, w)
        | (Returned answer, w) => keep_and_store self w answer
        end
    end
  else
    match load_file w (credentials_file_path self) with
    | Raised e => (Raised e, self, w)
    | Returned c =>
        match oauth w (credentials c) with
        | (Raised e, w) => (Raised e, self, w)
        | (Returned answer, w) => keep_and_store self w answer
        end
    end.

(** [GoogleLoginer.get_google_client]: what it returns is the attribute,
    whatever that holds. *)
Definition get_google_client (self : GoogleLoginer) (w : World)
  : outcome (option client) * GoogleLoginer * World :=
  match google_client self with
  | None =>
      match _login self w with
      | (Returned _, self, w) => (Returned (google_client self), self, w)
      | (Raised e, self, w) => (Raised e, self, w)
      end
  | Some _ => (Returned (google_client self), self, w)
  end.

End Login.

Arguments credentials {json} c.
Arguments authorized_user_info {json} a.
Arguments token_str {json} s.
Arguments token_json {json} j.
Arguments credentials_file_path {json client} self : rename.
Arguments authorized_user_file_path {json client} self : rename.
Arguments google_client {json client} self : rename.
Arguments authorized_user {json client} self : rename.
Arguments files {json} w : rename.
Arguments requests {json} w : rename.
Arguments token_text {json} json_dump authorized_user.
Arguments read_file {json} w path.
Arguments load_file {json} json_load w path.

End Login.

(** ** Python values and exceptions *)

(** The scalars of a decoded JSON payload, as far as the run tells them
    apart: it compares cells with strings and tests contacts for truth, so
    a number is kept as an integer. *)
Inductive pyval :=
| PNone
| PBool (b : bool)
| PInt (z : Z)
| PStr (s : string).

(** Truth value testing, as used by [not x]. *)
Definition truthy (v : pyval) : bool :=
  match v with
  | PNone => false
  | PBool b => b
  | PInt z => negb (z =? 0)
  | PStr s => negb (String.eqb s "")
  end.

(** [cell == username] for a string [username]. *)
Definition eq_str (v : pyval) (username : string) : bool :=
  match v with
  | PStr s => String.eqb s username
  | _ => false
  end.

Definition pyval_of_int (o : option Z) : pyval :=
  match o with Some z => PInt z | None => PNone end.

Inductive exn :=
| KeyError (key : string)
| TypeError
| EOFError
| FileNotFoundError (path : string)
| PermissionError (path : string)
| JSONDecodeError
| AuthError
| WorksheetNotFound
| ServiceError (code : nat).

(** The errors of the login, as the exceptions they are. *)
Definition exn_of_login (e : Login.error) : exn :=
  match e with
  | Login.FileNotFoundError path => FileNotFoundError path
  | Login.PermissionError path => PermissionError path
  | Login.JSONDecodeError => JSONDecodeError
  | Login.AuthError => AuthError
  end.

Inductive result (A : Type) :=
| Ok (a : A)
| Raise (e : exn).
Arguments Ok {A} a.
Arguments Raise {A} e.

(** [str(z)] and [format(z, "02d")]. *)
Definition str_of_int (z : Z) : string := NilZero.string_of_int (Z.to_int z).

Definition format_02d (z : Z) : string :=
  let s := str_of_int z in
  if (String.length s <? 2)%nat then "0" +:+ s else s.

(** [f"{year}_{month:02d}"]: [None] prints as [None] in the first field and
    rejects the integer format in the second. *)
Definition format_year_month (year month : option Z) : result string :=
  match month with
  | None => Raise TypeError
  | Some m =>
      Ok (match year with Some y => str_of_int y | None => "None" end
          +:+ "_" +:+ format_02d m)
  end.

(** ** Tables *)

(** A [pandas.DataFrame] seen as ordered column names and ordered rows. *)
Record DataFrame := mk_df {
  columns : list string;
  values : list (list pyval)
}.

(** [df.shape[0]] *)
Definition shape0 (df : DataFrame) : nat := length (values df).

Fixpoint index_of (name : string) (cols : list string) : option nat :=
  match cols with
  | [] => None
  | c :: rest => if String.eqb c name then Some O else S <$> index_of name rest
  end.

(** [df[name]]: the column as a series, [KeyError] when there is none. *)
Definition getitem_column (df : DataFrame) (name : string) : result (list pyval) :=
  match index_of name (columns df) with
  | None => Raise (KeyError name)
  | Some i => Ok (map (fun row => default PNone (row !! i)) (values df))
  end.

(** [series == username], element by element. *)
Definition series_eq (s : list pyval) (username : string) : list bool :=
  map (fun v => eq_str v username) s.

Fixpoint select_rows (rows : list (list pyval)) (mask : list bool) : list (list pyval) :=
  match rows, mask with
  | row :: rows', b :: mask' =>
      if b then row :: select_rows rows' mask' else select_rows rows' mask'
  | _, _ => []
  end.

(** [df[mask]]: the rows where the mask holds, in their original order. *)
Definition getitem_mask (df : DataFrame) (mask : list bool) : DataFrame :=
  {| columns := columns df; values := select_rows (values df) mask |}.

Definition REVIEWER_COLUMN : string := "Ревьюер".

(** [df[df['Ревьюер'] == username]] *)
Definition reviewer_slice (df : DataFrame) (username : string) : result DataFrame :=
  match getitem_column df REVIEWER_COLUMN with
  | Raise e => Raise e
  | Ok series => Ok (getitem_mask df (series_eq series username))
  end.

(** ** Configuration and invoice *)

Record Config := mk_config {
  google_credentials_file_path : string;
  google_authorized_user_file_path : string;
  devman_token : string;
  month : option Z;
  year : option Z;
  google_table_name : string;
  telegram_api_id : Z;
  telegram_api_hash : string;
  confirm_every_reviewer : bool;
  message_template_filename : string
}.

(** The decoded invoice: the two row sets as frames and the reviewer to
    contact mapping, a dict iterated in insertion order. *)
Record Invoice := mk_invoice {
  month_reviews : DataFrame;
  summary : DataFrame;
  dvmn_reviewers : list (string * pyval)
}.

(** ** The world the run acts on *)

Record Worksheet := mk_worksheet {
  title : string;
  row_count : nat;
  col_count : nat;
  cells : list (list pyval)      (* the grid from row 1 down; rows below are blank *)
}.

Record Permission := mk_permission {
  perm_type : string;
  role : string;
  with_link : bool;
  notify : bool
}.

Record Spreadsheet := mk_spreadsheet {
  sp_title : string;
  permissions : list Permission;
  worksheets : list Worksheet
}.

Inductive Level := INFO | WARNING.

Inductive event :=
| Log (level : Level) (message : string)
| Input (prompt : string)
| Create (table_name : string) (spreadsheet : nat)
| SessionOpen
| Send (entity : pyval) (message : string)
| SessionClose.

(** A trace entry: the event and the reviewer whose loop iteration issued
    it. [who] is bookkeeping only; no operation reads it. *)
Record entry := mk_entry {
  who : string;
  what : event
}.

(** A decoded JSON document and the client of the spreadsheet backend, as
    the login hands them on; the run looks into neither. *)
Definition Json : Type := string.
Definition Client : Type := nat.

Record World := mk_world {
  stdin : list string;           (* lines the operator will type *)
  clock : nat;                   (* calls made to the services so far *)
  drive : list Spreadsheet;      (* spreadsheets of the backend, by handle *)
  trace : list entry;            (* what the run has done, oldest first *)
  host : Login.World Json        (* the files, and the authorisation requests made *)
}.

(** What the run depends on but cannot change: string formatting of the
    language runtime, the invoice server, the identifiers the spreadsheet
    backend hands out, which of the external calls fail (by call number,
    with an error code), and what the login relies on: the JSON codec, the
    answers of the authorisation library and the paths that cannot be
    written. *)
Record Environment := mk_env {
  str_format : string -> list (string * pyval) -> result string;
  invoice_of : option Z -> option Z -> Invoice;
  spreadsheet_id : nat -> string;
  fault : nat -> option nat;
  json_load : string -> option Json;
  json_dump : Json -> string;
  oauth_from_dict : nat -> Login.request Json -> option (Client * Login.token Json);
  open_error : string -> option Login.error
}.

(** ** Computations: state passing with exceptions *)

Definition M (A : Type) : Type := World -> result A * World.

#[global] Instance M_ret : MRet M := fun A a w => (Ok a, w).

#[global] Instance M_bind : MBind M := fun A B f m w =>
  match m w with
  | (Ok a, w') => f a w'
  | (Raise e, w') => (Raise e, w')
  end.

Definition raise {A} (e : exn) : M A := fun w => (Raise e, w).

Definition lift {A} (r : result A) : M A := fun w => (r, w).

(** [try: body  except <caught>: handler] *)
Definition try_except {A} (body : M A) (caught : exn -> bool) (handler : M A) : M A :=
  fun w =>
    match body w with
    | (Raise e, w') => if caught e then handler w' else (Raise e, w')
    | (Ok a, w') => (Ok a, w')
    end.

(** [async with manager: body]. Once the manager is entered its exit runs
    whatever the outcome of the body; an exception of the body is raised
    again after a successful exit. *)
Definition async_with {A} (aenter : M unit) (aexit : M unit) (body : M A) : M A :=
  fun w =>
    match aenter w with
    | (Raise e, w1) => (Raise e, w1)
    | (Ok _, w1) =>
        let '(r, w2) := body w1 in
        match aexit w2 with
        | (Raise e, w3) => (Raise e, w3)
        | (Ok _, w3) => (r, w3)
        end
    end.

(** [for x in items: body(x)] *)
Fixpoint for_each {A} (items : list A) (body : A -> M unit) : M unit :=
  match items with
  | [] => mret tt
  | x :: rest => body x ;; for_each rest body
  end.

Definition is_WorksheetNotFound (e : exn) : bool :=
  match e with WorksheetNotFound => true | _ => false end.

Definition set_stdin (l : list string) (w : World) : World :=
  {| stdin := l; clock := clock w; drive := drive w; trace := trace w; host := host w |}.
Definition set_clock (n : nat) (w : World) : World :=
  {| stdin := stdin w; clock := n; drive := drive w; trace := trace w; host := host w |}.
Definition set_drive (d : list Spreadsheet) (w : World) : World :=
  {| stdin := stdin w; clock := clock w; drive := d; trace := trace w; host := host w |}.
Definition set_trace (t : list entry) (w : World) : World :=
  {| stdin := stdin w; clock := clock w; drive := drive w; trace := t; host := host w |}.
Definition set_host (h : Login.World Json) (w : World) : World :=
  {| stdin := stdin w; clock := clock w; drive := drive w; trace := trace w; host := h |}.

Definition emit (reviewer : string) (e : event) : M unit :=
  fun w => (Ok tt, set_trace (trace w ++ [mk_entry reviewer e]) w).

(** Python list indexing [l[i]] resolved to a position; negative indices
    count from the end, anything else out of range gives [None]. *)
Definition py_index {A} (l : list A) (i : Z) : option nat :=
  let n := Z.of_nat (length l) in
  if (0 <=? i) && (i <? n) then Some (Z.to_nat i)
  else if (i <? 0) && (0 <=? i + n) then Some (Z.to_nat (i + n))
  else None.

Definition set_title (t : string) (ws : Worksheet) : Worksheet :=
  {| title := t; row_count := row_count ws; col_count := col_count ws; cells := cells ws |}.

(** Insert [rows] so that the first of them becomes grid row [at] (1-based);
    a grid shorter than that is filled up with blank rows first. *)
Definition insert_at (at_row : nat) (rows : list (list pyval)) (grid : list (list pyval))
  : list (list pyval) :=
  let before := (at_row - 1)%nat in
  take before grid ++ replicate (before - length grid)%nat [] ++ rows ++ drop before grid.

Definition add_rows (at_row : nat) (rows : list (list pyval)) (ws : Worksheet) : Worksheet :=
  {| title := title ws;
     row_count := (row_count ws + length rows)%nat;
     col_count := col_count ws;
     cells := insert_at at_row rows (cells ws) |}.

(** Write [rows] over the grid rows from [at_row] on (1-based). *)
Definition put_at (at_row : nat) (rows : list (list pyval)) (grid : list (list pyval))
  : list (list pyval) :=
  let before := (at_row - 1)%nat in
  take before grid ++ replicate (before - length grid)%nat [] ++ rows
    ++ drop (before + length rows) grid.

Definition put_rows (at_row : nat) (rows : list (list pyval)) (ws : Worksheet) : Worksheet :=
  {| title := title ws;
     row_count := row_count ws;
     col_count := col_count ws;
     cells := put_at at_row rows (cells ws) |}.

Definition set_worksheets (l : list Worksheet) (s : Spreadsheet) : Spreadsheet :=
  {| sp_title := sp_title s; permissions := permissions s; worksheets := l |}.

Definition add_permission (p : Permission) (s : Spreadsheet) : Spreadsheet :=
  {| sp_title := sp_title s; permissions := permissions s ++ [p]; worksheets := worksheets s |}.

(** The capacity the write helper asks for (lines 89-90). *)
Definition default_rows_count : nat := 1000.
Definition default_cols_count : nat := 26.

Definition blank_worksheet (t : string) (rows cols : nat) : Worksheet :=
  {| title := t; row_count := rows; col_count := cols; cells := [] |}.

(** A new spreadsheet of the backend holds one blank worksheet, of the
    backend's own default name and the same capacity. *)
Definition new_spreadsheet (t : string) : Spreadsheet :=
  {| sp_title := t; permissions := [];
     worksheets := [blank_worksheet "Sheet1" default_rows_count default_cols_count] |}.

Definition SPREADSHEET_URL : string := "https://docs.google.com/spreadsheets/d/".

(** ** External services *)
Section Services.
Variable env : Environment.

(** One call that leaves the process: it counts, and fails when the
    environment says so. *)
Definition external : M unit :=
  fun w =>
    let w' := set_clock (S (clock w)) w in
    match fault env (clock w) with
    | Some code => (Raise (ServiceError code), w')
    | None => (Ok tt, w')
    end.

(** *** Console and log *)

Definition logger (reviewer : string) (level : Level) (message : string) : M unit :=
  emit reviewer (Log level message).

(** The next line of standard input, [EOFError] when there is none. *)
Definition read_line : M string :=
  fun w =>
    match stdin w with
    | [] => (Raise EOFError, w)
    | line :: rest => (Ok line, set_stdin rest w)
    end.

(** [input(prompt)]: shows the prompt, then reads a line. *)
Definition input (reviewer : string) (prompt : string) : M string :=
  emit reviewer (Input prompt) ;; read_line.

(** [open(path).read()] *)
Definition open_read (path : string) : M string :=
  fun w =>
    match Login.read_file (host w) path with
    | Some text => (Ok text, w)
    | None => (Raise (FileNotFoundError path), w)
    end.

(** *** Invoice source *)

(** [DvmnClient.get_invoice] (lines 42-49): one request, whose failure or
    error status raises, and the decoded answer of the server. *)
Definition get_invoice (month year : option Z) : M Invoice :=
  external ;; mret (invoice_of env month year).

(** *** Login *)

(** [GoogleLoginer.get_google_client] (lines 52-80), run on the files of
    the host: the login with all it reads, asks and writes. What it raises
    is raised here, and what it has done to the files by then stays. *)
Definition get_google_client (google_loginer : Login.GoogleLoginer Json Client)
  : M (option Client) :=
  fun w =>
    match Login.get_google_client Json Client (json_load env) (json_dump env)
            (oauth_from_dict env) (open_error env) google_loginer (host w) with
    | (Login.Returned google_client, _, h) => (Ok google_client, set_host h w)
    | (Login.Raised e, _, h) => (Raise (exn_of_login e), set_host h w)
    end.

(** *** Spreadsheet backend

    A spreadsheet handle is its position in the drive, a worksheet handle
    the pair of its spreadsheet and its position in it. The backend never
    removes or reorders either, so positions are stable identities. *)

Definition with_spreadsheet {A} (sp : nat) (k : Spreadsheet -> M A) : M A :=
  fun w =>
    match drive w !! sp with
    | Some s => k s w
    | None => (Raise (ServiceError 404), w)
    end.

Definition store_spreadsheet (sp : nat) (s : Spreadsheet) : M unit :=
  fun w => (Ok tt, set_drive (<[sp := s]> (drive w)) w).

Definition update_spreadsheet (sp : nat) (f : Spreadsheet -> Spreadsheet) : M unit :=
  with_spreadsheet sp (fun s => store_spreadsheet sp (f s)).

Definition update_worksheet (sp pos : nat) (f : Worksheet -> Worksheet) : M unit :=
  with_spreadsheet sp (fun s =>
    match worksheets s !! pos with
    | Some ws => update_spreadsheet sp (set_worksheets (<[pos := f ws]> (worksheets s)))
    | None => raise (ServiceError 400)
    end).

Definition append_spreadsheet (s : Spreadsheet) : M nat :=
  fun w => (Ok (length (drive w)), set_drive (drive w ++ [s]) w).

(** [client.create(title)] *)
Definition create (reviewer : string) (table_name : string) : M nat :=
  external ;;
  sp ← append_spreadsheet (new_spreadsheet table_name);
  emit reviewer (Create table_name sp) ;;
  mret sp.

(** [spreadsheet.url] *)
Definition url (sp : nat) : string := SPREADSHEET_URL +:+ spreadsheet_id env sp.

(** [spreadsheet.share(email_address, perm_type, role, with_link, notify)] *)
Definition share (sp : nat) (p : Permission) : M unit :=
  external ;; update_spreadsheet sp (add_permission p).

(** [spreadsheet.get_worksheet(index)] *)
Definition get_worksheet (sp : nat) (index : Z) : M (nat * nat) :=
  external ;;
  with_spreadsheet sp (fun s =>
    match py_index (worksheets s) index with
    | Some pos => mret (sp, pos)
    | None => raise WorksheetNotFound
    end).

(** [worksheet.update_title(name)] *)
Definition update_title (ws : nat * nat) (name : string) : M unit :=
  external ;; update_worksheet ws.1 ws.2 (set_title name).

(** [spreadsheet.worksheets()] *)
Definition list_worksheets (sp : nat) : M (list (nat * nat)) :=
  external ;;
  with_spreadsheet sp (fun s => mret (map (fun pos => (sp, pos)) (seq 0 (length (worksheets s))))).

(** [spreadsheet.add_worksheet(title, rows, cols)]: appended after the
    existing worksheets. *)
Definition add_worksheet (sp : nat) (name : string) (rows cols : nat) : M (nat * nat) :=
  external ;;
  with_spreadsheet sp (fun s =>
    update_spreadsheet sp (set_worksheets (worksheets s ++ [blank_worksheet name rows cols])) ;;
    mret (sp, length (worksheets s))).

(** [worksheet.insert_rows(values, row)]: two requests. The first inserts
    as many blank rows as there are values, so that the first of them is
    grid row [row]; the second writes the values into them. *)
Definition insert_rows (ws : nat * nat) (rows : list (list pyval)) (row : nat) : M unit :=
  (external ;; update_worksheet ws.1 ws.2 (add_rows row (replicate (length rows) []))) ;;
  (external ;; update_worksheet ws.1 ws.2 (put_rows row rows)).

(** [worksheet.insert_row(values)]: [insert_rows] of the one row, at the
    default index 1. *)
Definition insert_row (ws : nat * nat) (row : list pyval) : M unit :=
  insert_rows ws [row] 1.

(** *** Messaging platform *)

(** [telethon.TelegramClient(session, api_id, api_hash, ...)] *)
Definition TelegramClient (session : string) (api_id : Z) (api_hash : string) : M unit :=
  external.

(** Entering the client connects the session: [SessionOpen] is recorded
    once the connection stands. Leaving it disconnects: [SessionClose] is
    recorded as the exit runs, and the disconnection itself may still fail. *)
Definition aenter (reviewer : string) : M unit :=
  external ;; emit reviewer SessionOpen.

Definition aexit (reviewer : string) : M unit :=
  emit reviewer SessionClose ;; external.

(** [client.send_message(entity, message)]: [Send] is recorded when the
    call succeeds. *)
Definition send_message (reviewer : string) (entity : pyval) (message : string) : M unit :=
  external ;; emit reviewer (Send entity message).

(** ** The spreadsheet write helper (run.py, 83-96) *)

Definition first_row_after_header : nat := 2.

Definition write_df_to_worksheet (spreadsheet : nat) (df : DataFrame)
    (worksheet_index : Z) (worksheet_name : string) : M unit :=
  worksheet ← try_except
    (worksheet ← get_worksheet spreadsheet worksheet_index;
     update_title worksheet worksheet_name ;;
     mret worksheet)
    is_WorksheetNotFound
    (all ← list_worksheets spreadsheet;
     let worksheets_count := length all in
     add_worksheet spreadsheet worksheet_name default_rows_count default_cols_count ;;
     get_worksheet spreadsheet (Z.of_nat worksheets_count));
  insert_row worksheet (PStr <$> columns df) ;;
  insert_rows worksheet (values df) first_row_after_header.

(** ** The orchestrator (run.py, 99-153) *)

Definition no_work_message (username : string) : string :=
  "У ревьюера " +:+ username +:+ " не было работ в этом месяце".

Definition confirm_prompt (username : string) : string :=
  "Обрабатывать ревьюера " +:+ username
  +:+ "? Введите что угодно если да, иначе просто нажмите Enter".

Definition skip_message (username : string) : string :=
  "Пропускаю ревьюера " +:+ username.

Definition contact_prompt (username : string) : string :=
  "Для ревьюера " +:+ username
  +:+ " не указан телеграм в БД Dvmn, укажите самостоятельно".

Definition no_contact_message (username : string) : string :=
  "Вы не указали телеграм для ревьюера " +:+ username +:+ ", пропускаю".

Definition link_reader : Permission :=
  {| perm_type := "anyone"; role := "reader"; with_link := true; notify := false |}.

Section Loop.
Variable config : Config.
Variable message_template : string.
Variable month_reviews_df summary_df : DataFrame.

(** Lines 136-153: name, create, share and fill the spreadsheet, then send
    the message in a session of its own. *)
Definition deliver (username : string) (telegram : pyval)
    (reviewer_month_reviews_df reviewer_summary_df : DataFrame) : M unit :=
  year_month ← lift (format_year_month (year config) (month config));
  table_name ← lift (str_format env (google_table_name config)
                  [("year_month", PStr year_month); ("username", PStr username)]);
  spreadsheet ← create username table_name;
  let spreadsheet_url := url spreadsheet in
  share spreadsheet link_reader ;;
  write_df_to_worksheet spreadsheet reviewer_month_reviews_df 0 "Ревью" ;;
  write_df_to_worksheet spreadsheet reviewer_summary_df 1 "Суммарно" ;;
  TelegramClient "session" (telegram_api_id config) (telegram_api_hash config) ;;
  message ← lift (str_format env message_template
               [("year", pyval_of_int (year config)); ("month", pyval_of_int (month config));
                ("spreadsheet_url", PStr spreadsheet_url)]);
  async_with (aenter username) (aexit username)
    (send_message username telegram message).

(** Lines 129-153: the contact check, then [deliver]. *)
Definition contact_stage (username : string) (telegram : pyval)
    (reviewer_month_reviews_df reviewer_summary_df : DataFrame) : M unit :=
  if negb (truthy telegram) then
    answer ← input username (contact_prompt username);
    if negb (truthy (PStr answer)) then
      logger username WARNING (no_contact_message username)
    else
      deliver username (PStr answer) reviewer_month_reviews_df reviewer_summary_df
  else
    deliver username telegram reviewer_month_reviews_df reviewer_summary_df.

(** Lines 122-153: the optional confirmation, then [contact_stage]. *)
Definition confirm_stage (username : string) (telegram : pyval)
    (reviewer_month_reviews_df reviewer_summary_df : DataFrame) : M unit :=
  if confirm_every_reviewer config then
    process_reviewer ← input username (confirm_prompt username);
    if negb (truthy (PStr process_reviewer)) then
      logger username INFO (skip_message username)
    else
      contact_stage username telegram reviewer_month_reviews_df reviewer_summary_df
  else
    contact_stage username telegram reviewer_month_reviews_df reviewer_summary_df.

(** Lines 116-153: one iteration of the loop over the reviewers. Each
    [continue] of the source is a branch that ends the iteration. *)
Definition iteration (item : string * pyval) : M unit :=
  let '(dvmn_reviewer_username, dvmn_reviewer_telegram) := item in
  reviewer_summary_df ← lift (reviewer_slice summary_df dvmn_reviewer_username);
  reviewer_month_reviews_df ← lift (reviewer_slice month_reviews_df dvmn_reviewer_username);
  if (shape0 reviewer_summary_df =? 0)%nat then
    logger dvmn_reviewer_username INFO (no_work_message dvmn_reviewer_username)
  else
    confirm_stage dvmn_reviewer_username dvmn_reviewer_telegram
      reviewer_month_reviews_df reviewer_summary_df.

End Loop.

Definition amain (config : Config) : M unit :=
  let credentials_file_path := google_credentials_file_path config in
  let authorized_user_file_path := google_authorized_user_file_path config in
  message_template ← open_read (message_template_filename config);
  let google_loginer := Login.init Json Client credentials_file_path authorized_user_file_path in
  google_client ← get_google_client google_loginer;
  invoice ← get_invoice (month config) (year config);
  let month_reviews_df := month_reviews invoice in
  let summary_df := summary invoice in
  for_each (dvmn_reviewers invoice)
    (iteration config message_template month_reviews_df summary_df).

End Services.

(** ** Observations on traces *)

Definition is_create (e : event) : bool :=
  match e with Create _ _ => true | _ => false end.
Definition is_send (e : event) : bool :=
  match e with Send _ _ => true | _ => false end.
Definition is_input (e : event) : bool :=
  match e with Input _ => true | _ => false end.
Definition is_log (e : event) : bool :=
  match e with Log _ _ => true | _ => false end.

(** How many entries of a trace are events of one kind issued for one
    reviewer. *)
Definition count_for (kind : event -> bool) (reviewer : string) (t : list entry) : nat :=
  length (List.filter (fun en => String.eqb (who en) reviewer && kind (what en)) t).




(** ** The entry point (run.py, 156-186)

    The script reads its settings with [environs]: a variable that is set
    is parsed by the deserialiser of its type, a variable that is not set
    gives the default of the call, and a call without default raises. The
    defaults of the period are the month and the year found by the loop
    over the days before [now]. *)
Module Main.

Inductive error :=
| EnvError (name : string)
| EnvValidationError (name : string)
| OverflowError
| NameError (name : string).

Inductive built (A : Type) :=
| Done (a : A)
| Failed (e : error).
Arguments Done {A} a.
Arguments Failed {A} e.

#[global] Instance built_ret : MRet built := fun A a => Done a.

#[global] Instance built_bind : MBind built := fun A B f m =>
  match m with
  | Done a => f a
  | Failed e => Failed e
  end.

Section Environ.
(** The deserialisers of integers and of booleans. *)
Variable parse_int : string -> option Z.
Variable parse_bool : string -> option bool.
(** The environment after [env.read_env()]. *)
Variable environ : gmap string string.

(** [env.str(name)] and [env.str(name, default)] *)
Definition env_str (name : string) (default : option string) : built string :=
  match environ !! name with
  | Some value => Done value
  | None =>
      match default with
      | Some d => Done d
      | None => Failed (EnvError name)
      end
  end.

(** [env.int(name)] and [env.int(name, default)] *)
Definition env_int (name : string) (default : option Z) : built Z :=
  match environ !! name with
  | Some value =>
      match parse_int value with
      | Some n => Done n
      | None => Failed (EnvValidationError name)
      end
  | None =>
      match default with
      | Some d => Done d
      | None => Failed (EnvError name)
      end
  end.

(** [env.bool(name, default)] *)
Definition env_bool (name : string) (default : option bool) : built bool :=
  match environ !! name with
  | Some value =>
      match parse_bool value with
      | Some b => Done b
      | None => Failed (EnvValidationError name)
      end
  | None =>
      match default with
      | Some d => Done d
      | None => Failed (EnvError name)
      end
  end.

(** The value of a name the loop binds only when it breaks. *)
Definition name_lookup (name : string) (value : option Z) : built Z :=
  match value with
  | Some z => Done z
  | None => Failed (NameError name)
  end.

(** Lines 162-182: the loop, then the arguments of [Config] from left to
    right. *)
Definition build_config (now : Calendar.datetime) : built Config :=
  let period := Calendar.default_period now in
  match period with
  | Calendar.OverflowError => Failed OverflowError
  | _ =>
      google_credentials_file_path ← env_str "GOOGLE_CREDENTIALS_FILE_PATH" None;
      google_authorized_user_file_path ← env_str "GOOGLE_AUTHORIZED_USER_FILE_PATH" (Some "");
      devman_token ← env_str "DEVMAN_TOKEN" None;
      default_month ← name_lookup "default_month" (Calendar.default_month period);
      month ← env_int "MONTH" (Some default_month);
      default_year ← name_lookup "default_year" (Calendar.default_year period);
      year ← env_int "YEAR" (Some default_year);
      google_table_name ← env_str "GOOGLE_TABLE_NAME" None;
      telegram_api_id ← env_int "TELEGRAM_API_ID" None;
      telegram_api_hash ← env_str "TELEGRAM_API_HASH" None;
      confirm_every_reviewer ← env_bool "CONFIRM_EVERY_REVIEWER" (Some false);
      message_template_filename ← env_str "MESSAGE_TEMPLATE_FILENAME" None;
      mret {| google_credentials_file_path := google_credentials_file_path;
              google_authorized_user_file_path := google_authorized_user_file_path;
              devman_token := devman_token;
              month := Some month;
              year := Some year;
              google_table_name := google_table_name;
              telegram_api_id := telegram_api_id;
              telegram_api_hash := telegram_api_hash;
              confirm_every_reviewer := confirm_every_reviewer;
              message_template_filename := message_template_filename |}
  end.

End Environ.

End Main.

(** ** Vocabulary of the statements *)

(** [wp m w Q]: running [m] from [w] ends in a result and a world that
    satisfy [Q]. Every computation of the model is a total function, so this
    is a statement about the one run there is. *)
Definition wp {A} (m : M A) (w : World) (Q : result A -> World -> Prop) : Prop :=
  match m w with (r, w') => Q r w' end.

(** An environment in which no external call fails. *)
Definition quiet (env : Environment) : Prop := forall n, fault env n = None.

(** What a call to the backend about spreadsheet [sp] may change: nothing
    of the console or the trace, and no spreadsheet but [sp]. *)
Definition backend_step (sp : nat) (w w' : World) : Prop :=
  stdin w' = stdin w /\ trace w' = trace w /\
  length (drive w') = length (drive w) /\
  forall j, j <> sp -> drive w' !! j = drive w !! j.

(** A worksheet after the helper has put a table into it: the header as
    row 1, the rows of the table from row 2. *)
Definition fill (df : DataFrame) (ws : Worksheet) : Worksheet :=
  add_rows first_row_after_header (values df) (add_rows 1 [PStr <$> columns df] ws).

(** The rows of a frame that belong to a reviewer, by the position of the
    reviewer column. *)
Definition belongs (i : nat) (username : string) (row : list pyval) : bool :=
  eq_str (default PNone (row !! i)) username.

(** Two dates the statements about the default period are tried on. *)
Definition january_of_year_one : Calendar.datetime :=
  {| Calendar.year := 1; Calendar.month := 1; Calendar.day := 15;
     Calendar.hour := 10; Calendar.minute := 30; Calendar.second := 0;
     Calendar.microsecond := 0 |}.

Definition third_of_november : Calendar.datetime :=
  {| Calendar.year := 2026; Calendar.month := 11; Calendar.day := 3;
     Calendar.hour := 9; Calendar.minute := 0; Calendar.second := 0;
     Calendar.microsecond := 0 |}.

(** The worksheets of a spreadsheet after the helper has written a table
    to slot [idx] under the name [name]. *)
Definition written (sheets : list Worksheet) (df : DataFrame) (idx : Z) (name : string)
  : list Worksheet :=
  match py_index sheets idx with
  | Some pos =>
      match sheets !! pos with
      | Some ws => <[pos := fill df (set_title name ws)]> sheets
      | None => sheets
      end
  | None =>
      sheets ++ [fill df (blank_worksheet name default_rows_count default_cols_count)]
  end.

(** ** Sample data

    A small invoice with three reviewers, an environment in which nothing
    fails, and worlds to start from. *)
Definition sample_reviews : DataFrame :=
  {| columns := ["Ревьюер"; "Урок"; "Сумма"];
     values := [[PStr "alice"; PStr "django-1"; PInt 300];
                [PStr "carol"; PStr "async-2"; PInt 500];
                [PStr "alice"; PStr "django-2"; PInt 300];
                [PStr "alice2"; PStr "bot-1"; PInt 200]] |}.

Definition sample_summary : DataFrame :=
  {| columns := ["Ревьюер"; "Итого"];
     values := [[PStr "alice"; PInt 600]; [PStr "carol"; PInt 500];
                [PStr "alice2"; PInt 200]] |}.

(** The frame made of an empty list of rows: no row and no column. *)
Definition no_columns : DataFrame := {| columns := []; values := [] |}.


Definition sample_invoice : Invoice :=
  {| month_reviews := sample_reviews;
     summary := sample_summary;
     dvmn_reviewers := [("alice", PStr "@alice_tg"); ("bob", PStr "@bob_tg");
                        ("carol", PStr ""); ("alice2", PStr "@alice2_tg")] |}.

(** A stand-in for [str.format]: the template followed by the values of
    the string arguments. *)
Definition sample_format (template : string) (args : list (string * pyval)) : result string :=
  Ok (foldl (fun acc a => match a.2 with PStr s => acc +:+ " " +:+ s | _ => acc end)
        template args).

(** A login to try the statements on: JSON stands for itself, the library
    answers every request with the number of the request as client and one
    fixed token, and every path can be written. *)
Definition sample_json_load (text : string) : option string := Some text.
Definition sample_json_dump (j : string) : string := j.
Definition sample_oauth (n : nat) (r : Login.request string)
  : option (nat * Login.token string) :=
  Some (n, Login.token_str "{refresh_token}").
Definition sample_open_error (path : string) : option Login.error := None.

(** The files of the host: the credentials and the message template. *)
Definition sample_files : Login.World string :=
  {| Login.files := {["credentials.json" := "{installed}"; "message.txt" := "Отчёт"]};
     Login.requests := [] |}.

(** The sample environment up to the invoice it serves, its formatter and
    the calls that fail. *)
Definition environment_of (format : string -> list (string * pyval) -> result string)
    (invoice : Invoice) (failing : nat -> option nat) : Environment :=
  {| str_format := format;
     invoice_of := fun _ _ => invoice;
     spreadsheet_id := fun n => str_of_int (Z.of_nat n);
     fault := failing;
     json_load := sample_json_load;
     json_dump := sample_json_dump;
     oauth_from_dict := sample_oauth;
     open_error := sample_open_error |}.

Definition sample_env : Environment :=
  environment_of sample_format sample_invoice (fun _ => None).


(** The same environment with the external call number 25 failing. *)
Definition failing_env : Environment :=
  environment_of sample_format sample_invoice
    (fun n => if (n =? 25)%nat then Some 503%nat else None).

Definition sample_config (confirm : bool) : Config :=
  {| google_credentials_file_path := "credentials.json";
     google_authorized_user_file_path := "";
     devman_token := "token";
     month := Some 10;
     year := Some 2026;
     google_table_name := "Инвойс";
     telegram_api_id := 1;
     telegram_api_hash := "hash";
     confirm_every_reviewer := confirm;
     message_template_filename := "message.txt" |}.

(** The same configuration with a file named for the stored token, and
    no confirmation. *)
Definition stored_config : Config :=
  {| google_credentials_file_path := "credentials.json";
     google_authorized_user_file_path := "authorized_user.json";
     devman_token := "token";
     month := Some 10;
     year := Some 2026;
     google_table_name := "Инвойс";
     telegram_api_id := 1;
     telegram_api_hash := "hash";
     confirm_every_reviewer := false;
     message_template_filename := "message.txt" |}.

(** The host after the first login under that configuration. *)
Definition logged_in : Login.World string :=
  {| Login.files := <["authorized_user.json" := "{refresh_token}"]> (Login.files sample_files);
     Login.requests := [Login.credentials "{installed}"] |}.

Definition world_of (lines : list string) : World :=
  {| stdin := lines; clock := 0; drive := []; trace := []; host := sample_files |}.

(** A world whose drive holds one new spreadsheet. *)
Definition world_with_spreadsheet : World :=
  {| stdin := []; clock := 0; drive := [new_spreadsheet "Инвойс"]; trace := [];
     host := sample_files |}.

(** ** The shape of what one reviewer's iteration does *)

(** The entries of one messaging session: nothing when the session cannot
    be entered; otherwise the opening, the message if its sending succeeds,
    and the closing. Only a session that sent its message ends normally. *)
Inductive session_events (u : string) (telegram : pyval) (message : string)
  : result unit -> list entry -> Prop :=
| se_refused e :
    session_events u telegram message (Raise e) []
| se_unsent e :
    session_events u telegram message (Raise e)
      [mk_entry u SessionOpen; mk_entry u SessionClose]
| se_sent r :
    session_events u telegram message r
      [mk_entry u SessionOpen; mk_entry u (Send telegram message); mk_entry u SessionClose].

Section Shapes.
Variable env : Environment.
Variable config : Config.
Variable message_template : string.

Definition table_name_of (username table_name : string) : Prop :=
  exists year_month,
    format_year_month (year config) (month config) = Ok year_month /\
    str_format env (google_table_name config)
      [("year_month", PStr year_month); ("username", PStr username)] = Ok table_name.

Definition message_of (spreadsheet : nat) (message : string) : Prop :=
  str_format env message_template
    [("year", pyval_of_int (year config)); ("month", pyval_of_int (month config));
     ("spreadsheet_url", PStr (url env spreadsheet))] = Ok message.

(** The entries of lines 136-153 for one reviewer: at most the creation of
    one spreadsheet under the formatted name, followed by at most one
    session that carries the rendered message. *)
Inductive deliver_events (u : string) (telegram : pyval)
  : result unit -> list entry -> Prop :=
| de_nothing e :
    deliver_events u telegram (Raise e) []
| de_created e table_name sp :
    table_name_of u table_name ->
    deliver_events u telegram (Raise e) [mk_entry u (Create table_name sp)]
| de_session r table_name sp message evs :
    table_name_of u table_name ->
    message_of sp message ->
    session_events u telegram message r evs ->
    deliver_events u telegram r (mk_entry u (Create table_name sp) :: evs).

(** The confirmation prompt, present exactly when the flag is set. *)
Definition confirm_part (u : string) : list entry :=
  if confirm_every_reviewer config then [mk_entry u (Input (confirm_prompt u))] else [].

(** The entries of one iteration of the loop, path by path. *)
Inductive iteration_events (u : string) (telegram : pyval)
  : result unit -> list entry -> Prop :=
| ie_slice e :
    iteration_events u telegram (Raise e) []
| ie_no_work :
    iteration_events u telegram (Ok tt) [mk_entry u (Log INFO (no_work_message u))]
| ie_confirm_eof :
    confirm_every_reviewer config = true ->
    iteration_events u telegram (Raise EOFError) [mk_entry u (Input (confirm_prompt u))]
| ie_declined :
    confirm_every_reviewer config = true ->
    iteration_events u telegram (Ok tt)
      [mk_entry u (Input (confirm_prompt u)); mk_entry u (Log INFO (skip_message u))]
| ie_contact_eof :
    truthy telegram = false ->
    iteration_events u telegram (Raise EOFError)
      (confirm_part u ++ [mk_entry u (Input (contact_prompt u))])
| ie_no_contact :
    truthy telegram = false ->
    iteration_events u telegram (Ok tt)
      (confirm_part u ++ [mk_entry u (Input (contact_prompt u));
                          mk_entry u (Log WARNING (no_contact_message u))])
| ie_asked answer r evs :
    truthy telegram = false ->
    answer <> "" ->
    deliver_events u (PStr answer) r evs ->
    iteration_events u telegram r
      (confirm_part u ++ mk_entry u (Input (contact_prompt u)) :: evs)
| ie_known r evs :
    truthy telegram = true ->
    deliver_events u telegram r evs ->
    iteration_events u telegram r (confirm_part u ++ evs).

(** The entries of the loop over the reviewers: the iterations one after
    the other, up to the first that raises. *)
Inductive run_events : list (string * pyval) -> result unit -> list entry -> Prop :=
| re_done :
    run_events [] (Ok tt) []
| re_raise u telegram rest e evs :
    iteration_events u telegram (Raise e) evs ->
    run_events ((u, telegram) :: rest) (Raise e) evs
| re_next u telegram rest evs r evs' :
    iteration_events u telegram (Ok tt) evs ->
    run_events rest r evs' ->
    run_events ((u, telegram) :: rest) r (evs ++ evs').

End Shapes.

(** The two worksheets of a spreadsheet the run has filled for a reviewer. *)
Definition filled_worksheets (reviews summary_rows : DataFrame) : list Worksheet :=
  [fill reviews (set_title "Ревью" (blank_worksheet "Sheet1" 1000 26));
   fill summary_rows (blank_worksheet "Суммарно" 1000 26)].

Definition creations (t : list entry) : nat :=
  length (List.filter (fun en => is_create (what en)) t).

(** What holds after the stages of one iteration that started in [w] for
    reviewer [u], whose slices are [rv] and [sm]. *)
Definition iteration_post (env : Environment) (config : Config) (message_template : string)
    (u : string) (telegram : pyval) (rv sm : DataFrame)
    (w : World) (r : result unit) (w' : World) : Prop :=
  stdin w' `suffix_of` stdin w /\
  drive w `prefix_of` drive w' /\
  exists evs,
    trace w' = trace w ++ evs /\
    iteration_events env config message_template u telegram r evs /\
    length (drive w') = (length (drive w) + creations evs)%nat /\
    (r = Ok tt ->
     (exists entity message, mk_entry u (Send entity message) ∈ evs) ->
     exists s, drive w' = drive w ++ [s] /\ worksheets s = filled_worksheets rv sm).

(** The prompts shown in a stretch of the trace, in order. *)
Definition prompts (t : list entry) : list string :=
  omap (fun en => match what en with Input p => Some p | _ => None end) t.

(** The entries a run has added to the trace of the world it started in. *)
Definition since (w w' : World) : list entry := drop (length (trace w)) (trace w').

(** An external call made between two worlds of a run failed. *)
Definition fault_between (env : Environment) (w w' : World) : Prop :=
  exists n code, (clock w <= n < clock w')%nat /\ fault env n = Some code.

(** A computation that lets no failure of an external call pass: when one
    of the calls it makes fails, it ends raising a [ServiceError]. *)
Definition surfacing (env : Environment) {A} (m : M A) : Prop :=
  forall w, wp m w (fun r w' =>
    (clock w <= clock w')%nat /\
    (fault_between env w w' -> exists code, r = Raise (ServiceError code))).

(** The slices of the sample frames for two of the reviewers. *)
Definition alice_reviews : DataFrame :=
  {| columns := ["Ревьюер"; "Урок"; "Сумма"];
     values := [[PStr "alice"; PStr "django-1"; PInt 300];
                [PStr "alice"; PStr "django-2"; PInt 300]] |}.

Definition alice_summary : DataFrame :=
  {| columns := ["Ревьюер"; "Итого"]; values := [[PStr "alice"; PInt 600]] |}.

Definition carol_reviews : DataFrame :=
  {| columns := ["Ревьюер"; "Урок"; "Сумма"];
     values := [[PStr "carol"; PStr "async-2"; PInt 500]] |}.

Definition carol_summary : DataFrame :=
  {| columns := ["Ревьюер"; "Итого"]; values := [[PStr "carol"; PInt 500]] |}.



(** * Vocabulary of the further properties *)

(** Number of rows of the slice of a frame for one reviewer (0 when the
    frame cannot be sliced). *)
Definition slice_size (df : DataFrame) (username : string) : nat :=
  match reviewer_slice df username with
  | Ok s => shape0 s
  | Raise _ => 0%nat
  end.

(** Whether the reviewer cell of a row names one of the given reviewers. *)
Definition reviewer_among (i : nat) (usernames : list string) (row : list pyval) : bool :=
  existsb (fun u => belongs i u row) usernames.

(** The world with one new spreadsheet after the reviews have been written
    to its first worksheet, and that worksheet. *)
Definition world_with_reviews : World :=
  (write_df_to_worksheet sample_env 0 sample_reviews 0 "Ревью" world_with_spreadsheet).2.

Definition reviews_worksheet : Worksheet :=
  fill sample_reviews (set_title "Ревью" (blank_worksheet "Sheet1" 1000 26)).

(** The sample environment with the sixth external call failing. *)
Definition sixth_call_fails : Environment :=
  environment_of sample_format sample_invoice
    (fun n => if (n =? 5)%nat then Some 503%nat else None).

(** The spreadsheet of a reviewer as a completed delivery leaves it: named,
    readable by anyone who has the link, and holding the two tables. *)
Definition delivered_spreadsheet (table_name : string) (reviews summary_rows : DataFrame)
  : Spreadsheet :=
  {| sp_title := table_name;
     permissions := [link_reader];
     worksheets := filled_worksheets reviews summary_rows |}.

(** The entries of a completed delivery. *)
Definition delivery_entries (u : string) (telegram : pyval) (table_name : string)
    (spreadsheet : nat) (message : string) : list entry :=
  [mk_entry u (Create table_name spreadsheet); mk_entry u SessionOpen;
   mk_entry u (Send telegram message); mk_entry u SessionClose].

(** The sample environment with a formatter that knows no field [url]: the
    template that names it raises [KeyError], as [str.format] does. *)
Definition picky_env : Environment :=
  environment_of
    (fun template args =>
       if String.eqb template "{url}" then Raise (KeyError "url")
       else sample_format template args)
    sample_invoice (fun _ => None).

(** Input is read at prompts only, one line for each: the lines [consumed]
    between two worlds are as many as the prompts shown, or one fewer when
    the last prompt found the input at its end and raised [EOFError]. *)
Definition input_account (w w' : World) (r : result unit) (evs : list entry) : Prop :=
  exists consumed,
    stdin w = consumed ++ stdin w' /\
    (length (prompts evs) = length consumed \/
     (length (prompts evs) = S (length consumed) /\ r = Raise EOFError /\ stdin w' = [])).

(** Whether a reviewer of the mapping has rows in the summary. *)
Definition has_work (summary_df : DataFrame) (item : string * pyval) : bool :=
  negb (slice_size summary_df item.1 =? 0)%nat.

(** The messages sent in a stretch of the trace: for whom and to which
    contact, in order. *)
Definition deliveries (t : list entry) : list (string * pyval) :=
  omap (fun en => match what en with
                  | Send entity _ => Some (who en, entity)
                  | _ => None
                  end) t.

(** The spreadsheet of a reviewer of the mapping after a completed
    delivery, for some formatted name. *)
Definition delivered_for (env : Environment) (config : Config)
    (month_reviews_df summary_df : DataFrame)
    (item : string * pyval) (s : Spreadsheet) : Prop :=
  exists table_name rv sm,
    table_name_of env config item.1 table_name /\
    reviewer_slice month_reviews_df item.1 = Ok rv /\
    reviewer_slice summary_df item.1 = Ok sm /\
    s = delivered_spreadsheet table_name rv sm.

(** The sample invoice with a contact on record for every reviewer. *)
Definition known_invoice : Invoice :=
  {| month_reviews := sample_reviews;
     summary := sample_summary;
     dvmn_reviewers := [("alice", PStr "@alice_tg"); ("bob", PStr "@bob_tg");
                        ("carol", PStr "@carol_tg")] |}.

Definition known_env : Environment :=
  environment_of sample_format known_invoice (fun _ => None).

Definition sample_login :=
  Login._login string nat sample_json_load sample_json_dump sample_oauth sample_open_error.

Definition sample_get_google_client :=
  Login.get_google_client string nat sample_json_load sample_json_dump sample_oauth
    sample_open_error.

(** Settings to try the entry point on: decimal integers, the two words
    for the booleans, and an environment that sets the required variables
    and [MONTH], and neither [YEAR] nor the file of the stored token. *)
Definition sample_parse_int (value : string) : option Z :=
  Z.of_int <$> NilZero.int_of_string value.

Definition sample_parse_bool (value : string) : option bool :=
  if String.eqb value "true" then Some true
  else if String.eqb value "false" then Some false
  else None.

Definition sample_environ : gmap string string :=
  list_to_map
    [("GOOGLE_CREDENTIALS_FILE_PATH", "credentials.json");
     ("DEVMAN_TOKEN", "token");
     ("MONTH", "1");
     ("GOOGLE_TABLE_NAME", "Инвойс");
     ("TELEGRAM_API_ID", "1");
     ("TELEGRAM_API_HASH", "hash");
     ("MESSAGE_TEMPLATE_FILENAME", "message.txt")].

Definition tenth_of_january : Calendar.datetime :=
  {| Calendar.year := 2027; Calendar.month := 1; Calendar.day := 10;
     Calendar.hour := 9; Calendar.minute := 0; Calendar.second := 0;
     Calendar.microsecond := 0 |}.

(** The configuration the entry point builds from them. *)
Definition january_config : Config :=
  {| google_credentials_file_path := "credentials.json";
     google_authorized_user_file_path := "";
     devman_token := "token";
     month := Some 1;
     year := Some 2026;
     google_table_name := "Инвойс";
     telegram_api_id := 1;
     telegram_api_hash := "hash";
     confirm_every_reviewer := false;
     message_template_filename := "message.txt" |}.

(** * Properties *)

(** ** The default period *)
Section CalendarFacts.
Import Calendar.

Lemma days_in_month_bounds y m :
  1 <= m <= 12 -> 28 <= days_in_month y m <= 31.
Proof.
  intros Hm. unfold days_in_month.
  assert (m = 1 \/ m = 2 \/ m = 3 \/ m = 4 \/ m = 5 \/ m = 6 \/ m = 7 \/
          m = 8 \/ m = 9 \/ m = 10 \/ m = 11 \/ m = 12) as Hc by lia.
  destruct (is_leap y);
    repeat (destruct Hc as [-> | Hc]; [simpl; lia |]); subst; simpl; lia.
Qed.

Lemma pred_day_valid d p :
  valid_datetime d -> pred_day d = Some p -> valid_datetime p.
Proof.
  unfold valid_datetime, pred_day, MINYEAR, MAXYEAR.
  intros (Hy & Hm & Hd & Ht) Hp.
  destruct (1 <? day d) eqn:E1.
  { apply Z.ltb_lt in E1. inversion Hp; subst; simpl. repeat split; try lia; tauto. }
  destruct (1 <? month d) eqn:E2.
  { apply Z.ltb_lt in E2. inversion Hp; subst; simpl.
    pose proof (days_in_month_bounds (year d) (month d - 1)).
    repeat split; try lia; tauto. }
  destruct (1 <? year d) eqn:E3; [| discriminate].
  apply Z.ltb_lt in E3. inversion Hp; subst; simpl.
  repeat split; try lia; try tauto.
  unfold days_in_month. simpl. lia.
Qed.

(** Walking back fewer days than the day of the month stays in the month. *)
Lemma sub_days_same_month (k : nat) : forall d,
  Z.of_nat k < day d ->
  sub_days d k = Some (with_date d (year d) (month d) (day d - Z.of_nat k)).
Proof.
  induction k as [| k IH]; intros d Hk.
  - simpl. f_equal. destruct d; unfold with_date; simpl. f_equal. lia.
  - cbn [sub_days]. unfold pred_day.
    assert ((1 <? day d) = true) as E by (apply Z.ltb_lt; lia).
    rewrite E, IH by (simpl; lia). simpl. f_equal. unfold with_date. simpl.
    f_equal. lia.
Qed.

(** Walking back exactly [day d] days lands on the last day of the month
    before, unless [d] lies in January of [MINYEAR]. *)
Lemma sub_days_month_start d :
  1 <= day d ->
  sub_days d (Z.to_nat (day d)) = pred_day (with_date d (year d) (month d) 1).
Proof.
  intros Hd.
  replace (Z.to_nat (day d)) with (Z.to_nat (day d - 1) + 1)%nat by lia.
  generalize (sub_days_same_month (Z.to_nat (day d - 1)) d).
  intros H.
  assert (forall a b x, sub_days x (a + b) =
            match sub_days x a with Some y => sub_days y b | None => None end) as Hadd.
  { clear. induction a as [| a IH]; intros b x; simpl; [done |].
    destruct (pred_day x); [apply IH | done]. }
  rewrite Hadd, H by lia.
  replace (day d - Z.of_nat (Z.to_nat (day d - 1))) with 1 by lia.
  simpl. by destruct (pred_day _).
Qed.

Lemma search_first now : forall (n a k : nat) p,
  (a <= k < a + n)%nat ->
  (forall j, (a <= j < k)%nat ->
     exists q, sub_days now j = Some q /\ month q = month now) ->
  sub_days now k = Some p ->
  month p <> month now ->
  search now (seq a n) = Found k p.
Proof.
  induction n as [| n IH]; intros a k p Hk Hbefore Hsub Hne; [lia |].
  cbn [seq search].
  destruct (decide (a = k)) as [-> | Hak].
  - apply Z.eqb_neq in Hne. by rewrite Hsub, Hne.
  - destruct (Hbefore a) as (q & -> & Hq); [lia |].
    rewrite Hq, Z.eqb_refl. simpl.
    apply IH; auto; [lia |]. intros j Hj. apply Hbefore. lia.
Qed.

(** The model of day subtraction agrees with the ordinal arithmetic of
    [datetime]: one day back is one ordinal less. *)
Lemma days_before_year_step y :
  days_before_year (y + 1) = days_before_year y + (if is_leap y then 366 else 365).
Proof.
  unfold days_before_year, is_leap.
  replace (y + 1 - 1) with (y - 1 + 1) by lia.
  destruct (y mod 4 =? 0) eqn:E4; destruct (y mod 100 =? 0) eqn:E100;
    destruct (y mod 400 =? 0) eqn:E400; simpl;
    rewrite ?Z.eqb_eq, ?Z.eqb_neq in *;
    Z.div_mod_to_equations; lia.
Qed.

Lemma pred_day_toordinal d p :
  valid_datetime d -> pred_day d = Some p -> toordinal p = toordinal d - 1.
Proof.
  unfold valid_datetime, pred_day, toordinal, MINYEAR.
  intros (Hy & Hm & Hd & _) Hp.
  destruct (1 <? day d) eqn:E1.
  { inversion Hp; subst; simpl. lia. }
  apply Z.ltb_ge in E1. assert (day d = 1) as Hd1 by lia. rewrite Hd1.
  destruct (1 <? month d) eqn:E2.
  { apply Z.ltb_lt in E2. inversion Hp; subst; simpl.
    unfold days_before_month, days_in_month.
    assert (month d = 2 \/ month d = 3 \/ month d = 4 \/ month d = 5 \/
            month d = 6 \/ month d = 7 \/ month d = 8 \/ month d = 9 \/
            month d = 10 \/ month d = 11 \/ month d = 12) as Hc by lia.
    destruct (is_leap (year d));
      repeat (destruct Hc as [-> | Hc]; [simpl; lia |]); rewrite Hc; simpl; lia. }
  apply Z.ltb_ge in E2. assert (month d = 1) as Hm1 by lia. rewrite Hm1.
  destruct (1 <? year d) eqn:E3; [| discriminate].
  inversion Hp; subst; simpl.
  pose proof (days_before_year_step (year d - 1)) as Hs.
  replace (year d - 1 + 1) with (year d) in Hs by lia.
  unfold days_before_month. simpl.
  destruct (is_leap (year d - 1)); simpl; lia.
Qed.

Lemma sub_days_toordinal (k : nat) : forall d p,
  valid_datetime d -> sub_days d k = Some p ->
  valid_datetime p /\ toordinal p = toordinal d - Z.of_nat k.
Proof.
  induction k as [| k IH]; intros d p Hv Hs.
  - simpl in Hs. inversion Hs; subst. split; [done | lia].
  - cbn [sub_days] in Hs. destruct (pred_day d) as [q |] eqn:Hq; [| done].
    destruct (IH q p) as [Hvp Ho]; [by eapply pred_day_valid | done |].
    split; [done |]. rewrite Ho, (pred_day_toordinal d q) by done. lia.
Qed.

(** The earliest representable day has ordinal 1, so [OverflowError] is
    raised exactly when the ordinal would drop below 1. *)
Lemma pred_day_overflow d :
  valid_datetime d -> (pred_day d = None <-> toordinal d = 1).
Proof.
  intros Hv. pose proof Hv as (Hy & Hm & Hd & _). unfold MINYEAR in *.
  split.
  - unfold pred_day, MINYEAR.
    destruct (1 <? day d) eqn:E1; [done |].
    destruct (1 <? month d) eqn:E2; [done |].
    destruct (1 <? year d) eqn:E3; [done |]. intros _.
    apply Z.ltb_ge in E1, E2, E3.
    assert (year d = 1) as Hy1 by lia. assert (month d = 1) as Hm1 by lia.
    unfold toordinal. rewrite Hy1, Hm1.
    change (days_before_year 1) with 0. change (days_before_month 1 1) with 0. lia.
  - intros Ho. destruct (pred_day d) as [p |] eqn:Hp; [| done].
    pose proof (pred_day_toordinal d p Hv Hp) as Hpo.
    pose proof (pred_day_valid d p Hv Hp) as (Hpy & Hpm & Hpd & _).
    unfold MINYEAR in *.
    assert (0 <= days_before_year (year p)) as H0.
    { unfold days_before_year. simpl. Z.div_mod_to_equations. lia. }
    assert (0 <= days_before_month (year p) (month p)) as H1.
    { unfold days_before_month.
      assert (0 <= DAYS_BEFORE_MONTH (month p)).
      { assert (month p = 1 \/ month p = 2 \/ month p = 3 \/ month p = 4 \/
                month p = 5 \/ month p = 6 \/ month p = 7 \/ month p = 8 \/
                month p = 9 \/ month p = 10 \/ month p = 11 \/ month p = 12)
          as Hc by lia.
        repeat (destruct Hc as [-> | Hc]; [simpl; lia |]). rewrite Hc. simpl. lia. }
      destruct (_ && _); lia. }
    unfold toordinal in Hpo, Ho. lia.
Qed.

Lemma days_before_month_bounds y m :
  1 <= m <= 12 ->
  0 <= days_before_month y m /\
  days_before_month y m + days_in_month y m <= (if is_leap y then 366 else 365) /\
  (m < 12 -> days_before_month y (m + 1) = days_before_month y m + days_in_month y m).
Proof.
  intros Hm. unfold days_before_month, days_in_month.
  assert (m = 1 \/ m = 2 \/ m = 3 \/ m = 4 \/ m = 5 \/ m = 6 \/ m = 7 \/
          m = 8 \/ m = 9 \/ m = 10 \/ m = 11 \/ m = 12) as Hc by lia.
  destruct (is_leap y);
    repeat (destruct Hc as [-> | Hc]; [simpl; lia |]); subst; simpl; lia.
Qed.

Lemma days_before_month_mono y m1 m2 :
  1 <= m1 -> m1 < m2 -> m2 <= 12 ->
  days_before_month y m1 + days_in_month y m1 <= days_before_month y m2.
Proof.
  intros H1 Hlt H2.
  assert (exists k : nat, m2 = m1 + 1 + Z.of_nat k) as [k ->].
  { exists (Z.to_nat (m2 - m1 - 1)). lia. }
  induction k as [| k IH].
  - destruct (days_before_month_bounds y m1) as (_ & _ & Hstep); [lia |].
    rewrite Z.add_0_r, Hstep; lia.
  - destruct (days_before_month_bounds y (m1 + 1 + Z.of_nat k)) as (_ & _ & Hstep); [lia |].
    replace (m1 + 1 + Z.of_nat (S k)) with (m1 + 1 + Z.of_nat k + 1) by lia.
    rewrite Hstep by lia.
    pose proof (days_in_month_bounds y (m1 + 1 + Z.of_nat k)).
    specialize (IH ltac:(lia) ltac:(lia)). lia.
Qed.

Lemma days_before_year_mono y1 y2 :
  y1 < y2 ->
  days_before_year y1 + (if is_leap y1 then 366 else 365) <= days_before_year y2.
Proof.
  intros Hlt.
  assert (exists k : nat, y2 = y1 + 1 + Z.of_nat k) as [k ->].
  { exists (Z.to_nat (y2 - y1 - 1)). lia. }
  induction k as [| k IH].
  - rewrite Z.add_0_r, days_before_year_step. lia.
  - replace (y1 + 1 + Z.of_nat (S k)) with (y1 + 1 + Z.of_nat k + 1) by lia.
    rewrite days_before_year_step. specialize (IH ltac:(lia)).
    destruct (is_leap (y1 + 1 + Z.of_nat k)); lia.
Qed.

Lemma toordinal_positive d : valid_datetime d -> 1 <= toordinal d.
Proof.
  intros (Hy & Hm & Hd & _). unfold MINYEAR in Hy. unfold toordinal.
  destruct (days_before_month_bounds (year d) (month d) Hm) as (H0 & _).
  assert (0 <= days_before_year (year d)).
  { unfold days_before_year. simpl. Z.div_mod_to_equations. lia. }
  lia.
Qed.

(** A valid date is determined by its ordinal: the date that the model
    reaches by stepping back is the date of that ordinal. *)
Lemma toordinal_inj d1 d2 :
  valid_datetime d1 -> valid_datetime d2 ->
  toordinal d1 = toordinal d2 ->
  year d1 = year d2 /\ month d1 = month d2 /\ day d1 = day d2.
Proof.
  assert (Hwithin : forall d, valid_datetime d ->
            days_before_year (year d) < toordinal d <=
            days_before_year (year d) + (if is_leap (year d) then 366 else 365)).
  { intros d (_ & Hm & Hd & _). unfold toordinal.
    destruct (days_before_month_bounds (year d) (month d) Hm) as (H0 & H1 & _). lia. }
  assert (Hyear : forall d1 d2, valid_datetime d1 -> valid_datetime d2 ->
            toordinal d1 = toordinal d2 -> ~ year d1 < year d2).
  { intros e1 e2 Hv1 Hv2 Ho Hlt.
    pose proof (Hwithin e1 Hv1). pose proof (Hwithin e2 Hv2).
    pose proof (days_before_year_mono (year e1) (year e2) Hlt). lia. }
  assert (Hmonth : forall d1 d2, valid_datetime d1 -> valid_datetime d2 ->
            year d1 = year d2 -> toordinal d1 = toordinal d2 -> ~ month d1 < month d2).
  { intros e1 e2 (_ & Hm1 & Hd1 & _) (_ & Hm2 & Hd2 & _) Hy Ho Hlt.
    unfold toordinal in Ho. rewrite Hy in *.
    pose proof (days_before_month_mono (year e2) (month e1) (month e2)
                  ltac:(lia) Hlt ltac:(lia)). lia. }
  intros Hv1 Hv2 Ho.
  assert (year d1 = year d2) as Hy.
  { pose proof (Hyear d1 d2 Hv1 Hv2 Ho). pose proof (Hyear d2 d1 Hv2 Hv1 (eq_sym Ho)). lia. }
  assert (month d1 = month d2) as Hm.
  { pose proof (Hmonth d1 d2 Hv1 Hv2 Hy Ho).
    pose proof (Hmonth d2 d1 Hv2 Hv1 (eq_sym Hy) (eq_sym Ho)). lia. }
  split; [done |]. split; [done |]. unfold toordinal in Ho. rewrite Hy, Hm in Ho. lia.
Qed.

(** The subtraction overflows exactly when the ordinal would not stay
    positive. *)
Lemma sub_days_overflow (k : nat) : forall d,
  valid_datetime d -> (sub_days d k = None <-> toordinal d <= Z.of_nat k).
Proof.
  induction k as [| k IH]; intros d Hv.
  - simpl. pose proof (toordinal_positive d Hv). split; [done | lia].
  - cbn [sub_days]. destruct (pred_day d) as [p |] eqn:Hp.
    + rewrite (IH p) by (by eapply pred_day_valid).
      rewrite (pred_day_toordinal d p Hv Hp). lia.
    + apply pred_day_overflow in Hp; [| done]. split; [lia | done].
Qed.

(** At the lower end of the calendar the loop cannot go back a month: on
    0001-01-15 the offsets 1 to 14 stay in January and offset 15 makes the
    subtraction raise [OverflowError]. No clock gives such a date. *)
Lemma default_period_year_one :
  valid_datetime january_of_year_one /\
  default_period january_of_year_one = OverflowError /\
  ~ (exists offset p, default_period january_of_year_one = Found offset p).
Proof.
  split; [cbv -[Z.le Z.lt]; lia |].
  split; [reflexivity |].
  intros (offset & p & H). vm_compute in H. discriminate.
Qed.

(** C1: for every current date [now], the loop over offsets 1..31 stops at
    the first offset whose date is in another month. That offset is the day
    of the month of [now] (hence at most 31), every smaller offset stays in
    the month of [now], and the default month and year are those of the
    calendar month just before the month of [now]. A current date is what
    [datetime.datetime.now()] returns: a valid date, and one that has a
    month before it in the calendar, which leaves out only January of
    [MINYEAR]. *)
Theorem C1_default_period_previous_month (now : datetime) :
  valid_datetime now ->
  (MINYEAR < year now \/ 1 < month now) ->
  exists prev_month_date,
    default_period now = Found (Z.to_nat (day now)) prev_month_date /\
    (1 <= Z.to_nat (day now) <= max_days_in_month)%nat /\
    month prev_month_date <> month now /\
    (forall j, (1 <= j < Z.to_nat (day now))%nat ->
       exists q, sub_days now j = Some q /\ month q = month now) /\
    default_year (default_period now) = Some (fst (previous_month (year now) (month now))) /\
    default_month (default_period now) = Some (snd (previous_month (year now) (month now))) /\
    toordinal prev_month_date = toordinal now - day now.
Proof.
  intros Hv Hnot. pose proof Hv as (Hy & Hm & Hd & Ht).
  pose proof (days_in_month_bounds (year now) (month now) Hm) as Hdim.
  assert (Hbefore : forall j, (1 <= j < Z.to_nat (day now))%nat ->
            exists q, sub_days now j = Some q /\ month q = month now).
  { intros j Hj. eexists. split; [apply sub_days_same_month; lia | done]. }
  assert (Hlast : exists p, sub_days now (Z.to_nat (day now)) = Some p /\
            (year p, month p) = previous_month (year now) (month now)).
  { rewrite sub_days_month_start by lia.
    unfold pred_day, previous_month, with_date. simpl.
    destruct (1 <? month now) eqn:E2.
    - apply Z.ltb_lt in E2. eexists. split; [done |]. simpl.
      assert ((month now =? 1) = false) as E by (apply Z.eqb_neq; lia).
      by rewrite E.
    - apply Z.ltb_ge in E2.
      assert ((MINYEAR <? year now) = true) as E3 by (apply Z.ltb_lt; lia).
      rewrite E3. eexists. split; [done |]. simpl.
      assert ((month now =? 1) = true) as E by (apply Z.eqb_eq; lia).
      by rewrite E. }
  destruct Hlast as (p & Hp & Hprev).
  assert (Hne : month p <> month now).
  { unfold previous_month in Hprev.
    destruct (month now =? 1) eqn:E; inversion Hprev;
      [apply Z.eqb_eq in E | apply Z.eqb_neq in E]; lia. }
  assert (Hfound : default_period now = Found (Z.to_nat (day now)) p).
  { unfold default_period, max_days_in_month. apply search_first; auto. lia. }
  exists p. rewrite Hfound. simpl. rewrite <- Hprev. simpl.
  repeat split; auto; try (unfold max_days_in_month; lia).
  destruct (sub_days_toordinal _ _ _ Hv Hp) as [_ Ho]. lia.
Qed.

(** The default period on the third of November 2026. *)
Lemma C1_default_period_witness :
  exists prev_month_date,
    default_period third_of_november = Found 3 prev_month_date /\
    (1 <= 3 <= max_days_in_month)%nat /\
    month prev_month_date <> 11 /\
    (forall j, (1 <= j < 3)%nat ->
       exists q, sub_days third_of_november j = Some q /\ month q = 11) /\
    default_year (default_period third_of_november) = Some 2026 /\
    default_month (default_period third_of_november) = Some 10 /\
    toordinal prev_month_date = toordinal third_of_november - 3.
Proof.
  apply (C1_default_period_previous_month third_of_november).
  - cbv -[Z.le Z.lt]; lia.
  - left. cbv -[Z.le Z.lt]; lia.
Defined.

End CalendarFacts.

(** ** Reasoning about computations *)

Lemma wp_run {A} (m : M A) w Q r w' : wp m w Q -> m w = (r, w') -> Q r w'.
Proof. unfold wp. intros H E. by rewrite E in H. Qed.

Lemma wp_intro {A} (m : M A) w (Q : result A -> World -> Prop) :
  (forall r w', m w = (r, w') -> Q r w') -> wp m w Q.
Proof. unfold wp. intros H. destruct (m w) as [r w'] eqn:E. by apply H. Qed.

Lemma wp_mono {A} (m : M A) w (Q Q' : result A -> World -> Prop) :
  wp m w Q -> (forall r w', Q r w' -> Q' r w') -> wp m w Q'.
Proof. unfold wp. destruct (m w). auto. Qed.

Lemma wp_ret {A} (a : A) w (Q : result A -> World -> Prop) :
  Q (Ok a) w -> wp (mret a) w Q.
Proof. done. Qed.

Lemma wp_raise {A} e w (Q : result A -> World -> Prop) :
  Q (Raise e) w -> wp (raise e) w Q.
Proof. done. Qed.

Lemma wp_lift {A} (r : result A) w (Q : result A -> World -> Prop) :
  Q r w -> wp (lift r) w Q.
Proof. done. Qed.

Lemma wp_bind {A B} (m : M A) (f : A -> M B) w (Q : result B -> World -> Prop) :
  wp m w (fun r w1 =>
    match r with
    | Ok a => wp (f a) w1 Q
    | Raise e => Q (Raise e) w1
    end) ->
  wp (m ≫= f) w Q.
Proof.
  unfold wp. change ((m ≫= f) w) with
    (match m w with (Ok a, w1) => f a w1 | (Raise e, w1) => (Raise e, w1) end).
  destruct (m w) as [[a | e] w1]; auto.
Qed.

Lemma wp_try_except {A} (body handler : M A) (caught : exn -> bool) w (Q : result A -> World -> Prop) :
  wp body w (fun r w1 =>
    match r with
    | Ok a => Q (Ok a) w1
    | Raise e => if caught e then wp handler w1 Q else Q (Raise e) w1
    end) ->
  wp (try_except body caught handler) w Q.
Proof.
  unfold wp, try_except. destruct (body w) as [[a | e] w1]; auto.
  destruct (caught e); auto.
Qed.

Lemma wp_async_with {A} (enter exit : M unit) (body : M A) w
    (Q : result A -> World -> Prop) :
  wp enter w (fun r w1 =>
    match r with
    | Raise e => Q (Raise e) w1
    | Ok _ =>
        wp body w1 (fun rb w2 =>
          wp exit w2 (fun rx w3 =>
            match rx with
            | Raise e => Q (Raise e) w3
            | Ok _ => Q rb w3
            end))
    end) ->
  wp (async_with enter exit body) w Q.
Proof.
  unfold wp, async_with. destruct (enter w) as [[[] | e] w1]; auto.
  destruct (body w1) as [rb w2]. destruct (exit w2) as [[[] | e] w3]; auto.
Qed.

Lemma wp_emit reviewer e w (Q : result unit -> World -> Prop) :
  Q (Ok tt) (set_trace (trace w ++ [mk_entry reviewer e]) w) ->
  wp (emit reviewer e) w Q.
Proof. done. Qed.

Lemma wp_external env w (Q : result unit -> World -> Prop) :
  (fault env (clock w) = None -> Q (Ok tt) (set_clock (S (clock w)) w)) ->
  (forall code, fault env (clock w) = Some code ->
     Q (Raise (ServiceError code)) (set_clock (S (clock w)) w)) ->
  wp (external env) w Q.
Proof.
  unfold wp, external. intros Hok Hfail. destruct (fault env (clock w)); auto.
Qed.

Lemma wp_read_line w (Q : result string -> World -> Prop) :
  (stdin w = [] -> Q (Raise EOFError) w) ->
  (forall line rest, stdin w = line :: rest -> Q (Ok line) (set_stdin rest w)) ->
  wp read_line w Q.
Proof.
  unfold wp, read_line. intros Heof Hline. destruct (stdin w); eauto.
Qed.

Lemma wp_with_spreadsheet {A} sp (k : Spreadsheet -> M A) w
    (Q : result A -> World -> Prop) :
  (drive w !! sp = None -> Q (Raise (ServiceError 404)) w) ->
  (forall s, drive w !! sp = Some s -> wp (k s) w Q) ->
  wp (with_spreadsheet sp k) w Q.
Proof.
  unfold wp, with_spreadsheet. intros Hnone Hsome.
  destruct (drive w !! sp) as [s |] eqn:E; [by apply Hsome | by apply Hnone].
Qed.


Lemma wp_open_read path w (Q : result string -> World -> Prop) :
  (Login.read_file (host w) path = None -> Q (Raise (FileNotFoundError path)) w) ->
  (forall text, Login.read_file (host w) path = Some text -> Q (Ok text) w) ->
  wp (open_read path) w Q.
Proof.
  unfold wp, open_read. intros Hnone Hsome.
  destruct (Login.read_file (host w) path) as [text |]; auto.
Qed.

(** The login acts on the host only. *)
Lemma wp_get_google_client env google_loginer w (Q : result (option Client) -> World -> Prop) :
  (forall r h, Q r (set_host h w)) ->
  wp (get_google_client env google_loginer) w Q.
Proof.
  unfold wp, get_google_client. intros H.
  destruct (Login.get_google_client _ _ _ _ _ _ _ _) as [[[c | e] self] h]; apply H.
Qed.

(** ** The spreadsheet backend *)
Lemma backend_step_refl sp w : backend_step sp w w.
Proof. by repeat split. Qed.

Lemma backend_step_trans sp w1 w2 w3 :
  backend_step sp w1 w2 -> backend_step sp w2 w3 -> backend_step sp w1 w3.
Proof.
  intros (Hi & Ht & Hl & Hd) (Hi' & Ht' & Hl' & Hd').
  repeat split; try congruence. intros j Hj. by rewrite Hd', Hd.
Qed.

Ltac chain_steps :=
  repeat (eapply backend_step_trans; [eassumption |]);
  first [eassumption | apply backend_step_refl].

Section Backend.
Variable env : Environment.

Lemma backend_step_clock sp n w : backend_step sp w (set_clock n w).
Proof. by repeat split. Qed.

Lemma backend_step_store sp s w :
  backend_step sp w (set_drive (<[sp := s]> (drive w)) w).
Proof.
  repeat split; simpl; [apply length_insert |].
  intros j Hj. by apply list_lookup_insert_ne.
Qed.

Lemma py_index_lt {A} (l : list A) i pos :
  py_index l i = Some pos -> (pos < length l)%nat.
Proof.
  unfold py_index. intros H.
  destruct ((0 <=? i) && (i <? Z.of_nat (length l))) eqn:E1.
  - apply andb_true_iff in E1 as [H1 H2]. apply Z.leb_le in H1. apply Z.ltb_lt in H2.
    inversion H; subst. lia.
  - destruct ((i <? 0) && (0 <=? i + Z.of_nat (length l))) eqn:E2; [| done].
    apply andb_true_iff in E2 as [H1 H2]. apply Z.ltb_lt in H1. apply Z.leb_le in H2.
    inversion H; subst. lia.
Qed.

Lemma py_index_nat {A} (l : list A) (n : nat) :
  py_index l (Z.of_nat n) = if decide (n < length l)%nat then Some n else None.
Proof.
  unfold py_index.
  assert ((Z.of_nat n <? 0) = false) as E0 by (apply Z.ltb_ge; lia).
  assert ((0 <=? Z.of_nat n) = true) as E1 by (apply Z.leb_le; lia).
  rewrite E0, E1. simpl. case_decide.
  - assert ((Z.of_nat n <? Z.of_nat (length l)) = true) as E2 by (apply Z.ltb_lt; lia).
    rewrite E2. f_equal. lia.
  - assert ((Z.of_nat n <? Z.of_nat (length l)) = false) as E2 by (apply Z.ltb_ge; lia).
    by rewrite E2.
Qed.

(** Any edit of one worksheet: the rename, the header row, the data rows. *)
Lemma edit_worksheet_spec sp pos f w :
  wp (external env ;; update_worksheet sp pos f) w (fun r w' =>
    backend_step sp w w' /\
    match r with
    | Ok _ =>
        exists s ws, drive w !! sp = Some s /\ worksheets s !! pos = Some ws /\
          drive w' !! sp = Some (set_worksheets (<[pos := f ws]> (worksheets s)) s)
    | Raise e =>
        e <> WorksheetNotFound /\ drive w' = drive w /\
        (quiet env -> forall s ws,
           drive w !! sp = Some s -> worksheets s !! pos = Some ws -> False)
    end).
Proof.
  apply wp_bind, wp_external.
  - intros _. unfold update_worksheet. apply wp_with_spreadsheet.
    + intros Hnone. split; [apply backend_step_clock |].
      repeat split; [done |]. simpl in Hnone. intros _ s ws Hs. congruence.
    + intros s Hs. simpl in Hs. destruct (worksheets s !! pos) as [ws |] eqn:Hws.
      * unfold update_spreadsheet. apply wp_with_spreadsheet; [simpl; congruence |].
        intros s' Hs'. simpl in Hs'. assert (s' = s) as -> by congruence.
        unfold wp, store_spreadsheet. simpl. split.
        { apply (backend_step_store sp _ w). }
        exists s, ws. repeat split; try done.
        apply list_lookup_insert_eq. by eapply lookup_lt_Some.
      * apply wp_raise. split; [apply backend_step_clock |].
        repeat split; [done |]. intros _ s' ws' Hs'. congruence.
  - intros code Hcode. split; [apply backend_step_clock |].
    repeat split; [done |]. intros Hq. rewrite Hq in Hcode. done.
Qed.

Lemma get_worksheet_spec sp idx w :
  wp (get_worksheet env sp idx) w (fun r w' =>
    backend_step sp w w' /\ drive w' = drive w /\
    match r with
    | Ok h =>
        exists s pos, drive w !! sp = Some s /\
          py_index (worksheets s) idx = Some pos /\ h = (sp, pos)
    | Raise e =>
        (e = WorksheetNotFound ->
           exists s, drive w !! sp = Some s /\ py_index (worksheets s) idx = None) /\
        (quiet env -> forall s, drive w !! sp = Some s ->
           py_index (worksheets s) idx = None /\ e = WorksheetNotFound)
    end).
Proof.
  unfold get_worksheet. apply wp_bind, wp_external.
  - intros _. apply wp_with_spreadsheet.
    + simpl. intros Hnone. split; [apply backend_step_clock |].
      repeat split; [done | |]; intros; congruence.
    + simpl. intros s Hs. destruct (py_index (worksheets s) idx) as [pos |] eqn:Hpos.
      * apply wp_ret. split; [apply backend_step_clock |]. split; [done |]. eauto.
      * apply wp_raise. split; [apply backend_step_clock |]. split; [done |].
        split; [eauto |]. intros _ s' Hs'. split; congruence.
  - intros code Hcode. split; [apply backend_step_clock |]. split; [done |].
    split; [done |]. intros Hq. rewrite Hq in Hcode. done.
Qed.

Lemma list_worksheets_spec sp w :
  wp (list_worksheets env sp) w (fun r w' =>
    backend_step sp w w' /\ drive w' = drive w /\
    match r with
    | Ok all => exists s, drive w !! sp = Some s /\ length all = length (worksheets s)
    | Raise e => e <> WorksheetNotFound /\ (quiet env -> drive w !! sp = None)
    end).
Proof.
  unfold list_worksheets. apply wp_bind, wp_external.
  - intros _. apply wp_with_spreadsheet.
    + simpl. intros Hnone. split; [apply backend_step_clock |]. by repeat split.
    + simpl. intros s Hs. apply wp_ret. split; [apply backend_step_clock |].
      split; [done |]. exists s. split; [done |]. by rewrite length_map, length_seq.
  - intros code Hcode. split; [apply backend_step_clock |]. split; [done |].
    split; [done |]. intros Hq. rewrite Hq in Hcode. done.
Qed.

Lemma add_worksheet_spec sp name rows cols w :
  wp (add_worksheet env sp name rows cols) w (fun r w' =>
    backend_step sp w w' /\
    match r with
    | Ok _ =>
        exists s, drive w !! sp = Some s /\
          drive w' !! sp =
            Some (set_worksheets (worksheets s ++ [blank_worksheet name rows cols]) s)
    | Raise e =>
        e <> WorksheetNotFound /\ drive w' = drive w /\
        (quiet env -> drive w !! sp = None)
    end).
Proof.
  unfold add_worksheet. apply wp_bind, wp_external.
  - intros _. apply wp_with_spreadsheet.
    + simpl. intros Hnone. split; [apply backend_step_clock |]. by repeat split.
    + simpl. intros s Hs. apply wp_bind. unfold update_spreadsheet.
      apply wp_with_spreadsheet; [simpl; congruence |].
      simpl. intros s' Hs'. assert (s' = s) as -> by congruence.
      unfold wp, store_spreadsheet. simpl. split.
      { apply (backend_step_store sp _ w). }
      exists s. split; [done |]. apply list_lookup_insert_eq. by eapply lookup_lt_Some.
  - intros code Hcode. split; [apply backend_step_clock |].
    repeat split; [done |]. intros Hq. rewrite Hq in Hcode. done.
Qed.

(** Writing the values into the blank rows made for them gives the rows
    inserted. *)
Lemma put_at_blank at_row rows grid :
  put_at at_row rows (insert_at at_row (replicate (length rows) []) grid) =
  insert_at at_row rows grid.
Proof.
  unfold put_at, insert_at. cbv zeta.
  generalize (at_row - 1)%nat. intros before.
  set (pad := replicate (before - length grid)%nat ([] : list pyval)).
  set (blank := replicate (length rows) ([] : list pyval)).
  assert (Hlen : length (take before grid ++ pad) = before).
  { rewrite length_app, length_take. unfold pad. rewrite length_replicate. lia. }
  assert (Hblank : length blank = length rows) by apply length_replicate.
  rewrite (app_assoc (take before grid) pad (blank ++ _)).
  rewrite take_app_length' by done.
  rewrite (length_app (take before grid ++ pad)), Hlen.
  replace (before - (before + length (blank ++ drop before grid)))%nat with 0%nat by lia.
  rewrite drop_app_add' by done.
  rewrite drop_app_length' by done.
  simpl. by rewrite <- app_assoc.
Qed.

Lemma put_rows_blank at_row rows ws :
  put_rows at_row rows (add_rows at_row (replicate (length rows) []) ws) =
  add_rows at_row rows ws.
Proof.
  unfold put_rows, add_rows. simpl. by rewrite put_at_blank, length_replicate.
Qed.

(** The insertion of rows, in its two requests. *)
Lemma insert_rows_spec sp pos rows row w :
  wp (insert_rows env (sp, pos) rows row) w (fun r w' =>
    backend_step sp w w' /\
    match r with
    | Ok _ =>
        exists s ws, drive w !! sp = Some s /\ worksheets s !! pos = Some ws /\
          drive w' !! sp = Some (set_worksheets (<[pos := add_rows row rows ws]> (worksheets s)) s)
    | Raise e =>
        e <> WorksheetNotFound /\
        (quiet env -> forall s ws,
           drive w !! sp = Some s -> worksheets s !! pos = Some ws -> False)
    end).
Proof.
  unfold insert_rows. cbn [fst snd].
  apply wp_bind. eapply wp_mono; [apply edit_worksheet_spec |].
  intros [[] | e] w1 [Hstep1 Hr1]; cycle 1.
  { destruct Hr1 as (Hne & _ & Hq). split; [done |]. by split. }
  destruct Hr1 as (s & ws & Hs & Hws & Hs1).
  eapply wp_mono; [apply edit_worksheet_spec |].
  intros [[] | e] w2 [Hstep2 Hr2]; simpl in *.
  - destruct Hr2 as (s1 & ws1 & Hs1' & Hws1 & Hs2).
    rewrite Hs1 in Hs1'. inversion Hs1'; subst s1. clear Hs1'.
    simpl in Hws1. rewrite list_lookup_insert_eq in Hws1 by (by eapply lookup_lt_Some).
    inversion Hws1; subst ws1. simpl in Hs2.
    rewrite list_insert_insert_eq, put_rows_blank in Hs2.
    split; [by eapply backend_step_trans |]. exists s, ws. by repeat split.
  - destruct Hr2 as (Hne & _ & Hq).
    split; [by eapply backend_step_trans |]. split; [done |].
    intros Hquiet s' ws' Hs' Hws'. eapply (Hq Hquiet); [apply Hs1 |].
    simpl. apply list_lookup_insert_eq. by eapply lookup_lt_Some.
Qed.

(** The header row and the data rows, written to one worksheet. *)
Lemma fill_spec sp pos df w :
  wp (insert_row env (sp, pos) (PStr <$> columns df) ;;
      insert_rows env (sp, pos) (values df) first_row_after_header) w (fun r w' =>
    backend_step sp w w' /\ r <> Raise WorksheetNotFound /\
    (r = Ok tt -> exists s ws,
       drive w !! sp = Some s /\ worksheets s !! pos = Some ws /\
       drive w' !! sp = Some (set_worksheets (<[pos := fill df ws]> (worksheets s)) s)) /\
    (quiet env -> forall s ws,
       drive w !! sp = Some s -> worksheets s !! pos = Some ws -> r = Ok tt)).
Proof.
  unfold insert_row.
  apply wp_bind. eapply wp_mono; [apply insert_rows_spec |].
  intros [[] | e] w1 [Hstep1 Hr1]; cycle 1.
  { destruct Hr1 as (Hne & Hq). split; [done |]. split; [congruence |].
    split; [done |]. intros Hquiet s ws Hs Hws. by destruct (Hq Hquiet s ws). }
  destruct Hr1 as (s & ws & Hs & Hws & Hs1).
  eapply wp_mono; [apply insert_rows_spec |].
  intros [[] | e] w2 [Hstep2 Hr2]; simpl in *.
  - destruct Hr2 as (s1 & ws1 & Hs1' & Hws1 & Hs2).
    assert (s1 = set_worksheets (<[pos := add_rows 1 [PStr <$> columns df] ws]> (worksheets s)) s)
      as -> by congruence.
    simpl in Hws1. rewrite list_lookup_insert_eq in Hws1 by (by eapply lookup_lt_Some).
    inversion Hws1; subst ws1. simpl in Hs2. rewrite list_insert_insert_eq in Hs2.
    split; [by eapply backend_step_trans |]. split; [done |]. split; [| done].
    intros _. exists s, ws. by repeat split.
  - destruct Hr2 as (Hne & Hq).
    split; [by eapply backend_step_trans |]. split; [congruence |]. split; [done |].
    intros Hquiet s' ws' Hs' Hws'. exfalso. eapply (Hq Hquiet); [apply Hs1 |].
    simpl. apply list_lookup_insert_eq. by eapply lookup_lt_Some.
Qed.

(** The write helper: what it leaves of the spreadsheet, that a missing
    worksheet never surfaces, and that it succeeds when no call fails. *)
Lemma write_df_spec sp df idx name w :
  wp (write_df_to_worksheet env sp df idx name) w (fun r w' =>
    backend_step sp w w' /\ r <> Raise WorksheetNotFound /\
    (r = Ok tt -> exists s,
       drive w !! sp = Some s /\
       drive w' !! sp = Some (set_worksheets (written (worksheets s) df idx name) s)) /\
    (quiet env -> is_Some (drive w !! sp) -> r = Ok tt)).
Proof.
  unfold write_df_to_worksheet.
  apply wp_bind, wp_try_except, wp_bind.
  eapply wp_mono; [apply get_worksheet_spec |].
  intros [h | e] w1 (Hstep1 & Hd1 & Hr1).
  - (* a worksheet at the slot: rename it *)
    destruct Hr1 as (s & pos & Hs & Hpos & ->).
    pose proof (py_index_lt _ _ _ Hpos) as Hlt.
    destruct (lookup_lt_is_Some_2 (worksheets s) pos Hlt) as [ws Hws].
    apply wp_bind. eapply wp_mono; [apply edit_worksheet_spec |].
    intros [[] | e] w2 [Hstep2 Hr2]; simpl in *.
    + destruct Hr2 as (s' & ws' & Hs' & Hws' & Hs2).
      rewrite Hd1 in Hs'. assert (s' = s) as -> by congruence.
      assert (ws' = ws) as -> by congruence.
      apply wp_ret. cbn beta iota.
      eapply wp_mono; [apply fill_spec |].
      intros r w3 (Hstep3 & Hne & Hok & Hq).
      split; [chain_steps |]. split; [done |]. split.
      * intros Hr. destruct (Hok Hr) as (s2 & ws2 & Hs2' & Hws2 & Hs3).
        rewrite Hs2 in Hs2'. inversion Hs2'; subst s2. simpl in Hws2.
        rewrite list_lookup_insert_eq in Hws2 by done. inversion Hws2; subst ws2.
        simpl in Hs3. rewrite list_insert_insert_eq in Hs3.
        exists s. split; [done |]. unfold written. by rewrite Hpos, Hws.
      * intros Hquiet _. eapply (Hq Hquiet); [apply Hs2 |].
        simpl. by apply list_lookup_insert_eq.
    + destruct Hr2 as (Hne & _ & Hq).
      assert (is_WorksheetNotFound e = false) as -> by (by destruct e).
      split; [chain_steps |]. split; [congruence |]. split; [done |].
      intros Hquiet _. exfalso. eapply (Hq Hquiet); [| apply Hws]. by rewrite Hd1.
  - destruct (is_WorksheetNotFound e) eqn:Hcaught; cycle 1.
    { (* another failure of the lookup goes through *)
      destruct Hr1 as [_ Hq]. split; [done |].
      split; [intros [= ->]; done |]. split; [done |].
      intros Hquiet [s Hs]. destruct (Hq Hquiet s Hs) as [_ ->]. done. }
    (* no worksheet at the slot: add one and take it by the old count *)
    assert (e = WorksheetNotFound) as -> by (by destruct e).
    destruct Hr1 as [Hwnf _]. destruct (Hwnf eq_refl) as (s & Hs & Hpos).
    apply wp_bind. eapply wp_mono; [apply list_worksheets_spec |].
    intros [all | e] w2 (Hstep2 & Hd2 & Hr2); cycle 1.
    { destruct Hr2 as [Hne Hq]. split; [chain_steps |].
      split; [congruence |]. split; [done |].
      intros Hquiet _. specialize (Hq Hquiet). congruence. }
    destruct Hr2 as (s' & Hs' & Hlen). rewrite Hd1 in Hs'.
    assert (s' = s) as -> by congruence.
    apply wp_bind. eapply wp_mono; [apply add_worksheet_spec |].
    intros [h | e] w3 [Hstep3 Hr3]; cycle 1.
    { destruct Hr3 as (Hne & _ & Hq). split; [chain_steps |].
      split; [congruence |]. split; [done |].
      intros Hquiet _. specialize (Hq Hquiet). congruence. }
    destruct Hr3 as (s'' & Hs'' & Hs3). rewrite Hd2, Hd1 in Hs''.
    assert (s'' = s) as -> by congruence.
    eapply wp_mono; [apply get_worksheet_spec |].
    intros [h' | e] w4 (Hstep4 & Hd4 & Hr4); cycle 1.
    { (* the added worksheet is there, so this lookup cannot miss it *)
      destruct Hr4 as [Hwnf' Hq].
      split; [chain_steps |]. split.
      { intros [= ->]. destruct (Hwnf' eq_refl) as (s4 & Hs4 & Hnone).
        rewrite Hs3 in Hs4. inversion Hs4; subst s4. simpl in Hnone.
        rewrite Hlen, py_index_nat, length_app in Hnone. simpl in Hnone.
        case_decide; [done | lia]. }
      split; [done |]. intros Hquiet _.
      destruct (Hq Hquiet _ Hs3) as [Hnone _]. simpl in Hnone.
      rewrite Hlen, py_index_nat, length_app in Hnone. simpl in Hnone.
      case_decide; [done | lia]. }
    destruct Hr4 as (s4 & pos & Hs4 & Hpos4 & ->).
    rewrite Hs3 in Hs4. inversion Hs4; subst s4. simpl in Hpos4.
    rewrite Hlen, py_index_nat, length_app in Hpos4. simpl in Hpos4.
    case_decide; [| lia]. inversion Hpos4; subst pos.
    eapply wp_mono; [apply fill_spec |].
    intros r w5 (Hstep5 & Hne & Hok & Hq).
    assert (Hnew : (worksheets s ++ [blank_worksheet name default_rows_count default_cols_count])
                     !! length (worksheets s) =
                   Some (blank_worksheet name default_rows_count default_cols_count)).
    { by rewrite lookup_app_r, Nat.sub_diag by lia. }
    split; [chain_steps |]. split; [done |]. split.
    + intros Hr. destruct (Hok Hr) as (s5 & ws5 & Hs5 & Hws5 & Hs6).
      rewrite Hd4, Hs3 in Hs5. inversion Hs5; subst s5. simpl in Hws5.
      rewrite Hnew in Hws5. inversion Hws5; subst ws5. simpl in Hs6.
      exists s. split; [done |]. unfold written. rewrite Hpos, Hs6.
      unfold set_worksheets. simpl. do 2 f_equal.
      rewrite insert_app_r_alt, Nat.sub_diag by lia. done.
    + intros Hquiet _. eapply (Hq Hquiet); [by rewrite Hd4 | apply Hnew].
Qed.

End Backend.

(** C7: a call of the write helper on a spreadsheet of the drive never ends
    in [WorksheetNotFound] and succeeds when no external call fails. When it
    succeeds and a worksheet exists at the slot, that worksheet is renamed
    to the given name and receives the table, all other worksheets staying
    as they are. When it succeeds and no worksheet exists at the slot, a
    worksheet of 1000 rows by 26 columns with the given name is appended,
    sits at the position equal to the worksheet count before the call, and
    receives the table. *)
Theorem C7_write_helper_target env sp s df idx name w :
  drive w !! sp = Some s ->
  let run := write_df_to_worksheet env sp df idx name w in
  run.1 <> Raise WorksheetNotFound /\
  (quiet env -> run.1 = Ok tt) /\
  (run.1 = Ok tt ->
     exists s', drive run.2 !! sp = Some s' /\
       match py_index (worksheets s) idx with
       | Some pos =>
           exists ws, worksheets s !! pos = Some ws /\
             worksheets s' = <[pos := fill df (set_title name ws)]> (worksheets s) /\
             title (fill df (set_title name ws)) = name
       | None =>
           worksheets s' = worksheets s ++ [fill df (blank_worksheet name 1000 26)] /\
           worksheets s' !! length (worksheets s) =
             Some (fill df (blank_worksheet name 1000 26))
       end).
Proof.
  intros Hs run. pose proof (write_df_spec env sp df idx name w) as Hspec.
  unfold wp in Hspec. fold run in Hspec. destruct run as [r w'] eqn:Hrun. simpl.
  destruct Hspec as (_ & Hne & Hok & Hq).
  split; [done |]. split; [intros Hquiet; apply Hq; eauto |].
  intros Hr. destruct (Hok Hr) as (s0 & Hs0 & Hs').
  assert (s0 = s) as -> by congruence.
  eexists. split; [apply Hs' |]. simpl. unfold written.
  destruct (py_index (worksheets s) idx) as [pos |] eqn:Hpos.
  - pose proof (py_index_lt _ _ _ Hpos) as Hlt.
    destruct (lookup_lt_is_Some_2 (worksheets s) pos Hlt) as [ws Hws].
    rewrite Hws. exists ws. by repeat split.
  - split; [done |]. by rewrite lookup_app_r, Nat.sub_diag by lia.
Qed.

(** The helper writing the summary to slot 1 of a new spreadsheet, where
    no worksheet is yet. *)
Lemma C7_write_helper_witness :
  let run := write_df_to_worksheet sample_env 0 sample_summary 1 "Суммарно"
               world_with_spreadsheet in
  run.1 <> Raise WorksheetNotFound /\
  (quiet sample_env -> run.1 = Ok tt) /\
  (run.1 = Ok tt ->
     exists s', drive run.2 !! 0%nat = Some s' /\
       match py_index (worksheets (new_spreadsheet "Инвойс")) 1 with
       | Some pos =>
           exists ws, worksheets (new_spreadsheet "Инвойс") !! pos = Some ws /\
             worksheets s' =
               <[pos := fill sample_summary (set_title "Суммарно" ws)]>
                 (worksheets (new_spreadsheet "Инвойс")) /\
             title (fill sample_summary (set_title "Суммарно" ws)) = "Суммарно"
       | None =>
           worksheets s' =
             worksheets (new_spreadsheet "Инвойс") ++
               [fill sample_summary (blank_worksheet "Суммарно" 1000 26)] /\
           worksheets s' !! length (worksheets (new_spreadsheet "Инвойс")) =
             Some (fill sample_summary (blank_worksheet "Суммарно" 1000 26))
       end).
Proof.
  apply (C7_write_helper_target sample_env 0 (new_spreadsheet "Инвойс")
           sample_summary 1 "Суммарно" world_with_spreadsheet).
  reflexivity.
Defined.

(** ** Creating, filling and announcing one spreadsheet *)
Section Deliver.
Variable env : Environment.

Lemma create_spec u table_name w :
  wp (create env u table_name) w (fun r w' =>
    stdin w' = stdin w /\
    match r with
    | Ok sp =>
        sp = length (drive w) /\
        drive w' = drive w ++ [new_spreadsheet table_name] /\
        trace w' = trace w ++ [mk_entry u (Create table_name sp)]
    | Raise e => drive w' = drive w /\ trace w' = trace w /\ ~ quiet env
    end).
Proof.
  unfold create. apply wp_bind, wp_external.
  - intros _. by unfold wp; simpl.
  - intros code Hcode. repeat split. intros Hq. by rewrite Hq in Hcode.
Qed.

Lemma share_spec sp p w :
  wp (share env sp p) w (fun r w' =>
    backend_step sp w w' /\
    match r with
    | Ok _ =>
        exists s, drive w !! sp = Some s /\ drive w' !! sp = Some (add_permission p s)
    | Raise e => quiet env -> drive w !! sp = None
    end).
Proof.
  unfold share. apply wp_bind, wp_external.
  - intros _. unfold update_spreadsheet. apply wp_with_spreadsheet.
    + simpl. intros Hnone. split; [apply backend_step_clock | done].
    + simpl. intros s Hs. unfold wp, store_spreadsheet. simpl. split.
      { apply (backend_step_store sp _ w). }
      exists s. split; [done |]. apply list_lookup_insert_eq. by eapply lookup_lt_Some.
  - intros code Hcode. split; [apply backend_step_clock |].
    intros Hq. by rewrite Hq in Hcode.
Qed.

Lemma session_spec u telegram message w :
  wp (async_with (aenter env u) (aexit env u) (send_message env u telegram message)) w
    (fun r w' =>
      stdin w' = stdin w /\ drive w' = drive w /\
      exists evs, trace w' = trace w ++ evs /\
        session_events u telegram message r evs /\
        (quiet env -> r = Ok tt)).
Proof.
  apply wp_async_with. unfold aenter. apply wp_bind, wp_external.
  - intros _. apply wp_emit. unfold send_message. apply wp_bind, wp_external.
    + intros _. apply wp_emit. unfold aexit. apply wp_bind, wp_emit, wp_external.
      * intros _. simpl. repeat split. eexists. split; [by rewrite <- !app_assoc |].
        split; [apply se_sent | done].
      * intros code Hcode. simpl. repeat split. eexists.
        split; [by rewrite <- !app_assoc |]. split; [apply se_sent |].
        intros Hq. by rewrite Hq in Hcode.
    + intros code Hcode. unfold aexit. apply wp_bind, wp_emit, wp_external.
      * intros _. simpl. repeat split. eexists. split; [by rewrite <- !app_assoc |].
        split; [apply se_unsent |]. intros Hq. simpl in Hcode. by rewrite Hq in Hcode.
      * intros code' _. simpl. repeat split. eexists.
        split; [by rewrite <- !app_assoc |]. split; [apply se_unsent |].
        intros Hq. simpl in Hcode. by rewrite Hq in Hcode.
  - intros code Hcode. simpl. repeat split. exists []. rewrite app_nil_r.
    split; [done |]. split; [apply se_refused |]. intros Hq. by rewrite Hq in Hcode.
Qed.

(** After calls about the last spreadsheet of the drive, that spreadsheet
    is still the last one and those before it are as they were. *)
Lemma backend_step_last d x w w' :
  drive w = d ++ [x] -> backend_step (length d) w w' ->
  exists s, drive w' = d ++ [s] /\ drive w' !! length d = Some s.
Proof.
  intros Hd (_ & _ & Hlen & Hother).
  rewrite Hd, length_app in Hlen. simpl in Hlen.
  destruct (lookup_lt_is_Some_2 (drive w') (length d)) as [s Hs]; [lia |].
  exists s. split; [| done]. apply list_eq. intros j.
  destruct (decide (j = length d)) as [-> | Hj].
  - by rewrite Hs, lookup_app_r, Nat.sub_diag by lia.
  - rewrite Hother, Hd by done.
    destruct (decide (j < length d)%nat).
    + by rewrite !lookup_app_l by lia.
    + rewrite !lookup_ge_None_2; [done | | ]; rewrite length_app; simpl; lia.
Qed.

Lemma written_first rv p table_name :
  written (worksheets (add_permission p (new_spreadsheet table_name))) rv 0 "Ревью" =
  [fill rv (set_title "Ревью" (blank_worksheet "Sheet1" 1000 26))].
Proof. reflexivity. Qed.

Lemma written_second (ws : Worksheet) sm :
  written [ws] sm 1 "Суммарно" = [ws; fill sm (blank_worksheet "Суммарно" 1000 26)].
Proof. reflexivity. Qed.

Lemma deliver_spec config message_template u telegram rv sm w :
  wp (deliver env config message_template u telegram rv sm) w (fun r w' =>
    stdin w' = stdin w /\
    exists evs, trace w' = trace w ++ evs /\
      deliver_events env config message_template u telegram r evs /\
      (evs = [] -> drive w' = drive w) /\
      (evs <> [] -> exists s, drive w' = drive w ++ [s] /\
         (r = Ok tt -> worksheets s = filled_worksheets rv sm)) /\
      (quiet env ->
       (exists table_name, table_name_of env config u table_name) ->
       (forall sp, exists message, message_of env config message_template sp message) ->
       r = Ok tt)).
Proof.
  unfold deliver.
  apply wp_bind, wp_lift.
  destruct (format_year_month (year config) (month config)) as [year_month | e] eqn:Hym.
  2:{ split; [done |]. exists []. rewrite app_nil_r. split; [done |].
      split; [apply de_nothing |]. split; [done |]. split; [done |].
      intros _ (table_name & ym & Hym' & _) _. congruence. }
  apply wp_bind, wp_lift.
  destruct (str_format env (google_table_name config) _) as [table_name | e] eqn:Hname.
  2:{ split; [done |]. exists []. rewrite app_nil_r. split; [done |].
      split; [apply de_nothing |]. split; [done |]. split; [done |].
      intros _ (table_name & ym & Hym' & Hname') _. congruence. }
  assert (Hnamed : table_name_of env config u table_name) by (by exists year_month).
  apply wp_bind. eapply wp_mono; [apply create_spec |].
  intros [sp | e] w1 [Hin1 Hr1].
  2:{ destruct Hr1 as (Hd1 & Ht1 & Hnq). split; [done |]. exists []. rewrite app_nil_r.
      split; [done |]. split; [apply de_nothing |]. split; [done |]. split; [done |].
      intros Hq. done. }
  destruct Hr1 as (-> & Hd1 & Ht1).
  set (sp := length (drive w)) in *.
  (* whatever follows, the drive ends with the new spreadsheet *)
  assert (Hlast : forall w', backend_step sp w1 w' ->
            stdin w' = stdin w /\ trace w' = trace w1 /\
            exists s, drive w' = drive w ++ [s] /\ drive w' !! sp = Some s).
  { intros w' Hstep. pose proof Hstep as (Hi & Ht & _).
    split; [congruence |]. split; [done |]. by eapply backend_step_last. }
  assert (Hcreated : forall e w', backend_step sp w1 w' -> ~ quiet env ->
            stdin w' = stdin w /\
            exists evs, trace w' = trace w ++ evs /\
              deliver_events env config message_template u telegram (Raise e) evs /\
              (evs = [] -> drive w' = drive w) /\
              (evs <> [] -> exists s, drive w' = drive w ++ [s] /\
                 (Raise e = Ok tt -> worksheets s = filled_worksheets rv sm)) /\
              (quiet env ->
               (exists table_name, table_name_of env config u table_name) ->
               (forall sp, exists message, message_of env config message_template sp message) ->
               Raise e = Ok tt)).
  { intros e w' Hstep Hnq. destruct (Hlast w' Hstep) as (Hi & Ht & s & Hd & _).
    split; [done |]. eexists. split; [by rewrite Ht, Ht1 |].
    split; [by apply de_created |]. split; [done |].
    split; [| intros Hq; by destruct Hnq]. intros _. exists s. by split. }
  apply wp_bind. eapply wp_mono; [apply share_spec |].
  intros [[] | e] w2 [Hst2 Hr2].
  2:{ apply Hcreated; [done |]. intros Hq. specialize (Hr2 Hq).
      rewrite Hd1 in Hr2. apply lookup_ge_None_1 in Hr2.
      rewrite length_app in Hr2. simpl in Hr2. unfold sp in Hr2. lia. }
  destruct Hr2 as (s1 & Hs1 & Hs2).
  rewrite Hd1, lookup_app_r in Hs1 by (unfold sp; lia).
  unfold sp in Hs1 at 1. rewrite Nat.sub_diag in Hs1. simpl in Hs1.
  inversion Hs1; subst s1. clear Hs1.
  apply wp_bind. eapply wp_mono; [apply write_df_spec |].
  intros r3 w3 (Hst3 & _ & Hok3 & Hq3).
  assert (Hst13 : backend_step sp w1 w3) by chain_steps.
  destruct r3 as [[] | e].
  2:{ apply Hcreated; [done |]. intros Hq. by specialize (Hq3 Hq (mk_is_Some _ _ Hs2)). }
  destruct (Hok3 eq_refl) as (s2 & Hs2' & Hs3).
  assert (s2 = add_permission link_reader (new_spreadsheet table_name)) as -> by congruence.
  rewrite written_first in Hs3.
  apply wp_bind. eapply wp_mono; [apply write_df_spec |].
  intros r4 w4 (Hst4 & _ & Hok4 & Hq4).
  assert (Hst14 : backend_step sp w1 w4) by chain_steps.
  destruct r4 as [[] | e].
  2:{ apply Hcreated; [done |]. intros Hq. by specialize (Hq4 Hq (mk_is_Some _ _ Hs3)). }
  destruct (Hok4 eq_refl) as (s3 & Hs3' & Hs4).
  rewrite Hs3 in Hs3'. inversion Hs3'; subst s3. clear Hs3'.
  simpl in Hs4. rewrite written_second in Hs4.
  destruct (Hlast w4 Hst14) as (Hi4 & Ht4 & s4 & Hd4 & Hs4').
  rewrite Hs4 in Hs4'. inversion Hs4'; subst s4. clear Hs4'.
  unfold TelegramClient. apply wp_bind, wp_external.
  2:{ intros code Hcode. apply Hcreated.
      - eapply backend_step_trans; [apply Hst14 | apply backend_step_clock].
      - intros Hq. by rewrite Hq in Hcode. }
  intros _.
  apply wp_bind, wp_lift.
  destruct (str_format env message_template _) as [message | e] eqn:Hmsg.
  2:{ split; [done |]. eexists. split; [simpl; by rewrite Ht4, Ht1 |].
      split; [by apply de_created |]. split; [done |]. split.
      - intros _. eexists. by split.
      - intros _ _ Hall. destruct (Hall sp) as [message Hm]. unfold message_of in Hm.
        congruence. }
  eapply wp_mono; [apply session_spec |].
  intros r w' (Hi & Hd & evs & Ht & Hse & Hq). simpl in *.
  split; [congruence |]. exists (mk_entry u (Create table_name sp) :: evs).
  split; [rewrite Ht, Ht4, Ht1; by rewrite <- app_assoc |].
  split; [by eapply de_session |]. split; [done |]. split.
  - intros _. eexists. split; [by rewrite Hd, Hd4 |]. done.
  - intros Hquiet _ _. by apply Hq.
Qed.

End Deliver.

(** ** One iteration of the loop *)
Ltac not_among H :=
  repeat (apply elem_of_cons in H as [H | H]; [discriminate H |]);
  by apply elem_of_nil in H.

Section Iteration.
Variable env : Environment.
Variable config : Config.
Variable message_template : string.

Lemma deliver_events_creations u telegram r evs :
  deliver_events env config message_template u telegram r evs ->
  creations evs = if decide (evs = []) then 0%nat else 1%nat.
Proof.
  intros [e | e table_name sp Hn | r' table_name sp message evs' Hn Hm Hs]; try done.
  destruct Hs; reflexivity.
Qed.

Lemma deliver_events_sent u telegram evs :
  deliver_events env config message_template u telegram (Ok tt) evs ->
  evs <> [] /\ exists table_name sp message,
    message_of env config message_template sp message /\
    evs = [mk_entry u (Create table_name sp); mk_entry u SessionOpen;
           mk_entry u (Send telegram message); mk_entry u SessionClose].
Proof.
  intros H. inversion H as [| | r table_name sp message evs' Hn Hm Hs]; subst.
  inversion Hs; subst. split; [done |]. eauto 6.
Qed.

Lemma creations_app t1 t2 : creations (t1 ++ t2) = (creations t1 + creations t2)%nat.
Proof. unfold creations. by rewrite List.filter_app, length_app. Qed.

(** The stage from the contact check on, started after the prompts [pre]
    of the same iteration. *)
Lemma contact_stage_spec u telegram rv sm w0 w :
  trace w = trace w0 ++ confirm_part config u ->
  stdin w `suffix_of` stdin w0 ->
  drive w = drive w0 ->
  wp (contact_stage env config message_template u telegram rv sm) w
     (iteration_post env config message_template u telegram rv sm w0).
Proof.
  intros Htrace Hstdin Hdrive.
  assert (Hconfirm : creations (confirm_part config u) = 0%nat).
  { unfold confirm_part. by destruct (confirm_every_reviewer config). }
  assert (Hfinish : forall entity r w1 w' extra,
            trace w1 = trace w0 ++ confirm_part config u ++ extra ->
            creations extra = 0%nat ->
            (forall entity' message, mk_entry u (Send entity' message) ∉ extra) ->
            stdin w1 `suffix_of` stdin w0 ->
            drive w1 = drive w0 ->
            (forall evs, deliver_events env config message_template u entity r evs ->
               iteration_events env config message_template u telegram r
                 (confirm_part config u ++ extra ++ evs)) ->
            deliver env config message_template u entity rv sm w1 = (r, w') ->
            iteration_post env config message_template u telegram rv sm w0 r w').
  { intros entity r w1 w' extra Ht1 Hextra Hnosend Hs1 Hd1 Hshape Hrun.
    pose proof (wp_run _ _ _ _ _ (deliver_spec env config message_template
                  u entity rv sm w1) Hrun) as (Hi & evs & Ht & Hev & Hnil & Hcons & _).
    pose proof (deliver_events_creations _ _ _ _ Hev) as Hcount.
    split; [by rewrite Hi |]. split.
    { destruct (decide (evs = [])) as [-> | Hne].
      - by rewrite Hnil, Hd1.
      - destruct (Hcons Hne) as (s & -> & _). rewrite Hd1. by apply prefix_app_r. }
    exists (confirm_part config u ++ extra ++ evs).
    split; [by rewrite Ht, Ht1, <- !app_assoc |]. split; [by apply Hshape |]. split.
    { rewrite !creations_app, Hconfirm, Hextra, Hcount.
      destruct (decide (evs = [])) as [-> | Hne].
      - rewrite Hnil, Hd1 by done. lia.
      - destruct (Hcons Hne) as (s & -> & _). rewrite Hd1, length_app. simpl. lia. }
    intros -> _. destruct (deliver_events_sent _ _ _ Hev) as [Hne _].
    destruct (Hcons Hne) as (s & Hd & Hws). exists s. rewrite Hd, Hd1. auto. }
  unfold contact_stage. destruct (truthy telegram) eqn:Htg; simpl.
  - (* the contact is known *)
    apply wp_intro. intros r w' Hrun.
    refine (Hfinish telegram r w w' [] _ _ _ _ _ _ Hrun); auto.
    + by rewrite app_nil_r.
    + intros entity' message Hin. by apply not_elem_of_nil in Hin.
    + intros evs Hev. simpl. by apply ie_known.
  - (* the operator is asked for one *)
    unfold input. apply wp_bind, wp_bind, wp_emit, wp_read_line.
    + (* end of input *)
      unfold iteration_post. simpl. intros Heof. split; [done |].
      split; [by rewrite Hdrive |].
      eexists. split; [by rewrite Htrace, <- app_assoc |].
      split; [by apply ie_contact_eof |].
      split; [rewrite creations_app, Hconfirm, Hdrive; unfold creations; simpl; lia | done].
    + simpl. intros answer rest Hin.
      assert (Hsuffix : rest `suffix_of` stdin w0).
      { etrans; [| apply Hstdin]. rewrite Hin. by apply suffix_cons_r. }
      destruct (String.eqb answer "") eqn:Hanswer; simpl.
      * (* nothing entered: warn and go on *)
        apply wp_emit. unfold iteration_post. simpl. split; [done |].
        split; [by rewrite Hdrive |].
        eexists. split; [by rewrite Htrace, <- !app_assoc |].
        split; [by apply ie_no_contact |].
        split; [rewrite creations_app, Hconfirm, Hdrive; unfold creations; simpl; lia |].
        intros _ (entity & message & Hsent).
        rewrite elem_of_app in Hsent. destruct Hsent as [Hsent | Hsent].
        { unfold confirm_part in Hsent.
          destruct (confirm_every_reviewer config); not_among Hsent. }
        not_among Hsent.
      * (* a handle was entered *)
        apply wp_intro. intros r w' Hrun.
        refine (Hfinish (PStr answer) r _ w' [mk_entry u (Input (contact_prompt u))]
                  _ _ _ _ _ _ Hrun); auto.
        -- simpl. by rewrite Htrace, <- app_assoc.
        -- intros entity' message Hsent. not_among Hsent.
        -- intros evs Hev. simpl. apply ie_asked with (answer := answer); auto.
           intros ->. done.
Qed.

Lemma confirm_stage_spec u telegram rv sm w :
  wp (confirm_stage env config message_template u telegram rv sm) w
     (iteration_post env config message_template u telegram rv sm w).
Proof.
  unfold confirm_stage. destruct (confirm_every_reviewer config) eqn:Hflag.
  - unfold input. apply wp_bind, wp_bind, wp_emit, wp_read_line.
    + unfold iteration_post. simpl. intros Heof. split; [done |]. split; [done |].
      eexists. split; [done |]. split; [by apply ie_confirm_eof |]. split; [| done].
      unfold creations. simpl. lia.
    + simpl. intros answer rest Hin.
      destruct (String.eqb answer "") eqn:Hanswer; simpl.
      * apply wp_emit. unfold iteration_post. simpl.
        split; [rewrite Hin; by apply suffix_cons_r |]. split; [done |].
        eexists. split; [by rewrite <- app_assoc |]. split; [by apply ie_declined |].
        split; [unfold creations; simpl; lia |].
        intros _ (entity & message & Hsent). not_among Hsent.
      * apply contact_stage_spec; simpl.
        -- unfold confirm_part. by rewrite Hflag.
        -- rewrite Hin. by apply suffix_cons_r.
        -- done.
  - apply contact_stage_spec; [| done | done].
    unfold confirm_part. by rewrite Hflag, app_nil_r.
Qed.

Lemma iteration_spec month_reviews_df summary_df u telegram w :
  wp (iteration env config message_template month_reviews_df summary_df (u, telegram)) w
    (fun r w' =>
      stdin w' `suffix_of` stdin w /\
      drive w `prefix_of` drive w' /\
      exists evs,
        trace w' = trace w ++ evs /\
        iteration_events env config message_template u telegram r evs /\
        length (drive w') = (length (drive w) + creations evs)%nat /\
        (r = Ok tt ->
         (exists entity message, mk_entry u (Send entity message) ∈ evs) ->
         exists rv sm s,
           reviewer_slice month_reviews_df u = Ok rv /\
           reviewer_slice summary_df u = Ok sm /\
           shape0 sm <> 0%nat /\
           drive w' = drive w ++ [s] /\
           worksheets s = filled_worksheets rv sm)).
Proof.
  unfold iteration.
  assert (Hnothing : forall e,
    stdin w `suffix_of` stdin w /\ drive w `prefix_of` drive w /\
    exists evs, trace w = trace w ++ evs /\
      iteration_events env config message_template u telegram (Raise e) evs /\
      length (drive w) = (length (drive w) + creations evs)%nat /\
      (Raise e = Ok tt ->
       (exists entity message, mk_entry u (Send entity message) ∈ evs) ->
       exists rv sm s,
         reviewer_slice month_reviews_df u = Ok rv /\
         reviewer_slice summary_df u = Ok sm /\ shape0 sm <> 0%nat /\
         drive w = drive w ++ [s] /\ worksheets s = filled_worksheets rv sm)).
  { intros e. split; [done |]. split; [done |]. exists []. rewrite app_nil_r.
    split; [done |]. split; [apply ie_slice |]. split; [| done].
    unfold creations. simpl. lia. }
  apply wp_bind, wp_lift.
  destruct (reviewer_slice summary_df u) as [sm | e] eqn:Hsm; [| apply Hnothing].
  apply wp_bind, wp_lift.
  destruct (reviewer_slice month_reviews_df u) as [rv | e] eqn:Hrv; [| apply Hnothing].
  destruct (shape0 sm =? 0)%nat eqn:Hshape.
  - apply wp_emit. simpl. split; [done |]. split; [done |].
    eexists. split; [done |]. split; [apply ie_no_work |].
    split; [unfold creations; simpl; lia |].
    intros _ (entity & message & Hsent). not_among Hsent.
  - eapply wp_mono; [apply confirm_stage_spec |].
    intros r w' (Hi & Hd & evs & Ht & Hev & Hlen & Hfilled).
    split; [done |]. split; [done |]. exists evs. repeat split; try done.
    intros Hr Hsent. destruct (Hfilled Hr Hsent) as (s & Hs & Hws).
    exists rv, sm, s. repeat split; try done. by apply Nat.eqb_neq in Hshape.
Qed.

(** ** The loop and the whole run *)

Lemma loop_spec month_reviews_df summary_df items : forall w,
  wp (for_each items (iteration env config message_template month_reviews_df summary_df)) w
    (fun r w' =>
      stdin w' `suffix_of` stdin w /\
      drive w `prefix_of` drive w' /\
      exists evs,
        trace w' = trace w ++ evs /\
        run_events env config message_template items r evs /\
        length (drive w') = (length (drive w) + creations evs)%nat).
Proof.
  induction items as [| [u telegram] rest IH]; intros w.
  - apply wp_ret. split; [done |]. split; [done |]. exists []. rewrite app_nil_r.
    split; [done |]. split; [apply re_done |]. unfold creations. simpl. lia.
  - cbn [for_each]. apply wp_bind. eapply wp_mono; [apply iteration_spec |].
    intros [[] | e] w1 (Hi1 & Hd1 & evs1 & Ht1 & Hev1 & Hlen1 & _).
    + eapply wp_mono; [apply IH |].
      intros r w2 (Hi2 & Hd2 & evs2 & Ht2 & Hev2 & Hlen2).
      split; [by etrans |]. split; [by etrans |]. exists (evs1 ++ evs2).
      split; [by rewrite Ht2, Ht1, <- app_assoc |].
      split; [by eapply re_next |]. rewrite creations_app. lia.
    + split; [done |]. split; [done |]. exists evs1.
      split; [done |]. split; [by apply re_raise |]. done.
Qed.

End Iteration.

Section Run.
Variable env : Environment.
Variable config : Config.

(** The setup of a run, step by step, down to the loop. *)
Lemma amain_setup w :
  amain env config w =
  match Login.read_file (host w) (message_template_filename config) with
  | None => (Raise (FileNotFoundError (message_template_filename config)), w)
  | Some message_template =>
      match get_google_client env
              (Login.init Json Client (google_credentials_file_path config)
                 (google_authorized_user_file_path config)) w with
      | (Raise e, w1) => (Raise e, w1)
      | (Ok _, w1) =>
          match fault env (clock w1) with
          | Some code => (Raise (ServiceError code), set_clock (S (clock w1)) w1)
          | None =>
              let invoice := invoice_of env (month config) (year config) in
              for_each (dvmn_reviewers invoice)
                (iteration env config message_template (month_reviews invoice)
                   (summary invoice))
                (set_clock (S (clock w1)) w1)
          end
      end
  end.
Proof.
  unfold amain, open_read. cbv zeta. unfold mbind at 1, M_bind at 1.
  destruct (Login.read_file (host w) (message_template_filename config)) as [tpl |]; [| done].
  unfold mbind at 1, M_bind at 1.
  destruct (get_google_client env _ w) as [[c | e] w1]; [| done].
  unfold get_invoice, external, mbind, M_bind, mret, M_ret.
  by destruct (fault env (clock w1)).
Qed.

Lemma amain_spec w :
  wp (amain env config) w (fun r w' =>
    stdin w' `suffix_of` stdin w /\
    drive w `prefix_of` drive w' /\
    exists evs,
      trace w' = trace w ++ evs /\
      length (drive w') = (length (drive w) + creations evs)%nat /\
      ((evs = [] /\ exists e, r = Raise e) \/
       exists message_template,
         Login.read_file (host w) (message_template_filename config) =
           Some message_template /\
         run_events env config message_template
           (dvmn_reviewers (invoice_of env (month config) (year config))) r evs)).
Proof.
  assert (Hsetup : forall e n h,
    let w' := set_clock n (set_host h w) in
    stdin w' `suffix_of` stdin w /\
    drive w `prefix_of` drive w' /\
    exists evs, trace w' = trace w ++ evs /\
      length (drive w') = (length (drive w) + creations evs)%nat /\
      ((evs = [] /\ exists e', @Raise unit e = Raise e') \/
       exists message_template,
         Login.read_file (host w) (message_template_filename config) =
           Some message_template /\
         run_events env config message_template
           (dvmn_reviewers (invoice_of env (month config) (year config)))
           (Raise e) evs)).
  { intros e n h. simpl. split; [done |]. split; [done |]. exists []. rewrite app_nil_r.
    split; [done |]. split; [unfold creations; simpl; lia |]. left. eauto. }
  unfold amain. cbv zeta. apply wp_bind, wp_open_read.
  { intros _. specialize (Hsetup (FileNotFoundError (message_template_filename config))
                            (clock w) (host w)).
    by destruct w. }
  intros tpl Hfile. apply wp_bind, wp_get_google_client. intros [c | e] h.
  2:{ specialize (Hsetup e (clock w) h). by destruct w. }
  unfold get_invoice. apply wp_bind, wp_bind, wp_external; [| intros; apply Hsetup].
  intros _. apply wp_ret. cbn beta iota zeta.
  eapply wp_mono; [apply loop_spec |].
  intros r w' (Hi & Hd & evs & Ht & Hev & Hlen). simpl in *.
  split; [done |]. split; [done |]. exists evs. split; [done |]. split; [done |].
  right. eauto.
Qed.

End Run.

(** ** Slices and filled worksheets *)

Lemma select_rows_filter (f : list pyval -> bool) rows :
  select_rows rows (map f rows) = List.filter f rows.
Proof.
  induction rows as [| row rows IH]; [done |].
  simpl. destruct (f row); by rewrite IH.
Qed.

(** A slice keeps the columns of its frame and holds the rows of the
    reviewer, in the order of the frame. *)
Lemma reviewer_slice_rows df u s :
  reviewer_slice df u = Ok s ->
  columns s = columns df /\
  exists i, index_of REVIEWER_COLUMN (columns df) = Some i /\
            values s = List.filter (belongs i u) (values df).
Proof.
  unfold reviewer_slice, getitem_column.
  destruct (index_of REVIEWER_COLUMN (columns df)) as [i |]; [| done].
  intros [= <-]. split; [done |]. exists i. split; [done |]. simpl.
  unfold series_eq. rewrite map_map. apply (select_rows_filter (belongs i u)).
Qed.

Lemma fill_blank df name rows cols :
  title (fill df (blank_worksheet name rows cols)) = name /\
  col_count (fill df (blank_worksheet name rows cols)) = cols /\
  row_count (fill df (blank_worksheet name rows cols)) = (rows + 1 + shape0 df)%nat /\
  cells (fill df (blank_worksheet name rows cols)) = (PStr <$> columns df) :: values df.
Proof.
  unfold fill, add_rows, insert_at, first_row_after_header, shape0. simpl.
  by rewrite app_nil_r.
Qed.

Lemma fill_renamed_blank df name name' rows cols :
  title (fill df (set_title name (blank_worksheet name' rows cols))) = name /\
  cells (fill df (set_title name (blank_worksheet name' rows cols))) =
    (PStr <$> columns df) :: values df.
Proof.
  unfold fill, add_rows, insert_at, first_row_after_header. simpl.
  by rewrite app_nil_r.
Qed.

(** ** The skip conditions of one iteration *)
Section IterationClaims.
Variable env : Environment.
Variable config : Config.
Variable message_template : string.
Variable month_reviews_df summary_df : DataFrame.

Local Abbreviation body := (iteration env config message_template month_reviews_df summary_df).


(** C4 (amended): for a reviewer whose summary slice is not empty and
    whose review rows can be sliced as well, with the flag set the
    confirmation prompt is shown and one
    line is read: on a non-empty line the iteration goes on with the contact
    check, on an empty line it ends normally with the log line of the skip,
    the drive untouched and nothing sent. With the flag unset the iteration
    goes straight to the contact check and never shows the confirmation
    prompt. *)
Theorem C4_confirmation_prompt u telegram w sm rv :
  reviewer_slice summary_df u = Ok sm ->
  shape0 sm <> 0%nat ->
  reviewer_slice month_reviews_df u = Ok rv ->
  let asked rest :=
    set_stdin rest (set_trace (trace w ++ [mk_entry u (Input (confirm_prompt u))]) w) in
  (confirm_every_reviewer config = true ->
   forall answer rest, stdin w = answer :: rest ->
     (answer <> "" ->
        body (u, telegram) w =
        contact_stage env config message_template u telegram rv sm (asked rest)) /\
     (answer = "" ->
        let skipped :=
          set_trace (trace (asked rest) ++ [mk_entry u (Log INFO (skip_message u))])
            (asked rest) in
        body (u, telegram) w = (Ok tt, skipped) /\
        drive skipped = drive w /\
        forall en, en ∈ since w skipped ->
          is_create (what en) = false /\ is_send (what en) = false)) /\
  (confirm_every_reviewer config = false ->
   body (u, telegram) w =
   contact_stage env config message_template u telegram rv sm w /\
   forall en, en ∈ since w (body (u, telegram) w).2 ->
     what en <> Input (confirm_prompt u)).
Proof.
  intros Hsm Hshape Hrv asked.
  assert (Hstart : body (u, telegram) w =
            confirm_stage env config message_template u telegram rv sm w).
  { unfold iteration, mbind, M_bind, lift. rewrite Hsm, Hrv.
    apply Nat.eqb_neq in Hshape. by rewrite Hshape. }
  split.
  - intros Hflag answer rest Hin. rewrite Hstart. unfold confirm_stage. rewrite Hflag.
    unfold input, read_line, emit, mbind, M_bind. simpl. rewrite Hin. split.
    + intros Hanswer. apply String.eqb_neq in Hanswer. by rewrite Hanswer.
    + intros ->. simpl. split; [done |]. split; [done |].
      intros en. unfold since. simpl. rewrite <- app_assoc, drop_app_length. intros Hen.
      apply elem_of_cons in Hen as [-> | Hen]; [done |].
      apply list_elem_of_singleton in Hen. by subst en.
  - intros Hflag. rewrite Hstart. unfold confirm_stage. rewrite Hflag. split; [done |].
    pose proof (contact_stage_spec env config message_template u telegram rv sm w w)
      as Hspec.
    unfold wp in Hspec.
    destruct (contact_stage env config message_template u telegram rv sm w) as [r w'].
    destruct Hspec as (_ & _ & evs & Ht & Hev & _); [| done | done |].
    { unfold confirm_part. by rewrite Hflag, app_nil_r. }
    unfold since. simpl. rewrite Ht, drop_app_length. intros en Hen Hwhat.
    assert (confirm_part config u = []) as Hnone by (unfold confirm_part; by rewrite Hflag).
    assert (Hdeliver : forall entity r' evs', en ∈ evs' ->
              deliver_events env config message_template u entity r' evs' -> False).
    { intros entity r' evs' Hin Hd.
      destruct Hd as [e | e tn sp Hn | r'' tn sp msg evs'' Hn Hm Hs].
      - by apply elem_of_nil in Hin.
      - apply list_elem_of_singleton in Hin. subst en. done.
      - apply elem_of_cons in Hin as [-> | Hin]; [done |].
        destruct Hs; [by apply elem_of_nil in Hin | |];
          repeat (apply elem_of_cons in Hin as [-> | Hin]; [done |]);
          by apply elem_of_nil in Hin. }
    assert (Hcontact : Input (contact_prompt u) <> Input (confirm_prompt u)).
    { unfold contact_prompt, confirm_prompt. simpl. discriminate. }
    inversion Hev; subst; rewrite ?Hnone in *; simpl in *; try congruence.
    + by apply elem_of_nil in Hen.
    + apply list_elem_of_singleton in Hen. subst en. done.
    + apply list_elem_of_singleton in Hen. subst en. done.
    + apply elem_of_cons in Hen as [-> | Hen]; [done |].
      apply list_elem_of_singleton in Hen. subst en. done.
    + apply elem_of_cons in Hen as [-> | Hen]; [done |]. by eapply Hdeliver.
    + by eapply Hdeliver.
Qed.

(** What [deliver] adds to the trace is the reviewer's own, holds no prompt
    and no log line, and any message in it goes to the given contact and is
    the rendered template. *)
Lemma deliver_events_entries u entity r evs en :
  deliver_events env config message_template u entity r evs ->
  en ∈ evs ->
  who en = u /\ is_input (what en) = false /\ is_log (what en) = false /\
  (forall entity' message, what en = Send entity' message ->
     entity' = entity /\ exists sp, message_of env config message_template sp message).
Proof.
  intros Hd Hin.
  destruct Hd as [e | e tn sp Hn | r' tn sp msg evs' Hn Hm Hs].
  - by apply elem_of_nil in Hin.
  - apply list_elem_of_singleton in Hin. by subst en.
  - apply elem_of_cons in Hin as [-> | Hin]; [done |].
    destruct Hs.
    + by apply elem_of_nil in Hin.
    + repeat (apply elem_of_cons in Hin as [-> | Hin]; [done |]).
      by apply elem_of_nil in Hin.
    + apply elem_of_cons in Hin as [-> | Hin]; [done |].
      apply elem_of_cons in Hin as [-> | Hin].
      { split; [done |]. split; [done |]. split; [done |].
        intros entity' message' [= <- <-]. eauto. }
      apply elem_of_cons in Hin as [-> | Hin]; [done |].
      by apply elem_of_nil in Hin.
Qed.

(** C5: at the contact check of a reviewer whose contact is empty, the
    prompt for a replacement is shown and one line is read. On an empty line
    the stage ends normally with the warning, the drive untouched. On any
    other line the stage goes on with that line as the contact: every
    message then sent goes to it and is the rendered template, a normal end
    has sent one, and the end is normal when no external call fails and the
    two templates format. *)
Theorem C5_missing_contact u telegram rv sm w answer rest :
  truthy telegram = false ->
  stdin w = answer :: rest ->
  let asked :=
    set_stdin rest (set_trace (trace w ++ [mk_entry u (Input (contact_prompt u))]) w) in
  let run := contact_stage env config message_template u telegram rv sm w in
  (answer = "" ->
     let warned :=
       set_trace (trace asked ++ [mk_entry u (Log WARNING (no_contact_message u))]) asked in
     run = (Ok tt, warned) /\ drive warned = drive w) /\
  (answer <> "" ->
     run = deliver env config message_template u (PStr answer) rv sm asked /\
     (forall entity message, mk_entry u (Send entity message) ∈ since w run.2 ->
        entity = PStr answer /\ exists sp, message_of env config message_template sp message) /\
     (run.1 = Ok tt ->
        exists sp message, message_of env config message_template sp message /\
          mk_entry u (Send (PStr answer) message) ∈ since w run.2) /\
     (quiet env ->
      (exists table_name, table_name_of env config u table_name) ->
      (forall sp, exists message, message_of env config message_template sp message) ->
      run.1 = Ok tt)).
Proof.
  intros Htg Hin asked run.
  assert (Hrun : run =
    if String.eqb answer "" then
      (Ok tt, set_trace (trace asked ++ [mk_entry u (Log WARNING (no_contact_message u))]) asked)
    else deliver env config message_template u (PStr answer) rv sm asked).
  { subst run. unfold contact_stage. rewrite Htg. simpl.
    unfold input, read_line, emit, mbind, M_bind. simpl. rewrite Hin.
    by destruct (String.eqb answer ""). }
  split.
  - intros ->. by rewrite Hrun.
  - intros Hanswer. apply String.eqb_neq in Hanswer. rewrite Hanswer in Hrun.
    split; [done |]. rewrite Hrun.
    pose proof (deliver_spec env config message_template u (PStr answer) rv sm asked)
      as Hspec.
    unfold wp in Hspec.
    destruct (deliver env config message_template u (PStr answer) rv sm asked) as [r w'].
    destruct Hspec as (_ & evs & Ht & Hev & _ & _ & Hq). simpl.
    assert (Hsince : since w w' = mk_entry u (Input (contact_prompt u)) :: evs).
    { unfold since. rewrite Ht. subst asked. simpl.
      by rewrite <- app_assoc, drop_app_length. }
    rewrite Hsince. split; [| split; [| done]].
    + intros entity message Hsent.
      apply elem_of_cons in Hsent as [Hsent | Hsent]; [done |].
      by destruct (deliver_events_entries _ _ _ _ _ Hev Hsent) as (_ & _ & _ & Hs);
        apply Hs.
    + intros ->. destruct (deliver_events_sent _ _ _ _ _ _ Hev)
        as (_ & tn & sp & message & Hm & ->).
      exists sp, message. split; [done |].
      do 3 apply list_elem_of_further. apply list_elem_of_here.
Qed.

(** C6: when an iteration ends normally having sent its message, both
    slices were computed, each holding the rows of the reviewer in the order
    of its frame, and the drive has one more spreadsheet, of exactly two
    worksheets: the first named for the reviews with the column names of the
    review slice as row 1 and its rows from row 2, the second named for the
    summary with the column names and rows of the summary slice laid out the
    same way; each holds one row more than its slice. *)
Theorem C6_two_filled_worksheets u telegram w :
  let run := body (u, telegram) w in
  run.1 = Ok tt ->
  (exists entity message, mk_entry u (Send entity message) ∈ since w run.2) ->
  exists rv sm i j s ws0 ws1,
    reviewer_slice month_reviews_df u = Ok rv /\
    index_of REVIEWER_COLUMN (columns month_reviews_df) = Some i /\
    columns rv = columns month_reviews_df /\
    values rv = List.filter (belongs i u) (values month_reviews_df) /\
    reviewer_slice summary_df u = Ok sm /\
    index_of REVIEWER_COLUMN (columns summary_df) = Some j /\
    columns sm = columns summary_df /\
    values sm = List.filter (belongs j u) (values summary_df) /\
    drive run.2 = drive w ++ [s] /\
    worksheets s = [ws0; ws1] /\
    title ws0 = "Ревью" /\
    cells ws0 = (PStr <$> columns rv) :: values rv /\
    length (cells ws0) = (1 + shape0 rv)%nat /\
    title ws1 = "Суммарно" /\
    cells ws1 = (PStr <$> columns sm) :: values sm /\
    length (cells ws1) = (1 + shape0 sm)%nat.
Proof.
  intros run Hok Hsent.
  pose proof (iteration_spec env config message_template month_reviews_df summary_df
                u telegram w) as Hspec.
  unfold wp in Hspec. fold run in Hspec. destruct run as [r w'] eqn:Hrun.
  simpl in Hok, Hsent. subst r. simpl.
  destruct Hspec as (_ & _ & evs & Ht & _ & _ & Hfilled).
  unfold since in Hsent. rewrite Ht, drop_app_length in Hsent.
  destruct (Hfilled eq_refl Hsent) as (rv & sm & s & Hrv & Hsm & _ & Hd & Hws).
  destruct (reviewer_slice_rows _ _ _ Hrv) as (Hcols_rv & i & Hi & Hrows_rv).
  destruct (reviewer_slice_rows _ _ _ Hsm) as (Hcols_sm & j & Hj & Hrows_sm).
  destruct (fill_renamed_blank rv "Ревью" "Sheet1" 1000 26) as (Ht0 & Hc0).
  destruct (fill_blank sm "Суммарно" 1000 26) as (Ht1 & _ & _ & Hc1).
  exists rv, sm, i, j, s,
    (fill rv (set_title "Ревью" (blank_worksheet "Sheet1" 1000 26))),
    (fill sm (blank_worksheet "Суммарно" 1000 26)).
  repeat split; try assumption; by rewrite ?Hc0, ?Hc1.
Qed.

End IterationClaims.

(** ** The scenarios of the specification, run on the sample data *)

(** Scenario A: summary rows, a known contact, no confirmation. *)
Example scenario_A_known_contact :
  let run := iteration sample_env (sample_config false) "Отчёт" sample_reviews sample_summary
               ("alice", PStr "@alice_tg") (world_of []) in
  run.1 = Ok tt /\
  what <$> trace run.2 =
    [Create "Инвойс 2026_10 alice" 0; SessionOpen;
     Send (PStr "@alice_tg") "Отчёт https://docs.google.com/spreadsheets/d/0";
     SessionClose] /\
  (fun s => title <$> worksheets s) <$> drive run.2 = [["Ревью"; "Суммарно"]].
Proof. by vm_compute. Qed.

(** Scenario B: no summary rows. *)
Example scenario_B_no_work :
  let run := iteration sample_env (sample_config false) "Отчёт" sample_reviews sample_summary
               ("bob", PStr "@bob_tg") (world_of []) in
  run.1 = Ok tt /\
  what <$> trace run.2 = [Log INFO "У ревьюера bob не было работ в этом месяце"] /\
  drive run.2 = [].
Proof. by vm_compute. Qed.

(** Scenario C: an empty contact, replaced at the prompt. *)
Example scenario_C_contact_entered :
  let run := iteration sample_env (sample_config false) "Отчёт" sample_reviews sample_summary
               ("carol", PStr "") (world_of ["@carol2"]) in
  run.1 = Ok tt /\
  what <$> trace run.2 =
    [Input "Для ревьюера carol не указан телеграм в БД Dvmn, укажите самостоятельно";
     Create "Инвойс 2026_10 carol" 0; SessionOpen;
     Send (PStr "@carol2") "Отчёт https://docs.google.com/spreadsheets/d/0";
     SessionClose] /\
  stdin run.2 = [].
Proof. by vm_compute. Qed.

(** Scenario D: an empty contact, and nothing entered at the prompt. *)
Example scenario_D_no_contact :
  let run := iteration sample_env (sample_config false) "Отчёт" sample_reviews sample_summary
               ("carol", PStr "") (world_of [""]) in
  run.1 = Ok tt /\
  what <$> trace run.2 =
    [Input "Для ревьюера carol не указан телеграм в БД Dvmn, укажите самостоятельно";
     Log WARNING "Вы не указали телеграм для ревьюера carol, пропускаю"] /\
  drive run.2 = [].
Proof. by vm_compute. Qed.

(** Scenario E: confirmation asked and declined with an empty line. *)
Example scenario_E_declined :
  let run := iteration sample_env (sample_config true) "Отчёт" sample_reviews sample_summary
               ("alice", PStr "@alice_tg") (world_of [""]) in
  run.1 = Ok tt /\
  what <$> trace run.2 =
    [Input "Обрабатывать ревьюера alice? Введите что угодно если да, иначе просто нажмите Enter";
     Log INFO "Пропускаю ревьюера alice"] /\
  drive run.2 = [].
Proof. by vm_compute. Qed.

(** A frame without the reviewer column cannot be sliced: the iteration
    raises before any check. *)
Example missing_column_raises :
  iteration sample_env (sample_config false) "Отчёт" {| columns := []; values := [] |}
    sample_summary ("bob", PStr "@bob_tg") (world_of []) =
  (Raise (KeyError "Ревьюер"), world_of []).
Proof. by vm_compute. Qed.

(** The default period on the third of November 2026 is October 2026. *)
Example default_period_november :
  Calendar.default_month (Calendar.default_period third_of_november) = Some 10 /\
  Calendar.default_year (Calendar.default_period third_of_november) = Some 2026.
Proof. by vm_compute. Qed.

(** On the fifth of January 2027 it is December 2026. *)
Example default_period_january :
  let now := Calendar.with_date third_of_november 2027 1 5 in
  Calendar.default_month (Calendar.default_period now) = Some 12 /\
  Calendar.default_year (Calendar.default_period now) = Some 2026.
Proof. by vm_compute. Qed.

(** ** Consequences of the shapes *)
Section ShapeFacts.
Variable env : Environment.
Variable config : Config.
Variable message_template : string.

Lemma deliver_events_cases u telegram r evs :
  deliver_events env config message_template u telegram r evs ->
  evs = [] \/
  (exists tn sp, evs = [mk_entry u (Create tn sp)]) \/
  (exists tn sp, evs = [mk_entry u (Create tn sp); mk_entry u SessionOpen;
                        mk_entry u SessionClose]) \/
  (exists tn sp message,
     evs = [mk_entry u (Create tn sp); mk_entry u SessionOpen;
            mk_entry u (Send telegram message); mk_entry u SessionClose]).
Proof.
  intros [e | e tn sp Hn | r' tn sp msg evs' Hn Hm Hs]; [by left | right; left; eauto |].
  destruct Hs; [right; left | right; right; left | right; right; right]; eauto.
Qed.

(** Every path of an iteration, as a list of entries of its reviewer. *)
Lemma iteration_events_cases u telegram r evs :
  iteration_events env config message_template u telegram r evs ->
  exists asked tail,
    evs = asked ++ tail /\
    (asked = [] \/
     asked = [mk_entry u (Input (confirm_prompt u))] \/
     asked = [mk_entry u (Input (contact_prompt u))] \/
     asked = [mk_entry u (Input (confirm_prompt u)); mk_entry u (Input (contact_prompt u))]) /\
    ((exists level message, tail = [mk_entry u (Log level message)]) \/
     (exists entity, deliver_events env config message_template u entity r tail)).
Proof.
  assert (Hconfirm : confirm_part config u = [] \/
                     confirm_part config u = [mk_entry u (Input (confirm_prompt u))]).
  { unfold confirm_part. destruct (confirm_every_reviewer config); auto. }
  intros Hev. inversion Hev; subst.
  - exists [], []. split; [done |]. split; [auto |]. right. exists telegram. apply de_nothing.
  - exists [], [mk_entry u (Log INFO (no_work_message u))]. split; [done |].
    split; [auto |]. left. eauto.
  - exists [mk_entry u (Input (confirm_prompt u))], []. split; [done |].
    split; [auto |]. right. exists telegram. apply de_nothing.
  - exists [mk_entry u (Input (confirm_prompt u))], [mk_entry u (Log INFO (skip_message u))].
    split; [done |]. split; [auto |]. left. eauto.
  - exists (confirm_part config u ++ [mk_entry u (Input (contact_prompt u))]), [].
    split; [by rewrite app_nil_r |]. split.
    + destruct Hconfirm as [-> | ->]; simpl; auto.
    + right. exists telegram. apply de_nothing.
  - exists (confirm_part config u ++ [mk_entry u (Input (contact_prompt u))]),
      [mk_entry u (Log WARNING (no_contact_message u))].
    split; [by rewrite <- app_assoc |]. split.
    + destruct Hconfirm as [-> | ->]; simpl; auto.
    + left. eauto.
  - exists (confirm_part config u ++ [mk_entry u (Input (contact_prompt u))]), evs0.
    split; [by rewrite <- app_assoc |]. split.
    + destruct Hconfirm as [-> | ->]; simpl; auto.
    + right. eauto.
  - exists (confirm_part config u), evs0. split; [done |]. split.
    + destruct Hconfirm as [-> | ->]; auto.
    + right. eauto.
Qed.

Ltac iteration_cases Hev :=
  let asked := fresh "asked" in
  let tail := fresh "tail" in
  let Hasked := fresh "Hasked" in
  let Htail := fresh "Htail" in
  apply iteration_events_cases in Hev as (asked & tail & -> & Hasked & Htail);
  destruct Hasked as [-> | [-> | [-> | ->]]];
  (destruct Htail as [(? & ? & ->) | (? & Htail)];
   [| apply deliver_events_cases in Htail
        as [-> | [(? & ? & ->) | [(? & ? & ->) | (? & ? & ? & ->)]]]]).

Lemma iteration_events_who u telegram r evs en :
  iteration_events env config message_template u telegram r evs ->
  en ∈ evs -> who en = u.
Proof.
  intros Hev Hin. iteration_cases Hev; simpl in Hin;
    repeat (apply elem_of_cons in Hin as [-> | Hin]; [done |]);
    by apply elem_of_nil in Hin.
Qed.


Lemma iteration_events_counts u telegram r evs :
  iteration_events env config message_template u telegram r evs ->
  (count_for is_create u evs <= 1)%nat /\
  (count_for is_send u evs <= 1)%nat /\
  ((1 <= count_for is_log u evs)%nat ->
   count_for is_create u evs = 0%nat /\ count_for is_send u evs = 0%nat).
Proof.
  intros Hev. iteration_cases Hev; unfold count_for; simpl;
    rewrite ?String.eqb_refl; simpl; lia.
Qed.

Lemma iteration_events_prompts u telegram r evs :
  iteration_events env config message_template u telegram r evs ->
  prompts evs `sublist_of` [confirm_prompt u; contact_prompt u].
Proof.
  intros Hev. iteration_cases Hev; simpl;
    repeat first [apply sublist_nil_l | apply sublist_skip | apply sublist_cons].
Qed.

End ShapeFacts.

(** ** The order of the checks *)
Section Order.
Variable env : Environment.
Variable config : Config.
Variable message_template : string.
Variable month_reviews_df summary_df : DataFrame.

Local Abbreviation body := (iteration env config message_template month_reviews_df summary_df).

Lemma since_app w w' evs : trace w' = trace w ++ evs -> since w w' = evs.
Proof. intros Ht. unfold since. by rewrite Ht, drop_app_length. Qed.

(** Membership in a list that is written out: every position is looked
    at; those whose entry differs by a constructor or a literal are closed. *)
Ltac split_membership H :=
  repeat (apply elem_of_cons in H as [H | H];
          [try (exfalso; simpl in H; discriminate H) |]);
  try (by apply elem_of_nil in H).

Ltac explicit_events :=
  repeat match goal with
  | H : deliver_events _ _ _ _ _ _ _ |- _ =>
      apply deliver_events_cases in H
        as [-> | [(? & ? & ->) | [(? & ? & ->) | (? & ? & ? & ->)]]]
  end.

Lemma deliver_events_prompts u entity r evs :
  deliver_events env config message_template u entity r evs -> prompts evs = [].
Proof.
  intros Hd. apply deliver_events_cases in Hd
    as [-> | [(? & ? & ->) | [(? & ? & ->) | (? & ? & ? & ->)]]]; done.
Qed.

Lemma deliver_events_no_log u entity r evs level message :
  deliver_events env config message_template u entity r evs ->
  mk_entry u (Log level message) ∉ evs.
Proof.
  intros Hd Hin. by destruct (deliver_events_entries _ _ _ _ _ _ _ _ Hd Hin) as (_ & _ & ? & _).
Qed.

Lemma prompts_app t1 t2 : prompts (t1 ++ t2) = prompts t1 ++ prompts t2.
Proof. unfold prompts. apply omap_app. Qed.

(** C10: in every iteration the prompts shown are, in this order, the
    confirmation prompt and the contact prompt, each at most once; the first
    only with the flag set, the second only for an empty contact. An
    iteration of a reviewer whose summary slice is empty shows no prompt and
    reads no input, the log line of the empty summary never comes with a
    prompt, and the log line of a declined confirmation comes with the
    confirmation prompt alone, never with the contact prompt. *)
Theorem C10_order_of_checks u telegram w :
  let run := body (u, telegram) w in
  let evs := since w run.2 in
  prompts evs `sublist_of` [confirm_prompt u; contact_prompt u] /\
  (confirm_prompt u ∈ prompts evs -> confirm_every_reviewer config = true) /\
  (contact_prompt u ∈ prompts evs -> truthy telegram = false) /\
  (forall sm, reviewer_slice summary_df u = Ok sm -> shape0 sm = 0%nat ->
     prompts evs = [] /\ stdin run.2 = stdin w) /\
  (mk_entry u (Log INFO (no_work_message u)) ∈ evs -> prompts evs = []) /\
  (mk_entry u (Log INFO (skip_message u)) ∈ evs -> prompts evs = [confirm_prompt u]).
Proof.
  intros run evs.
  pose proof (iteration_spec env config message_template month_reviews_df summary_df
                u telegram w) as Hspec.
  unfold wp in Hspec. fold run in Hspec.
  assert (Hdiff : contact_prompt u <> confirm_prompt u).
  { unfold contact_prompt, confirm_prompt. simpl. discriminate. }
  assert (Hshape : exists evs', since w run.2 = evs' /\
            iteration_events env config message_template u telegram run.1 evs').
  { destruct run as [r w']. destruct Hspec as (_ & _ & evs' & Ht & Hev & _).
    exists evs'. simpl. split; [by apply since_app | done]. }
  destruct Hshape as (evs' & Hsince & Hev).
  subst evs. rewrite Hsince.
  split; [| split; [| split; [| split; [| split]]]].
  - by eapply iteration_events_prompts.
  - intros Hin. clear Hsince Hspec.
    destruct (confirm_every_reviewer config) eqn:Hflag; [done |]. exfalso.
    inversion Hev; subst; explicit_events; unfold confirm_part in Hin;
      rewrite ?Hflag in Hin; simpl in Hin; try congruence;
      split_membership Hin; congruence.
  - intros Hin. clear Hsince Hspec.
    inversion Hev; subst; try done; exfalso; explicit_events;
      unfold confirm_part in Hin; destruct (confirm_every_reviewer config);
      simpl in Hin; split_membership Hin; congruence.
  - intros sm Hsm Hempty. rewrite <- Hsince. clear Hspec Hsince Hev.
    subst run. unfold iteration, mbind, M_bind, lift.
    rewrite Hsm. destruct (reviewer_slice month_reviews_df u) as [rv | e].
    + rewrite Hempty. unfold since. simpl. by rewrite drop_app_length.
    + unfold since. simpl. by rewrite drop_all.
  - intros Hin. clear Hsince Hspec.
    inversion Hev; subst; try done; exfalso; explicit_events;
      unfold confirm_part in Hin; destruct (confirm_every_reviewer config);
      simpl in Hin; split_membership Hin.
  - intros Hin. clear Hsince Hspec.
    inversion Hev; subst; try done; exfalso; explicit_events;
      unfold confirm_part in Hin; destruct (confirm_every_reviewer config);
      simpl in Hin; split_membership Hin.
Qed.

End Order.

(** ** The whole run *)
Section RunFacts.
Variable env : Environment.
Variable config : Config.



Lemma count_for_app kind u t1 t2 :
  count_for kind u (t1 ++ t2) = (count_for kind u t1 + count_for kind u t2)%nat.
Proof. unfold count_for. by rewrite List.filter_app, length_app. Qed.

Lemma count_for_none kind u t :
  (forall en, en ∈ t -> who en <> u) -> count_for kind u t = 0%nat.
Proof.
  unfold count_for. induction t as [| en t IH]; intros H; [done |].
  simpl. assert (String.eqb (who en) u = false) as ->.
  { apply String.eqb_neq, H. apply list_elem_of_here. }
  simpl. apply IH. intros en' Hin. apply H. by apply list_elem_of_further.
Qed.


Lemma run_events_who message_template items r evs en :
  run_events env config message_template items r evs ->
  en ∈ evs -> who en ∈ items.*1.
Proof.
  induction 1 as [| u tg rest e evs Hev | u tg rest evs r evs' Hev _ IH]; intros Hin.
  - by apply elem_of_nil in Hin.
  - rewrite (iteration_events_who _ _ _ _ _ _ _ _ Hev Hin). apply list_elem_of_here.
  - apply elem_of_app in Hin as [Hin | Hin].
    + rewrite (iteration_events_who _ _ _ _ _ _ _ _ Hev Hin). apply list_elem_of_here.
    + apply list_elem_of_further. by apply IH.
Qed.

(** With distinct identifiers, what the run does for one reviewer is one
    stretch of the trace: the entries of a single iteration, or nothing. *)
Lemma run_events_segment message_template items r evs u :
  NoDup items.*1 ->
  run_events env config message_template items r evs ->
  exists before mine after,
    evs = before ++ mine ++ after /\
    (forall en, en ∈ before ++ after -> who en <> u) /\
    (mine = [] \/
     exists telegram r',
       (u, telegram) ∈ items /\
       iteration_events env config message_template u telegram r' mine).
Proof.
  intros Hnodup Hrun.
  induction Hrun as [| u0 tg rest e evs Hev | u0 tg rest evs r evs' Hev Hrest IH].
  - exists [], [], []. split; [done |]. split; [| by left].
    intros en Hin. by apply elem_of_nil in Hin.
  - destruct (decide (u0 = u)) as [-> | Hne].
    + exists [], evs, []. split; [by rewrite app_nil_r |]. split.
      * intros en Hin. by apply elem_of_nil in Hin.
      * right. exists tg, (Raise e). split; [apply list_elem_of_here | done].
    + exists evs, [], []. split; [by rewrite app_nil_r |]. split; [| by left].
      intros en Hin. rewrite app_nil_r in Hin.
      by rewrite (iteration_events_who _ _ _ _ _ _ _ _ Hev Hin).
  - simpl in Hnodup. apply NoDup_cons in Hnodup as [Hfresh Hnodup].
    destruct (decide (u0 = u)) as [-> | Hne].
    + exists [], evs, evs'. split; [done |]. split.
      * intros en Hin. simpl in Hin. intros Hwho.
        apply Hfresh. rewrite <- Hwho. by eapply run_events_who.
      * right. exists tg, (Ok tt). split; [apply list_elem_of_here | done].
    + destruct (IH Hnodup) as (before & mine & after & -> & Hothers & Hmine).
      exists (evs ++ before), mine, after. split; [by rewrite <- app_assoc |]. split.
      * intros en Hin. rewrite <- app_assoc in Hin.
        apply elem_of_app in Hin as [Hin | Hin]; [| by apply Hothers].
        by rewrite (iteration_events_who _ _ _ _ _ _ _ _ Hev Hin).
      * destruct Hmine as [-> | (telegram & r' & Hin & Hmine)]; [by left |].
        right. exists telegram, r'. split; [by apply list_elem_of_further | done].
Qed.


(** C9: when the identifiers of the mapping are distinct, as the keys of
    a dict are, the run adds to the drive exactly as many spreadsheets as it
    records creations, and for every reviewer: at most one creation and at
    most one message are recorded, none of either when a skip was logged for
    the reviewer, and all entries of the reviewer form one stretch of the
    trace that is the record of a single iteration for one of the
    reviewer's entries in the mapping, or is empty. *)
Theorem C9_each_reviewer_at_most_once w :
  NoDup (dvmn_reviewers (invoice_of env (month config) (year config))).*1 ->
  let run := amain env config w in
  let evs := since w run.2 in
  length (drive run.2) = (length (drive w) + creations evs)%nat /\
  forall u,
    (count_for is_create u evs <= 1)%nat /\
    (count_for is_send u evs <= 1)%nat /\
    ((1 <= count_for is_log u evs)%nat ->
     count_for is_create u evs = 0%nat /\ count_for is_send u evs = 0%nat) /\
    exists before mine after,
      evs = before ++ mine ++ after /\
      (forall en, en ∈ before ++ after -> who en <> u) /\
      (mine = [] \/
       exists message_template telegram r,
         (u, telegram) ∈ dvmn_reviewers (invoice_of env (month config) (year config)) /\
         iteration_events env config message_template u telegram r mine).
Proof.
  intros Hnodup run evs.
  pose proof (amain_spec env config w) as Hspec. unfold wp in Hspec. fold run in Hspec.
  subst evs. destruct run as [r w']. destruct Hspec as (_ & _ & evs & Ht & Hlen & Hev).
  simpl. rewrite (since_app _ _ _ Ht). split; [done |]. intros u.
  assert (Hseg : exists before mine after,
    evs = before ++ mine ++ after /\
    (forall en, en ∈ before ++ after -> who en <> u) /\
    (mine = [] \/
     exists message_template telegram r,
       (u, telegram) ∈ dvmn_reviewers (invoice_of env (month config) (year config)) /\
       iteration_events env config message_template u telegram r mine)).
  { destruct Hev as [[-> _] | (tpl & _ & Hev)].
    - exists [], [], []. split; [done |]. split; [| by left].
      intros en Hin. by apply elem_of_nil in Hin.
    - destruct (run_events_segment _ _ _ _ u Hnodup Hev)
        as (before & mine & after & Hevs & Hothers & Hmine).
      exists before, mine, after. split; [done |]. split; [done |].
      destruct Hmine as [-> | (tg & r' & Hin & Hmine)]; [by left |].
      right. eauto. }
  destruct Hseg as (before & mine & after & -> & Hothers & Hmine).
  assert (Hcount : forall kind, count_for kind u (before ++ mine ++ after) =
                                count_for kind u mine).
  { intros kind. rewrite !count_for_app.
    rewrite (count_for_none kind u before), (count_for_none kind u after); [lia | |];
      intros en Hin; apply Hothers, elem_of_app; auto. }
  rewrite !Hcount. split; [| split; [| split]].
  - destruct Hmine as [-> | (tpl & tg & r' & _ & Hm)]; [unfold count_for; simpl; lia |].
    by destruct (iteration_events_counts _ _ _ _ _ _ _ Hm) as (? & ? & ?).
  - destruct Hmine as [-> | (tpl & tg & r' & _ & Hm)]; [unfold count_for; simpl; lia |].
    by destruct (iteration_events_counts _ _ _ _ _ _ _ Hm) as (? & ? & ?).
  - destruct Hmine as [-> | (tpl & tg & r' & _ & Hm)]; [unfold count_for; simpl; lia |].
    by destruct (iteration_events_counts _ _ _ _ _ _ _ Hm) as (? & ? & ?).
  - exists before, mine, after. by repeat split.
Qed.

End RunFacts.

(** ** Failures of external calls are not swallowed *)
Section Surfacing.
Variable env : Environment.

Lemma surfacing_still {A} (m : M A) :
  (forall w, clock (m w).2 = clock w) -> surfacing env m.
Proof.
  intros Hclock w. unfold wp. specialize (Hclock w). destruct (m w) as [r w'].
  simpl in Hclock. split; [lia |]. intros (n & code & Hn & _). lia.
Qed.

Lemma surfacing_ret {A} (a : A) : surfacing env (mret a).
Proof. by apply surfacing_still. Qed.

Lemma surfacing_raise {A} e : surfacing env (raise e : M A).
Proof. by apply surfacing_still. Qed.

Lemma surfacing_lift {A} (r : result A) : surfacing env (lift r).
Proof. by apply surfacing_still. Qed.

Lemma surfacing_emit u e : surfacing env (emit u e).
Proof. by apply surfacing_still. Qed.

Lemma surfacing_read_line : surfacing env read_line.
Proof. apply surfacing_still. intros w. unfold read_line. by destruct (stdin w). Qed.

Lemma surfacing_external : surfacing env (external env).
Proof.
  intros w. apply wp_external.
  - intros Hnone. simpl. split; [lia |]. intros (n & code & Hn & Hcode).
    simpl in Hn. assert (n = clock w) as -> by lia. congruence.
  - intros code Hcode. simpl. split; [lia |]. eauto.
Qed.

Lemma surfacing_bind {A B} (m : M A) (f : A -> M B) :
  surfacing env m -> (forall a, surfacing env (f a)) -> surfacing env (m ≫= f).
Proof.
  intros Hm Hf w. apply wp_bind. eapply wp_mono; [apply Hm |].
  intros [a | e] w1 [Hle1 Hfault1]; cycle 1.
  { split; [done |]. intros Hbetween. destruct (Hfault1 Hbetween) as [code [= ->]]. eauto. }
  eapply wp_mono; [apply Hf |]. intros r w2 [Hle2 Hfault2].
  split; [lia |]. intros (n & code & Hn & Hcode).
  destruct (decide (n < clock w1)%nat).
  - destruct Hfault1 as [code' Hbad]; [| done]. exists n, code. split; [lia | done].
  - apply Hfault2. exists n, code. split; [lia | done].
Qed.

Lemma surfacing_try_except {A} (body handler : M A) :
  surfacing env body -> surfacing env handler ->
  surfacing env (try_except body is_WorksheetNotFound handler).
Proof.
  intros Hb Hh w. apply wp_try_except. eapply wp_mono; [apply Hb |].
  intros [a | e] w1 [Hle1 Hfault1]; [done |].
  destruct (is_WorksheetNotFound e) eqn:Hcaught; [| done].
  eapply wp_mono; [apply Hh |]. intros r w2 [Hle2 Hfault2].
  split; [lia |]. intros (n & code & Hn & Hcode).
  destruct (decide (n < clock w1)%nat).
  - destruct Hfault1 as [code' [= ->]]; [| done]. exists n, code. split; [lia | done].
  - apply Hfault2. exists n, code. split; [lia | done].
Qed.

Lemma surfacing_with_spreadsheet {A} sp (k : Spreadsheet -> M A) :
  (forall s, surfacing env (k s)) -> surfacing env (with_spreadsheet sp k).
Proof.
  intros Hk w. apply wp_with_spreadsheet.
  - intros _. split; [lia |]. intros (n & code & Hn & _). lia.
  - intros s _. apply Hk.
Qed.

Lemma surfacing_for_each {A} (items : list A) (body : A -> M unit) :
  (forall x, surfacing env (body x)) -> surfacing env (for_each items body).
Proof.
  intros Hbody. induction items as [| x rest IH]; [apply surfacing_ret |].
  cbn [for_each]. apply surfacing_bind; auto.
Qed.

Lemma surfacing_update_worksheet sp pos f :
  surfacing env (update_worksheet sp pos f).
Proof.
  apply surfacing_with_spreadsheet. intros s.
  destruct (worksheets s !! pos); [| apply surfacing_raise].
  apply surfacing_with_spreadsheet. intros s'. by apply surfacing_still.
Qed.

Lemma surfacing_get_worksheet sp idx : surfacing env (get_worksheet env sp idx).
Proof.
  apply surfacing_bind; [apply surfacing_external |]. intros _.
  apply surfacing_with_spreadsheet. intros s.
  destruct (py_index (worksheets s) idx); [apply surfacing_ret | apply surfacing_raise].
Qed.

Lemma surfacing_edit sp pos f :
  surfacing env (external env ;; update_worksheet sp pos f).
Proof.
  apply surfacing_bind; [apply surfacing_external |]. intros _.
  apply surfacing_update_worksheet.
Qed.

Lemma surfacing_insert_rows h rows row : surfacing env (insert_rows env h rows row).
Proof.
  unfold insert_rows. apply surfacing_bind; [apply surfacing_edit |]. intros _.
  apply surfacing_edit.
Qed.

Lemma surfacing_write_df sp df idx name :
  surfacing env (write_df_to_worksheet env sp df idx name).
Proof.
  unfold write_df_to_worksheet. apply surfacing_bind.
  - apply surfacing_try_except.
    + apply surfacing_bind; [apply surfacing_get_worksheet |]. intros h.
      apply surfacing_bind; [apply surfacing_edit |]. intros _. apply surfacing_ret.
    + apply surfacing_bind.
      { apply surfacing_bind; [apply surfacing_external |]. intros _.
        apply surfacing_with_spreadsheet. intros s. apply surfacing_ret. }
      intros all. apply surfacing_bind; [| intros _; apply surfacing_get_worksheet].
      apply surfacing_bind; [apply surfacing_external |]. intros _.
      apply surfacing_with_spreadsheet. intros s.
      apply surfacing_bind; [| intros _; apply surfacing_ret].
      apply surfacing_with_spreadsheet. intros s'. by apply surfacing_still.
  - intros h. apply surfacing_bind; [apply surfacing_insert_rows |]. intros _.
    apply surfacing_insert_rows.
Qed.

(** The session block: a failure of the send is raised again after the
    exit has run, and a failure of the exit is raised itself. *)
Lemma surfacing_session u telegram message :
  surfacing env
    (async_with (aenter env u) (aexit env u) (send_message env u telegram message)).
Proof.
  intros w. apply wp_async_with.
  assert (Henter : surfacing env (aenter env u)).
  { apply surfacing_bind; [apply surfacing_external | intros _; apply surfacing_emit]. }
  assert (Hsend : surfacing env (send_message env u telegram message)).
  { apply surfacing_bind; [apply surfacing_external | intros _; apply surfacing_emit]. }
  eapply wp_mono; [apply Henter |]. intros [[] | e] w1 [Hle1 Hfault1]; [| done].
  eapply wp_mono; [apply Hsend |]. intros rb w2 [Hle2 Hfault2].
  unfold aexit. apply wp_bind, wp_emit, wp_external.
  - intros Hnone. simpl in *. split; [lia |]. intros (n & code & Hn & Hcode).
    simpl in Hn. destruct (decide (n < clock w1)%nat).
    { destruct Hfault1 as [code' Hbad]; [| done]. exists n, code. split; [lia | done]. }
    destruct (decide (n < clock w2)%nat).
    { apply Hfault2. exists n, code. split; [lia | done]. }
    assert (n = clock w2) as -> by lia. congruence.
  - intros code Hcode. simpl. split; [lia |]. eauto.
Qed.

Lemma surfacing_deliver config message_template u telegram rv sm :
  surfacing env (deliver env config message_template u telegram rv sm).
Proof.
  unfold deliver.
  apply surfacing_bind; [apply surfacing_lift |]. intros year_month.
  apply surfacing_bind; [apply surfacing_lift |]. intros table_name.
  apply surfacing_bind.
  { unfold create. apply surfacing_bind; [apply surfacing_external |]. intros _.
    apply surfacing_bind; [by apply surfacing_still |]. intros sp.
    apply surfacing_bind; [apply surfacing_emit | intros _; apply surfacing_ret]. }
  intros sp. apply surfacing_bind.
  { unfold share. apply surfacing_bind; [apply surfacing_external |]. intros _.
    apply surfacing_with_spreadsheet. intros s. by apply surfacing_still. }
  intros _. apply surfacing_bind; [apply surfacing_write_df |].
  intros _. apply surfacing_bind; [apply surfacing_write_df |].
  intros _. apply surfacing_bind; [apply surfacing_external |].
  intros _. apply surfacing_bind; [apply surfacing_lift |].
  intros message. apply surfacing_session.
Qed.

Lemma surfacing_input u prompt : surfacing env (input u prompt).
Proof.
  apply surfacing_bind; [apply surfacing_emit | intros _; apply surfacing_read_line].
Qed.

Lemma surfacing_iteration config message_template month_reviews_df summary_df item :
  surfacing env (iteration env config message_template month_reviews_df summary_df item).
Proof.
  destruct item as [u telegram]. unfold iteration.
  apply surfacing_bind; [apply surfacing_lift |]. intros sm.
  apply surfacing_bind; [apply surfacing_lift |]. intros rv.
  assert (Hcontact : surfacing env
            (contact_stage env config message_template u telegram rv sm)).
  { unfold contact_stage. destruct (negb (truthy telegram)); [| apply surfacing_deliver].
    apply surfacing_bind; [apply surfacing_input |]. intros answer.
    destruct (negb (truthy (PStr answer)));
      [apply surfacing_emit | apply surfacing_deliver]. }
  destruct (shape0 sm =? 0)%nat; [apply surfacing_emit |].
  unfold confirm_stage. destruct (confirm_every_reviewer config); [| done].
  apply surfacing_bind; [apply surfacing_input |]. intros answer.
  destruct (negb (truthy (PStr answer))); [apply surfacing_emit | done].
Qed.

End Surfacing.

(** ** An error ends the run *)
Section Propagation.
Variable env : Environment.
Variable config : Config.

Lemma for_each_app {A} (body : A -> M unit) (items1 items2 : list A) : forall w,
  for_each (items1 ++ items2) body w =
  match for_each items1 body w with
  | (Ok _, w1) => for_each items2 body w1
  | (Raise e, w1) => (Raise e, w1)
  end.
Proof.
  induction items1 as [| x items1 IH]; intros w; [done |].
  simpl. unfold mbind, M_bind. destruct (body x w) as [[[] | e] w1]; [apply IH | done].
Qed.

Lemma get_google_client_frame google_loginer w r w1 :
  get_google_client env google_loginer w = (r, w1) -> exists h, w1 = set_host h w.
Proof.
  intros Hrun.
  apply (wp_run _ _ _ _ _ (wp_get_google_client env google_loginer w
           (fun _ w' => exists h, w' = set_host h w) ltac:(by eexists)) Hrun).
Qed.

(** C3: take a run whose setup succeeds (the template is read, the login
    returns a client, the invoice is fetched) and in which the iterations
    of the reviewers before some reviewer of the mapping end normally. A
    failing external call in that reviewer's iteration, be it for the
    spreadsheet or for the message, makes the iteration raise; and whatever
    the iteration raises is what the whole run raises, in the world the
    iteration left: the spreadsheets and the trace of the earlier iterations
    are still there, and nothing in the trace belongs to a reviewer after
    the failing one. *)
Theorem C3_error_ends_the_run w message_template google_client w1 before u telegram after :
  Login.read_file (host w) (message_template_filename config) = Some message_template ->
  get_google_client env
    (Login.init Json Client (google_credentials_file_path config)
       (google_authorized_user_file_path config)) w = (Ok google_client, w1) ->
  fault env (clock w1) = None ->
  dvmn_reviewers (invoice_of env (month config) (year config)) =
    before ++ (u, telegram) :: after ->
  let invoice := invoice_of env (month config) (year config) in
  let body := iteration env config message_template
                (month_reviews invoice) (summary invoice) in
  let started := set_clock (S (clock w1)) w1 in
  let earlier := for_each before body started in
  earlier.1 = Ok tt ->
  let failing := body (u, telegram) earlier.2 in
  (fault_between env earlier.2 failing.2 ->
     exists code, failing.1 = Raise (ServiceError code)) /\
  forall e, failing.1 = Raise e ->
    amain env config w = (Raise e, failing.2) /\
    drive earlier.2 `prefix_of` drive failing.2 /\
    trace earlier.2 `prefix_of` trace failing.2 /\
    forall en, en ∈ since w failing.2 -> who en ∈ (before ++ [(u, telegram)]).*1.
Proof.
  intros Hfile Hlogin Hfault Hitems invoice body started earlier Hearlier failing.
  assert (Hamain : amain env config w =
            for_each (before ++ (u, telegram) :: after) body started).
  { rewrite amain_setup, Hfile, Hlogin, Hfault. cbv zeta. by rewrite Hitems. }
  destruct (get_google_client_frame _ _ _ _ Hlogin) as [h Hw1].
  assert (Hstarted : trace started = trace w) by (unfold started; by rewrite Hw1).
  pose proof (loop_spec env config message_template (month_reviews invoice)
                (summary invoice) before started) as Hloop.
  unfold wp in Hloop. fold body in Hloop.
  subst earlier failing.
  destruct (for_each before body started) as [r1 w1'] eqn:He.
  cbn [fst snd] in *. subst r1.
  pose proof (iteration_spec env config message_template (month_reviews invoice)
                (summary invoice) u telegram w1') as Hiter.
  pose proof (surfacing_iteration env config message_template
                (month_reviews invoice) (summary invoice) (u, telegram) w1') as Hsurf.
  unfold wp in Hiter, Hsurf. fold body in Hiter, Hsurf.
  destruct (body (u, telegram) w1') as [r2 w2] eqn:Hf. cbn [fst snd].
  split; [by destruct Hsurf |].
  intros e ->.
  destruct Hloop as (_ & _ & evs1 & Ht1 & Hev1 & _).
  destruct Hiter as (_ & Hd & evs2 & Ht2 & Hev2 & _).
  split.
  { rewrite Hamain, for_each_app, He. cbn [for_each].
    unfold mbind at 1, M_bind at 1. by rewrite Hf. }
  split; [done |]. split; [by eexists |].
  intros en. unfold since. rewrite Ht2, Ht1, Hstarted. rewrite <- app_assoc, drop_app_length.
  rewrite fmap_app. intros Hin. apply elem_of_app in Hin as [Hin | Hin]; apply elem_of_app.
  - left. by eapply run_events_who.
  - right. rewrite (iteration_events_who _ _ _ _ _ _ _ _ Hev2 Hin). apply list_elem_of_here.
Qed.

End Propagation.

(** ** The statements at the sample data *)


(** C4, as stated, fails. Reviewer alice has a summary row and the flag is
    set, but on an invoice without review rows line 117 raises [KeyError]
    before the confirmation: no prompt is shown and the line waiting on
    standard input is not read. *)
Lemma C4_counterexample :
  reviewer_slice sample_summary "alice" = Ok alice_summary /\
  shape0 alice_summary = 1%nat /\
  confirm_every_reviewer (sample_config true) = true /\
  iteration sample_env (sample_config true) "Отчёт" no_columns sample_summary
    ("alice", PStr "@alice_tg") (world_of ["y"]) =
  (Raise (KeyError "Ревьюер"), world_of ["y"]) /\
  trace (world_of ["y"]) = [] /\
  stdin (world_of ["y"]) = ["y"].
Proof. by vm_compute. Qed.


(** A failing call while the third reviewer's spreadsheet is filled: the
    run ends with that error. *)
Lemma C3_error_witness :
  (amain failing_env stored_config (world_of ["@carol2"])).1 =
  Raise (ServiceError 503).
Proof.
  destruct (C3_error_ends_the_run failing_env stored_config
              (world_of ["@carol2"]) "Отчёт" (Some 0%nat)
              (set_host logged_in (world_of ["@carol2"]))
              [("alice", PStr "@alice_tg"); ("bob", PStr "@bob_tg")]
              "carol" (PStr "") [("alice2", PStr "@alice2_tg")]
              eq_refl eq_refl eq_refl eq_refl eq_refl) as [_ Hends].
  destruct (Hends (ServiceError 503) eq_refl) as [Hrun _].
  by rewrite Hrun.
Defined.

(** The confirmation declined for reviewer alice. *)
Lemma C4_confirmation_witness :
  (iteration sample_env (sample_config true) "Отчёт" sample_reviews sample_summary
     ("alice", PStr "@alice_tg") (world_of [""])).1 = Ok tt.
Proof.
  assert (Hshape : shape0 alice_summary <> 0%nat) by (cbv; discriminate).
  destruct (C4_confirmation_prompt sample_env (sample_config true) "Отчёт"
              sample_reviews sample_summary "alice" (PStr "@alice_tg") (world_of [""])
              alice_summary alice_reviews eq_refl Hshape eq_refl) as [Hset _].
  destruct (Hset eq_refl "" [] eq_refl) as [_ Hempty].
  destruct (Hempty eq_refl) as [Hrun _].
  by rewrite Hrun.
Defined.

(** The contact of reviewer carol, entered at the prompt. *)
Lemma C5_missing_contact_witness :
  (contact_stage sample_env (sample_config false) "Отчёт" "carol" (PStr "")
     carol_reviews carol_summary (world_of ["@carol2"])).1 = Ok tt.
Proof.
  destruct (C5_missing_contact sample_env (sample_config false) "Отчёт" "carol"
              (PStr "") carol_reviews carol_summary (world_of ["@carol2"])
              "@carol2" [] eq_refl eq_refl) as [_ Hgiven].
  destruct Hgiven as (_ & _ & _ & Hquiet); [discriminate |].
  apply Hquiet.
  - intros n. reflexivity.
  - eexists. eexists. split; reflexivity.
  - intros sp. eexists. reflexivity.
Defined.

(** The spreadsheet of reviewer alice. *)
Lemma C6_two_filled_worksheets_witness :
  exists s ws0 ws1,
    drive (iteration sample_env (sample_config false) "Отчёт" sample_reviews
             sample_summary ("alice", PStr "@alice_tg") (world_of [])).2 = [s] /\
    worksheets s = [ws0; ws1] /\
    cells ws0 = (PStr <$> columns alice_reviews) :: values alice_reviews /\
    cells ws1 = (PStr <$> columns alice_summary) :: values alice_summary.
Proof.
  destruct (C6_two_filled_worksheets sample_env (sample_config false) "Отчёт"
              sample_reviews sample_summary "alice" (PStr "@alice_tg") (world_of []))
    as (rv & sm & i & j & s & ws0 & ws1 & Hrv & _ & _ & _ & Hsm & _ & _ & _ &
        Hdrive & Hws & _ & Hc0 & _ & _ & Hc1 & _).
  - reflexivity.
  - exists (PStr "@alice_tg"), "Отчёт https://docs.google.com/spreadsheets/d/0".
    do 2 apply list_elem_of_further. apply list_elem_of_here.
  - injection Hrv as <-. injection Hsm as <-.
    exists s, ws0, ws1. by repeat split.
Defined.

(** The run over the sample mapping, whose identifiers are distinct. *)
Lemma C9_at_most_once_witness :
  (count_for is_create "alice"
     (since (world_of ["@carol2"])
        (amain sample_env stored_config (world_of ["@carol2"])).2) <= 1)%nat.
Proof.
  assert (Hkeys : NoDup (dvmn_reviewers (invoice_of sample_env
                    (month stored_config) (year stored_config))).*1).
  { apply (bool_decide_unpack _). reflexivity. }
  destruct (C9_each_reviewer_at_most_once sample_env stored_config
              (world_of ["@carol2"]) Hkeys) as [_ Hall].
  exact (proj1 (Hall "alice")).
Defined.

(** * Further properties of the code *)

(** ** The reviewer slices (run.py, 116-117) *)

Lemma index_of_None name cols : index_of name cols = None <-> name ∉ cols.
Proof.
  induction cols as [| c cols IH]; simpl.
  - split; [intros _ H; by apply elem_of_nil in H | done].
  - destruct (String.eqb c name) eqn:E.
    + apply String.eqb_eq in E. subst c. split; [done |].
      intros H. destruct H. apply list_elem_of_here.
    + apply String.eqb_neq in E. rewrite not_elem_of_cons.
      destruct (index_of name cols); simpl; split; try done.
      * intros [_ H]. by apply IH in H.
      * intros _. split; [congruence | by apply IH].
Qed.

Lemma index_of_Some name cols i :
  index_of name cols = Some i -> cols !! i = Some name.
Proof.
  revert i. induction cols as [| c cols IH]; intros i; simpl; [done |].
  destruct (String.eqb c name) eqn:E.
  - apply String.eqb_eq in E. by intros [= <-]; subst.
  - destruct (index_of name cols) as [j |]; simpl; [| done].
    intros [= <-]. simpl. by apply IH.
Qed.

Lemma belongs_spec i u row : belongs i u row = true <-> row !! i = Some (PStr u).
Proof.
  unfold belongs, eq_str. destruct (row !! i) as [[| b | z | s] |]; simpl; try done.
  rewrite String.eqb_eq. split; congruence.
Qed.

Lemma filter_sublist {A} (f : A -> bool) (l : list A) : List.filter f l `sublist_of` l.
Proof.
  induction l as [| x l IH]; simpl; [done |].
  destruct (f x); [by apply sublist_skip | by apply sublist_cons].
Qed.


(** X1: slicing a frame raises [KeyError] for the reviewer column exactly
    when the frame has no column of that name; a frame that has it is
    sliced, and the slice keeps the columns of the frame and holds no more
    rows than the frame. *)
Theorem X1_slice_key_error df u :
  (REVIEWER_COLUMN ∉ columns df <->
   reviewer_slice df u = Raise (KeyError REVIEWER_COLUMN)) /\
  (REVIEWER_COLUMN ∈ columns df <->
   exists s, reviewer_slice df u = Ok s /\ columns s = columns df /\
             (shape0 s <= shape0 df)%nat).
Proof.
  unfold reviewer_slice, getitem_column.
  destruct (index_of REVIEWER_COLUMN (columns df)) as [i |] eqn:Hi.
  - assert (Hin : REVIEWER_COLUMN ∈ columns df).
    { destruct (decide (REVIEWER_COLUMN ∈ columns df)) as [| Hn]; [done |].
      apply index_of_None in Hn. congruence. }
    split; [split; [done | discriminate] |]. split; [| done]. intros _.
    eexists. split; [done |]. split; [done |].
    unfold shape0, getitem_mask, series_eq. simpl. rewrite map_map.
    rewrite (select_rows_filter (belongs i u)).
    apply sublist_length, filter_sublist.
  - apply index_of_None in Hi. split; [done |].
    split; [done |]. by intros (s & Hs & _).
Qed.

(** X2: a slice is the frame with its rows filtered. It has the columns
    of the frame, and its rows are exactly the rows of the frame whose cell
    in the reviewer column is the reviewer's identifier as a string: each
    of them as often as the frame has it, in the order of the frame, and
    no other row. A row whose cell is missing, null or a number is not
    among them. *)
Theorem X2_slice_rows df u s :
  reviewer_slice df u = Ok s ->
  exists i,
    index_of REVIEWER_COLUMN (columns df) = Some i /\
    columns df !! i = Some REVIEWER_COLUMN /\
    columns s = columns df /\
    values s = List.filter (belongs i u) (values df) /\
    forall row, belongs i u row = true <-> row !! i = Some (PStr u).
Proof.
  intros Hs. destruct (reviewer_slice_rows _ _ _ Hs) as (Hcols & i & Hi & Hrows).
  exists i. split; [done |]. split; [by apply index_of_Some |].
  split; [done |]. split; [done |]. intros row. apply belongs_spec.
Qed.

Lemma X2_slice_rows_witness :
  exists i,
    index_of REVIEWER_COLUMN (columns sample_reviews) = Some i /\
    columns sample_reviews !! i = Some REVIEWER_COLUMN /\
    columns alice_reviews = columns sample_reviews /\
    values alice_reviews = List.filter (belongs i "alice") (values sample_reviews) /\
    forall row, belongs i "alice" row = true <-> row !! i = Some (PStr "alice").
Proof. apply (X2_slice_rows sample_reviews "alice" alice_reviews). reflexivity. Defined.

Lemma sum_list_fmap_add {A} (a b : A -> nat) (l : list A) :
  sum_list ((fun x => a x + b x)%nat <$> l) = (sum_list (a <$> l) + sum_list (b <$> l))%nat.
Proof. induction l as [| x l IH]; csimpl; [done |]. rewrite IH. lia. Qed.

Lemma sum_list_indicator (f : string -> bool) (us : list string) :
  (forall u u', f u = true -> f u' = true -> u = u') ->
  NoDup us ->
  sum_list ((fun u => if f u then 1 else 0)%nat <$> us) = (if existsb f us then 1 else 0)%nat.
Proof.
  intros Hone. induction 1 as [| u us Hu Hnd IH]; csimpl; [done |].
  rewrite IH. destruct (f u) eqn:Eu; simpl; [| done].
  destruct (existsb f us) eqn:Ex; [| done].
  apply List.existsb_exists in Ex as (u' & Hin & Eu').
  apply list_elem_of_In in Hin. by rewrite (Hone u u' Eu Eu') in Hu.
Qed.

Lemma sum_list_filter_partition {A} (f : string -> A -> bool) (us : list string) (rows : list A) :
  (forall x u u', f u x = true -> f u' x = true -> u = u') ->
  NoDup us ->
  sum_list ((fun u => length (List.filter (f u) rows)) <$> us) =
  length (List.filter (fun x => existsb (fun u => f u x) us) rows).
Proof.
  intros Hone Hnd. induction rows as [| x rows IH]; simpl.
  - clear Hnd. by induction us as [| u us IHus].
  - transitivity (sum_list ((fun u => (if f u x then 1 else 0) +
                                      length (List.filter (f u) rows))%nat <$> us)).
    { f_equal. apply list_fmap_ext. intros _ u _. by destruct (f u x). }
    rewrite (sum_list_fmap_add (fun u => if f u x then 1 else 0)%nat
               (fun u => length (List.filter (f u) rows))).
    rewrite IH, (sum_list_indicator (fun u => f u x)); [| by eauto | done].
    by destruct (existsb (fun u => f u x) us).
Qed.

(** X3: the slices of a frame for distinct reviewers share no row: their
    sizes add up to the number of rows whose reviewer cell names one of
    them, so to no more than the frame has. *)
Theorem X3_slices_partition df i (usernames : list string) :
  index_of REVIEWER_COLUMN (columns df) = Some i ->
  NoDup usernames ->
  sum_list (slice_size df <$> usernames) =
    length (List.filter (reviewer_among i usernames) (values df)) /\
  (sum_list (slice_size df <$> usernames) <= shape0 df)%nat.
Proof.
  intros Hi Hnd.
  assert (Hsize : forall u, slice_size df u = length (List.filter (belongs i u) (values df))).
  { intros u. unfold slice_size.
    destruct (reviewer_slice df u) as [s | e] eqn:Hs.
    - destruct (reviewer_slice_rows _ _ _ Hs) as (_ & j & Hj & Hrows).
      unfold shape0. rewrite Hrows. congruence.
    - unfold reviewer_slice, getitem_column in Hs. by rewrite Hi in Hs. }
  assert (Hsum : sum_list (slice_size df <$> usernames) =
                 length (List.filter (reviewer_among i usernames) (values df))).
  { rewrite (list_fmap_ext (slice_size df)
               (fun u => length (List.filter (belongs i u) (values df))) usernames);
      [| by intros; apply Hsize].
    apply (sum_list_filter_partition (belongs i)); [| done].
    intros row u u' Hu Hu'. apply belongs_spec in Hu, Hu'. congruence. }
  split; [done |]. rewrite Hsum. apply sublist_length, filter_sublist.
Qed.

Lemma X3_slices_partition_witness :
  sum_list (slice_size sample_reviews <$> ["alice"; "bob"; "carol"]) =
    length (List.filter (reviewer_among 0 ["alice"; "bob"; "carol"]) (values sample_reviews)) /\
  (sum_list (slice_size sample_reviews <$> ["alice"; "bob"; "carol"]) <= shape0 sample_reviews)%nat.
Proof.
  apply (X3_slices_partition sample_reviews 0 ["alice"; "bob"; "carol"]).
  - reflexivity.
  - refine (bool_decide_unpack _ _). vm_compute. exact I.
Defined.

Lemma filter_filter_same {A} (f : A -> bool) (l : list A) :
  List.filter f (List.filter f l) = List.filter f l.
Proof.
  induction l as [| x l IH]; simpl; [done |].
  destruct (f x) eqn:E; simpl; [by rewrite E, IH | done].
Qed.

Lemma filter_filter_none {A} (f g : A -> bool) (l : list A) :
  (forall x, f x = true -> g x = false) ->
  List.filter g (List.filter f l) = [].
Proof.
  intros H. induction l as [| x l IH]; simpl; [done |].
  destruct (f x) eqn:E; simpl; [by rewrite (H x E) | done].
Qed.

(** X4: slicing a slice again by the same reviewer gives the slice back,
    and slicing it by another reviewer gives a frame with the same columns
    and no row. *)
Theorem X4_slice_of_slice df u s :
  reviewer_slice df u = Ok s ->
  reviewer_slice s u = Ok s /\
  forall u', u' <> u ->
    reviewer_slice s u' = Ok {| columns := columns df; values := [] |}.
Proof.
  intros Hs. destruct (reviewer_slice_rows _ _ _ Hs) as (Hcols & i & Hi & Hrows).
  assert (Hgen : forall u', reviewer_slice s u' =
            Ok {| columns := columns df;
                  values := List.filter (belongs i u') (values s) |}).
  { intros u'. unfold reviewer_slice, getitem_column. rewrite Hcols, Hi.
    unfold getitem_mask, series_eq. rewrite map_map, Hcols.
    by rewrite (select_rows_filter (belongs i u')). }
  split.
  - rewrite Hgen, Hrows, filter_filter_same, <- Hrows, <- Hcols. by destruct s.
  - intros u' Hne. rewrite Hgen, Hrows, filter_filter_none; [done |].
    intros row Hrow. apply belongs_spec in Hrow.
    destruct (belongs i u' row) eqn:E; [| done].
    apply belongs_spec in E. congruence.
Qed.

Lemma X4_slice_of_slice_witness :
  reviewer_slice alice_reviews "alice" = Ok alice_reviews /\
  forall u', u' <> "alice" ->
    reviewer_slice alice_reviews u' = Ok {| columns := columns sample_reviews; values := [] |}.
Proof. apply (X4_slice_of_slice sample_reviews "alice" alice_reviews). reflexivity. Defined.

(** ** The default-period loop on every date (run.py, 162-169) *)

Section CalendarCoverage.
Import Calendar.

Lemma search_overflow now : forall (n a k : nat),
  (a <= k < a + n)%nat ->
  (forall j, (a <= j < k)%nat ->
     exists q, sub_days now j = Some q /\ month q = month now) ->
  sub_days now k = None ->
  search now (seq a n) = OverflowError.
Proof.
  induction n as [| n IH]; intros a k Hk Hbefore Hsub; [lia |].
  cbn [seq search].
  destruct (decide (a = k)) as [-> | Hak].
  - by rewrite Hsub.
  - destruct (Hbefore a) as (q & -> & Hq); [lia |].
    rewrite Hq, Z.eqb_refl. simpl.
    apply (IH _ k); auto; [lia |]. intros j Hj. apply Hbefore. lia.
Qed.

Lemma default_period_value (now : datetime) :
  valid_datetime now ->
  default_period now =
    if (year now =? MINYEAR) && (month now =? 1) then OverflowError
    else
      let prev := previous_month (year now) (month now) in
      Found (Z.to_nat (day now))
            (with_date now (fst prev) (snd prev) (days_in_month (fst prev) (snd prev))).
Proof.
  intros Hv. pose proof Hv as (Hy & Hm & Hd & Ht). unfold MINYEAR in *.
  pose proof (days_in_month_bounds (year now) (month now) Hm) as Hdim.
  assert (Hbefore : forall j, (1 <= j < Z.to_nat (day now))%nat ->
            exists q, sub_days now j = Some q /\ month q = month now).
  { intros j Hj. eexists. split; [apply sub_days_same_month; lia | done]. }
  pose proof (sub_days_month_start now (proj1 Hd)) as Hstart.
  unfold pred_day, with_date, MINYEAR in Hstart. simpl in Hstart.
  unfold default_period, max_days_in_month, previous_month.
  destruct (1 <? month now) eqn:E2.
  - apply Z.ltb_lt in E2.
    assert ((month now =? 1) = false) as -> by (apply Z.eqb_neq; lia).
    rewrite andb_false_r. cbv zeta. cbn [fst snd].
    apply search_first; auto; [lia | simpl; lia].
  - apply Z.ltb_ge in E2.
    assert ((month now =? 1) = true) as -> by (apply Z.eqb_eq; lia).
    rewrite andb_true_r.
    destruct (year now =? 1) eqn:E1.
    + apply Z.eqb_eq in E1.
      assert ((1 <? year now) = false) as E3 by (apply Z.ltb_ge; lia).
      rewrite E3 in Hstart.
      apply (search_overflow now _ _ (Z.to_nat (day now))); auto. lia.
    + apply Z.eqb_neq in E1.
      assert ((1 <? year now) = true) as E3 by (apply Z.ltb_lt; lia).
      rewrite E3 in Hstart. cbv zeta. cbn [fst snd andb].
      change (days_in_month (year now - 1) 12) with 31.
      apply search_first; auto; [lia | simpl; lia].
Qed.

(** X5: on every valid date the loop ends at the offset equal to the day
    of the month. In January of year 1 the subtraction at that offset
    raises [OverflowError]; on every other date the loop breaks there and
    [prev_month_date] is the last day of the previous month at the time of
    day of [now]. The loop never runs off its range, so the default month
    is never left unbound. *)
Theorem X5_default_period_every_date (now : datetime) :
  valid_datetime now ->
  default_period now =
    if (year now =? MINYEAR) && (month now =? 1) then OverflowError
    else
      let prev := previous_month (year now) (month now) in
      Found (Z.to_nat (day now))
            (with_date now (fst prev) (snd prev) (days_in_month (fst prev) (snd prev))).
Proof. apply default_period_value. Qed.

Lemma X5_default_period_witness :
  default_period third_of_november =
    Found 3 (with_date third_of_november 2026 10 31).
Proof.
  apply (X5_default_period_every_date third_of_november).
  cbv -[Z.le Z.lt]. lia.
Defined.

End CalendarCoverage.

(** ** The write helper beyond its target (run.py, 83-96) *)

Section HelperCoverage.
Variable env : Environment.

Lemma write_df_missing_handle sp df idx name w :
  drive w !! sp = None ->
  wp (write_df_to_worksheet env sp df idx name) w (fun r w' =>
    drive w' = drive w /\ exists code, r = Raise (ServiceError code)).
Proof.
  intros Hnone. unfold write_df_to_worksheet, get_worksheet.
  apply wp_bind, wp_try_except, wp_bind, wp_bind, wp_external.
  - intros _. apply wp_with_spreadsheet; simpl.
    + intros _. split; [done |]. by eexists.
    + intros s Hs. congruence.
  - intros code _. simpl. split; [done |]. by eexists.
Qed.

Lemma cells_fill df ws :
  cells (fill df ws) = (PStr <$> columns df) :: values df ++ cells ws /\
  row_count (fill df ws) = (row_count ws + 1 + shape0 df)%nat /\
  col_count (fill df ws) = col_count ws /\
  title (fill df ws) = title ws.
Proof.
  unfold fill, add_rows, insert_at, first_row_after_header, shape0. simpl.
  rewrite drop_0. by repeat split.
Qed.

(** X6: whatever its outcome, the write helper reads no input, records
    nothing, and leaves the number of spreadsheets and every spreadsheet
    other than its own as they were. On a handle that names no spreadsheet
    it raises a service error and changes no spreadsheet at all. *)
Theorem X6_write_helper_frame sp df idx name w :
  let run := write_df_to_worksheet env sp df idx name w in
  stdin run.2 = stdin w /\
  trace run.2 = trace w /\
  length (drive run.2) = length (drive w) /\
  (forall j, j <> sp -> drive run.2 !! j = drive w !! j) /\
  (drive w !! sp = None ->
   drive run.2 = drive w /\ exists code, run.1 = Raise (ServiceError code)).
Proof.
  intros run.
  pose proof (write_df_spec env sp df idx name w) as Hspec.
  pose proof (write_df_missing_handle sp df idx name w) as Hmiss.
  unfold wp in Hspec, Hmiss. fold run in Hspec, Hmiss.
  destruct run as [r w']. simpl.
  destruct Hspec as ((Hin & Htr & Hlen & Hother) & _).
  repeat (split; [done |]). exact Hmiss.
Qed.

(** X7: a successful write to a slot that holds a worksheet keeps what the
    worksheet held: the header becomes row 1, the rows of the table follow
    in the order of the frame, and the former rows come after them. The
    worksheet grows by one row more than the table has, keeps its number
    of columns and takes the given name; the number of worksheets stays. *)
Theorem X7_write_helper_keeps_old_rows sp s pos ws df idx name w :
  drive w !! sp = Some s ->
  py_index (worksheets s) idx = Some pos ->
  worksheets s !! pos = Some ws ->
  let run := write_df_to_worksheet env sp df idx name w in
  run.1 = Ok tt ->
  exists s' ws',
    drive run.2 !! sp = Some s' /\
    length (worksheets s') = length (worksheets s) /\
    worksheets s' !! pos = Some ws' /\
    title ws' = name /\
    cells ws' = (PStr <$> columns df) :: values df ++ cells ws /\
    row_count ws' = (row_count ws + 1 + shape0 df)%nat /\
    col_count ws' = col_count ws.
Proof.
  intros Hs Hpos Hws run.
  pose proof (write_df_spec env sp df idx name w) as Hspec.
  unfold wp in Hspec. fold run in Hspec. destruct run as [r w']. simpl.
  destruct Hspec as (_ & _ & Hok & _). intros Hr.
  destruct (Hok Hr) as (s0 & Hs0 & Hs'). assert (s0 = s) as -> by congruence.
  unfold written in Hs'. rewrite Hpos, Hws in Hs'.
  destruct (cells_fill df (set_title name ws)) as (Hc & Hrows & Hcols & Ht).
  eexists _, _. split; [apply Hs' |]. simpl.
  split; [apply length_insert |].
  split; [apply list_lookup_insert_eq; by eapply lookup_lt_Some |].
  by repeat split.
Qed.

Lemma wp_known {A} (m : M A) w r w' (Q : result A -> World -> Prop) :
  m w = (r, w') -> Q r w' -> wp m w Q.
Proof. unfold wp. by intros ->. Qed.

(** Single requests whose outcome is known. *)
Lemma get_worksheet_succeeds sp idx w s pos :
  fault env (clock w) = None ->
  drive w !! sp = Some s ->
  py_index (worksheets s) idx = Some pos ->
  get_worksheet env sp idx w = (Ok (sp, pos), set_clock (S (clock w)) w).
Proof.
  intros Hfault Hs Hpos.
  unfold get_worksheet, external, with_spreadsheet, mbind, M_bind.
  rewrite Hfault. simpl. by rewrite Hs, Hpos.
Qed.

Lemma edit_succeeds sp pos f w s ws :
  fault env (clock w) = None ->
  drive w !! sp = Some s ->
  worksheets s !! pos = Some ws ->
  (external env ;; update_worksheet sp pos f) w =
  (Ok tt, set_drive (<[sp := set_worksheets (<[pos := f ws]> (worksheets s)) s]> (drive w))
            (set_clock (S (clock w)) w)).
Proof.
  intros Hfault Hs Hws.
  unfold external, update_worksheet, update_spreadsheet, with_spreadsheet, store_spreadsheet,
    mbind, M_bind.
  rewrite Hfault. simpl. rewrite Hs, Hws. simpl. by rewrite Hs.
Qed.

Lemma edit_fails sp pos f w code :
  fault env (clock w) = Some code ->
  (external env ;; update_worksheet sp pos f) w =
  (Raise (ServiceError code), set_clock (S (clock w)) w).
Proof.
  intros Hfault. unfold external, mbind, M_bind. by rewrite Hfault.
Qed.

Ltac stored :=
  simpl; first [eassumption | by apply list_lookup_insert_eq; rewrite ?length_insert].

Ltac edit_ok :=
  eapply wp_known; [apply edit_succeeds; [simpl; assumption | stored | stored] |];
  simpl; rewrite ?list_insert_insert_eq.

(** X8: the helper does not undo what it has done, and an insertion of
    rows is two requests. When the worksheet exists and the last request of
    the helper, the one that writes the data into the blank rows made for
    them, fails after the five requests before it succeeded, the helper
    raises the service error and the worksheet is left renamed, with the
    header in row 1, as many blank rows below it as the table has rows, and
    its former rows after them; the data is not there. *)
Theorem X8_write_helper_no_rollback sp s pos ws df idx name w code :
  drive w !! sp = Some s ->
  py_index (worksheets s) idx = Some pos ->
  worksheets s !! pos = Some ws ->
  fault env (clock w) = None ->
  fault env (S (clock w)) = None ->
  fault env (S (S (clock w))) = None ->
  fault env (S (S (S (clock w)))) = None ->
  fault env (S (S (S (S (clock w))))) = None ->
  fault env (S (S (S (S (S (clock w)))))) = Some code ->
  let run := write_df_to_worksheet env sp df idx name w in
  run.1 = Raise (ServiceError code) /\
  exists s' ws',
    drive run.2 !! sp = Some s' /\
    worksheets s' = <[pos := ws']> (worksheets s) /\
    title ws' = name /\
    cells ws' = (PStr <$> columns df) :: replicate (shape0 df) [] ++ cells ws /\
    row_count ws' = (row_count ws + 1 + shape0 df)%nat.
Proof.
  intros Hs Hpos Hws H0 H1 H2 H3 H4 H5 run.
  assert (Hlt : (pos < length (worksheets s))%nat) by (by eapply lookup_lt_Some).
  assert (Hsp : (sp < length (drive w))%nat) by (by eapply lookup_lt_Some).
  assert (Hwp : wp (write_df_to_worksheet env sp df idx name) w (fun r w' =>
            r = Raise (ServiceError code) /\
            drive w' !! sp =
              Some (set_worksheets
                      (<[pos := add_rows 2 (replicate (shape0 df) [])
                                  (add_rows 1 [PStr <$> columns df] (set_title name ws))]>
                         (worksheets s)) s))).
  { unfold write_df_to_worksheet, update_title, insert_row, insert_rows. cbn [fst snd].
    apply wp_bind, wp_try_except, wp_bind.
    eapply wp_known; [by apply (get_worksheet_succeeds sp idx w s pos) |]. cbn [fst snd].
    apply wp_bind. edit_ok. apply wp_ret. cbn beta iota.
    apply wp_bind, wp_bind. edit_ok. edit_ok.
    apply wp_bind. edit_ok.
    eapply wp_known; [apply edit_fails; simpl; eassumption |].
    split; [done |]. simpl. rewrite ?list_insert_insert_eq.
    by rewrite list_lookup_insert_eq. }
  unfold wp in Hwp. fold run in Hwp. destruct run as [r w']. destruct Hwp as [-> Hd].
  split; [done |]. eexists _, _. split; [apply Hd |]. simpl.
  split; [reflexivity |]. simpl. split; [done |].
  unfold insert_at, shape0. simpl. rewrite drop_0, length_replicate.
  split; [done | lia].
Qed.

End HelperCoverage.

(** The summary written to the worksheet that holds the reviews already. *)
Lemma X7_write_helper_witness :
  let run := write_df_to_worksheet sample_env 0 sample_summary 0 "Суммарно"
               world_with_reviews in
  exists s' ws',
    drive run.2 !! 0%nat = Some s' /\
    length (worksheets s') = 1%nat /\
    worksheets s' !! 0%nat = Some ws' /\
    title ws' = "Суммарно" /\
    cells ws' = (PStr <$> columns sample_summary) :: values sample_summary ++
                cells reviews_worksheet /\
    row_count ws' = (row_count reviews_worksheet + 1 + shape0 sample_summary)%nat /\
    col_count ws' = col_count reviews_worksheet.
Proof.
  apply (X7_write_helper_keeps_old_rows sample_env 0
           {| sp_title := "Инвойс"; permissions := []; worksheets := [reviews_worksheet] |}
           0 reviews_worksheet sample_summary 0 "Суммарно" world_with_reviews);
    reflexivity.
Defined.

(** The reviews written to the first worksheet of a new spreadsheet while
    the sixth call fails. *)
Lemma X8_write_helper_witness :
  let run := write_df_to_worksheet sixth_call_fails 0 sample_reviews 0 "Ревью"
               world_with_spreadsheet in
  run.1 = Raise (ServiceError 503) /\
  exists s' ws',
    drive run.2 !! 0%nat = Some s' /\
    worksheets s' = <[0%nat := ws']> (worksheets (new_spreadsheet "Инвойс")) /\
    title ws' = "Ревью" /\
    cells ws' = (PStr <$> columns sample_reviews) :: replicate (shape0 sample_reviews) [] ++ [] /\
    row_count ws' = (1000 + 1 + shape0 sample_reviews)%nat.
Proof.
  apply (X8_write_helper_no_rollback sixth_call_fails 0 (new_spreadsheet "Инвойс") 0
           (blank_worksheet "Sheet1" 1000 26) sample_reviews 0 "Ревью"
           world_with_spreadsheet 503); reflexivity.
Defined.

(** ** One delivery in full (run.py, 136-153) *)

Section DeliverCoverage.
Variable env : Environment.
Variable config : Config.
Variable message_template : string.

Lemma deliver_detail u telegram rv sm w :
  wp (deliver env config message_template u telegram rv sm) w (fun r w' =>
    stdin w' = stdin w /\
    (r = Ok tt ->
     exists table_name message,
       table_name_of env config u table_name /\
       message_of env config message_template (length (drive w)) message /\
       drive w' = drive w ++ [delivered_spreadsheet table_name rv sm] /\
       trace w' = trace w ++
         delivery_entries u telegram table_name (length (drive w)) message) /\
    (quiet env -> forall table_name, table_name_of env config u table_name ->
     drive w' = drive w ++ [delivered_spreadsheet table_name rv sm] /\
     match str_format env message_template
             [("year", pyval_of_int (year config)); ("month", pyval_of_int (month config));
              ("spreadsheet_url", PStr (url env (length (drive w))))] with
     | Ok message =>
         r = Ok tt /\
         trace w' = trace w ++
           delivery_entries u telegram table_name (length (drive w)) message
     | Raise e =>
         r = Raise e /\
         trace w' = trace w ++ [mk_entry u (Create table_name (length (drive w)))]
     end)).
Proof.
  unfold deliver.
  apply wp_bind, wp_lift.
  destruct (format_year_month (year config) (month config)) as [year_month | e] eqn:Hym.
  2:{ split; [done |]. split; [done |].
      intros _ tn (ym & Hym' & _). congruence. }
  apply wp_bind, wp_lift.
  destruct (str_format env (google_table_name config) _) as [table_name | e] eqn:Hname.
  2:{ split; [done |]. split; [done |].
      intros _ tn (ym & Hym' & Hname'). congruence. }
  assert (Hnamed : table_name_of env config u table_name) by (by exists year_month).
  assert (Hfail : forall e w', stdin w' = stdin w -> ~ quiet env ->
            stdin w' = stdin w /\
            (@Raise unit e = Ok tt -> exists tn message,
               table_name_of env config u tn /\
               message_of env config message_template (length (drive w)) message /\
               drive w' = drive w ++ [delivered_spreadsheet tn rv sm] /\
               trace w' = trace w ++
                 delivery_entries u telegram tn (length (drive w)) message) /\
            (quiet env -> forall tn, table_name_of env config u tn ->
             drive w' = drive w ++ [delivered_spreadsheet tn rv sm] /\
             match str_format env message_template
                     [("year", pyval_of_int (year config));
                      ("month", pyval_of_int (month config));
                      ("spreadsheet_url", PStr (url env (length (drive w))))] with
             | Ok message =>
                 @Raise unit e = Ok tt /\
                 trace w' = trace w ++
                   delivery_entries u telegram tn (length (drive w)) message
             | Raise e' =>
                 @Raise unit e = Raise e' /\
                 trace w' = trace w ++ [mk_entry u (Create tn (length (drive w)))]
             end)).
  { intros e w' Hi Hnq. split; [done |]. split; [done |]. intros Hq. by destruct Hnq. }
  apply wp_bind. eapply wp_mono; [apply create_spec |].
  intros [sp | e] w1 [Hin1 Hr1].
  2:{ destruct Hr1 as (_ & _ & Hnq). by apply Hfail. }
  destruct Hr1 as (-> & Hd1 & Ht1).
  set (sp := length (drive w)) in *.
  assert (Hlast : forall w', backend_step sp w1 w' ->
            stdin w' = stdin w /\ trace w' = trace w1 /\
            exists s, drive w' = drive w ++ [s] /\ drive w' !! sp = Some s).
  { intros w' Hstep. pose proof Hstep as (Hi & Ht & _).
    split; [congruence |]. split; [done |]. by eapply backend_step_last. }
  apply wp_bind. eapply wp_mono; [apply share_spec |].
  intros [[] | e] w2 [Hst2 Hr2].
  2:{ apply Hfail; [by destruct (Hlast w2 Hst2) |]. intros Hq. specialize (Hr2 Hq).
      rewrite Hd1 in Hr2. apply lookup_ge_None_1 in Hr2.
      rewrite length_app in Hr2. simpl in Hr2. unfold sp in Hr2. lia. }
  destruct Hr2 as (s1 & Hs1 & Hs2).
  rewrite Hd1, lookup_app_r in Hs1 by (unfold sp; lia).
  unfold sp in Hs1 at 1. rewrite Nat.sub_diag in Hs1. simpl in Hs1.
  inversion Hs1; subst s1. clear Hs1.
  apply wp_bind. eapply wp_mono; [apply write_df_spec |].
  intros r3 w3 (Hst3 & _ & Hok3 & Hq3).
  assert (Hst13 : backend_step sp w1 w3) by chain_steps.
  destruct r3 as [[] | e].
  2:{ apply Hfail; [by destruct (Hlast w3 Hst13) |].
      intros Hq. by specialize (Hq3 Hq (mk_is_Some _ _ Hs2)). }
  destruct (Hok3 eq_refl) as (s2 & Hs2' & Hs3).
  assert (s2 = add_permission link_reader (new_spreadsheet table_name)) as -> by congruence.
  rewrite written_first in Hs3.
  apply wp_bind. eapply wp_mono; [apply write_df_spec |].
  intros r4 w4 (Hst4 & _ & Hok4 & Hq4).
  assert (Hst14 : backend_step sp w1 w4) by chain_steps.
  destruct r4 as [[] | e].
  2:{ apply Hfail; [by destruct (Hlast w4 Hst14) |].
      intros Hq. by specialize (Hq4 Hq (mk_is_Some _ _ Hs3)). }
  destruct (Hok4 eq_refl) as (s3 & Hs3' & Hs4).
  rewrite Hs3 in Hs3'. inversion Hs3'; subst s3. clear Hs3'.
  simpl in Hs4. rewrite written_second in Hs4.
  destruct (Hlast w4 Hst14) as (Hi4 & Ht4 & s4 & Hd4 & Hs4').
  rewrite Hs4 in Hs4'. inversion Hs4'; subst s4. clear Hs4'.
  change (set_worksheets _ _) with (delivered_spreadsheet table_name rv sm) in Hd4.
  assert (Hsame : forall tn, table_name_of env config u tn -> tn = table_name).
  { intros tn (ym & Hym' & Hname'). congruence. }
  unfold TelegramClient. apply wp_bind, wp_external.
  2:{ intros code Hcode. apply Hfail; [done |]. intros Hq. by rewrite Hq in Hcode. }
  intros _.
  apply wp_bind, wp_lift.
  destruct (str_format env message_template _) as [message | e] eqn:Hmsg.
  2:{ split; [done |]. split; [done |]. intros _ tn Htn.
      rewrite (Hsame tn Htn). simpl. split; [done |]. split; [done |].
      by rewrite Ht4, Ht1. }
  eapply wp_mono; [apply session_spec |].
  intros r w' (Hi & Hd & evs & Ht & Hse & Hq). simpl in *.
  assert (Hsent : r = Ok tt ->
            trace w' = trace w ++ delivery_entries u telegram table_name sp message).
  { intros ->. inversion Hse; subst. rewrite Ht, Ht4, Ht1.
    by rewrite <- app_assoc. }
  split; [congruence |]. split.
  - intros Hr. exists table_name, message.
    split; [done |]. split; [done |]. split; [congruence | by apply Hsent].
  - intros Hquiet tn Htn. rewrite (Hsame tn Htn). split; [congruence |].
    split; [by apply Hq | apply Hsent; by apply Hq].
Qed.

(** X9: a delivery that ends normally has added exactly one spreadsheet to
    the drive, under the formatted name, shared once as readable by anyone
    with the link and without notification, and holding the two tables. It
    has recorded the creation and one session with one message, sent to the
    contact it was given; the text of the message is the template rendered
    with the address of that very spreadsheet. It has read no input. *)
Theorem X9_completed_delivery u telegram rv sm w :
  let run := deliver env config message_template u telegram rv sm w in
  run.1 = Ok tt ->
  exists table_name message,
    table_name_of env config u table_name /\
    message_of env config message_template (length (drive w)) message /\
    drive run.2 = drive w ++ [delivered_spreadsheet table_name rv sm] /\
    since w run.2 = delivery_entries u telegram table_name (length (drive w)) message /\
    stdin run.2 = stdin w.
Proof.
  intros run. pose proof (deliver_detail u telegram rv sm w) as Hspec.
  unfold wp in Hspec. fold run in Hspec. destruct run as [r w']. simpl.
  destruct Hspec as (Hin & Hok & _). intros Hr.
  destruct (Hok Hr) as (tn & msg & Htn & Hmsg & Hd & Ht).
  exists tn, msg. repeat (split; [done |]). split; [by apply since_app | done].
Qed.

(** X10: the message is rendered only after the spreadsheet has been made.
    When no external call fails and the name of the spreadsheet can be
    formatted but the message template cannot, the delivery raises the
    error of the template, and the spreadsheet stays behind, shared and
    filled; no session was opened and nothing was sent. *)
Theorem X10_template_error_leaves_spreadsheet u telegram rv sm w table_name e :
  quiet env ->
  table_name_of env config u table_name ->
  str_format env message_template
    [("year", pyval_of_int (year config)); ("month", pyval_of_int (month config));
     ("spreadsheet_url", PStr (url env (length (drive w))))] = Raise e ->
  let run := deliver env config message_template u telegram rv sm w in
  run.1 = Raise e /\
  drive run.2 = drive w ++ [delivered_spreadsheet table_name rv sm] /\
  since w run.2 = [mk_entry u (Create table_name (length (drive w)))].
Proof.
  intros Hquiet Htn Hmsg run.
  pose proof (deliver_detail u telegram rv sm w) as Hspec.
  unfold wp in Hspec. fold run in Hspec. destruct run as [r w']. simpl.
  destruct Hspec as (_ & _ & Hq). destruct (Hq Hquiet _ Htn) as (Hd & Hr).
  rewrite Hmsg in Hr. destruct Hr as [-> Ht].
  split; [done |]. split; [done | by apply since_app].
Qed.

End DeliverCoverage.

(** The delivery to the first reviewer of the sample invoice. *)
Lemma X9_completed_delivery_witness :
  let run := deliver sample_env (sample_config false) "Отчёт" "alice" (PStr "@alice_tg")
               alice_reviews alice_summary (world_of []) in
  exists table_name message,
    table_name_of sample_env (sample_config false) "alice" table_name /\
    message_of sample_env (sample_config false) "Отчёт" 0 message /\
    drive run.2 = [delivered_spreadsheet table_name alice_reviews alice_summary] /\
    since (world_of []) run.2 =
      delivery_entries "alice" (PStr "@alice_tg") table_name 0 message /\
    stdin run.2 = [].
Proof.
  apply (X9_completed_delivery sample_env (sample_config false) "Отчёт" "alice"
           (PStr "@alice_tg") alice_reviews alice_summary (world_of [])).
  reflexivity.
Defined.

(** The same delivery with a template that names an unknown field. *)
Lemma X10_template_error_witness :
  let run := deliver picky_env (sample_config false) "{url}" "alice" (PStr "@alice_tg")
               alice_reviews alice_summary (world_of []) in
  run.1 = Raise (KeyError "url") /\
  drive run.2 = [delivered_spreadsheet "Инвойс 2026_10 alice" alice_reviews alice_summary] /\
  since (world_of []) run.2 = [mk_entry "alice" (Create "Инвойс 2026_10 alice" 0)].
Proof.
  apply (X10_template_error_leaves_spreadsheet picky_env (sample_config false) "{url}"
           "alice" (PStr "@alice_tg") alice_reviews alice_summary (world_of [])
           "Инвойс 2026_10 alice" (KeyError "url")).
  - intros n. reflexivity.
  - exists "2026_10". split; reflexivity.
  - reflexivity.
Defined.

(** ** Whole runs (run.py, 99-153) *)

Lemma reviewer_slice_defined df u :
  REVIEWER_COLUMN ∈ columns df -> exists s, reviewer_slice df u = Ok s.
Proof.
  intros Hin. unfold reviewer_slice, getitem_column.
  destruct (index_of REVIEWER_COLUMN (columns df)) as [i |] eqn:Hi; [by eexists |].
  by apply index_of_None in Hi.
Qed.

Lemma input_account_none w w' r evs :
  stdin w' = stdin w -> prompts evs = [] -> input_account w w' r evs.
Proof. intros Hin Hp. exists []. rewrite Hin, Hp. split; [done | by left]. Qed.

Lemma input_account_app w w1 w2 r evs1 evs2 consumed :
  stdin w = consumed ++ stdin w1 ->
  length (prompts evs1) = length consumed ->
  input_account w1 w2 r evs2 ->
  input_account w w2 r (evs1 ++ evs2).
Proof.
  intros Hin Hlen (consumed' & Hin' & Hcount).
  exists (consumed ++ consumed'). rewrite Hin, Hin', <- app_assoc. split; [done |].
  rewrite prompts_app, !length_app.
  destruct Hcount as [Hc | (Hc & Hr & He)]; [left; lia | right].
  split; [lia | done].
Qed.

Section RunCoverage.
Variable env : Environment.
Variable config : Config.
Variable message_template : string.
Variable month_reviews_df summary_df : DataFrame.

Local Abbreviation body :=
  (iteration env config message_template month_reviews_df summary_df).

Lemma deliver_input u telegram rv sm w :
  wp (deliver env config message_template u telegram rv sm) w (fun r w' =>
    exists evs, trace w' = trace w ++ evs /\ input_account w w' r evs).
Proof.
  eapply wp_mono; [apply deliver_spec |].
  intros r w' (Hin & evs & Ht & Hev & _). exists evs. split; [done |].
  apply input_account_none; [done |]. by eapply deliver_events_prompts.
Qed.

Lemma contact_stage_input u telegram rv sm w :
  wp (contact_stage env config message_template u telegram rv sm) w (fun r w' =>
    exists evs, trace w' = trace w ++ evs /\ input_account w w' r evs).
Proof.
  unfold contact_stage. destruct (truthy telegram); simpl; [apply deliver_input |].
  unfold input. apply wp_bind, wp_bind, wp_emit, wp_read_line.
  - simpl. intros Heof. eexists. split; [done |]. exists []. split; [done |]. by right.
  - simpl. intros answer rest Hin.
    destruct (String.eqb answer "") eqn:Hanswer; simpl.
    + apply wp_emit. simpl. eexists. split; [by rewrite <- app_assoc |].
      exists [answer]. split; [done | by left].
    + eapply wp_mono; [apply deliver_input |].
      intros r w' (evs & Ht & Hacc). simpl in Ht.
      exists (mk_entry u (Input (contact_prompt u)) :: evs).
      split; [by rewrite Ht, <- app_assoc |].
      eapply (input_account_app w _ w' r [_] evs [answer]); [| | apply Hacc]; done.
Qed.

Lemma iteration_input item w :
  wp (body item) w (fun r w' =>
    exists evs, trace w' = trace w ++ evs /\ input_account w w' r evs).
Proof.
  destruct item as [u telegram]. unfold iteration.
  assert (Hnothing : forall e, exists evs,
            trace w = trace w ++ evs /\ input_account w w (Raise e) evs).
  { intros e. exists []. rewrite app_nil_r. split; [done |]. by apply input_account_none. }
  apply wp_bind, wp_lift. destruct (reviewer_slice summary_df u) as [sm | e]; [| done].
  apply wp_bind, wp_lift. destruct (reviewer_slice month_reviews_df u) as [rv | e]; [| done].
  destruct (shape0 sm =? 0)%nat.
  { apply wp_emit. eexists. split; [done |]. by apply input_account_none. }
  unfold confirm_stage. destruct (confirm_every_reviewer config).
  2:{ apply contact_stage_input. }
  unfold input. apply wp_bind, wp_bind, wp_emit, wp_read_line.
  - simpl. intros Heof. eexists. split; [done |]. exists []. split; [done |]. by right.
  - simpl. intros answer rest Hin.
    destruct (String.eqb answer "") eqn:Hanswer; simpl.
    + apply wp_emit. simpl. eexists. split; [by rewrite <- app_assoc |].
      exists [answer]. split; [done | by left].
    + eapply wp_mono; [apply contact_stage_input |].
      intros r w' (evs & Ht & Hacc). simpl in Ht.
      exists (mk_entry u (Input (confirm_prompt u)) :: evs).
      split; [by rewrite Ht, <- app_assoc |].
      eapply (input_account_app w _ w' r [_] evs [answer]); [| | apply Hacc]; done.
Qed.

Lemma loop_input items : forall w,
  wp (for_each items body) w (fun r w' =>
    exists evs, trace w' = trace w ++ evs /\ input_account w w' r evs).
Proof.
  induction items as [| item rest IH]; intros w.
  - apply wp_ret. exists []. rewrite app_nil_r. split; [done |].
    by apply input_account_none.
  - cbn [for_each]. apply wp_bind. eapply wp_mono; [apply iteration_input |].
    intros [[] | e] w1 (evs1 & Ht1 & Hacc1); [| by exists evs1].
    eapply wp_mono; [apply IH |].
    intros r w2 (evs2 & Ht2 & Hacc2). exists (evs1 ++ evs2).
    split; [by rewrite Ht2, Ht1, <- app_assoc |].
    destruct Hacc1 as (consumed & Hin & [Hc | (_ & Hr & _)]); [| done].
    by eapply input_account_app.
Qed.

Lemma deliveries_app t1 t2 : deliveries (t1 ++ t2) = deliveries t1 ++ deliveries t2.
Proof. unfold deliveries. apply omap_app. Qed.

Section Unattended.
Hypothesis Hquiet : quiet env.
Hypothesis Hflag : confirm_every_reviewer config = false.
Hypothesis Hsummary : REVIEWER_COLUMN ∈ columns summary_df.
Hypothesis Hreviews : REVIEWER_COLUMN ∈ columns month_reviews_df.
Hypothesis Hmessage : forall sp, exists message,
  message_of env config message_template sp message.

Lemma iteration_unattended u telegram w :
  truthy telegram = true ->
  (exists table_name, table_name_of env config u table_name) ->
  wp (body (u, telegram)) w (fun r w' =>
    r = Ok tt /\
    exists evs new,
      trace w' = trace w ++ evs /\
      drive w' = drive w ++ new /\
      deliveries evs = List.filter (has_work summary_df) [(u, telegram)] /\
      Forall2 (delivered_for env config month_reviews_df summary_df)
        (List.filter (has_work summary_df) [(u, telegram)]) new).
Proof.
  intros Htruthy [table_name Hname].
  destruct (reviewer_slice_defined summary_df u Hsummary) as [sm Hsm].
  destruct (reviewer_slice_defined month_reviews_df u Hreviews) as [rv Hrv].
  assert (Hwork : has_work summary_df (u, telegram) = negb (shape0 sm =? 0)%nat).
  { unfold has_work, slice_size. simpl. by rewrite Hsm. }
  unfold iteration. rewrite Hsm, Hrv. apply wp_bind, wp_lift, wp_bind, wp_lift.
  cbn [List.filter]. rewrite Hwork.
  destruct (shape0 sm =? 0)%nat eqn:Hempty; simpl.
  - apply wp_emit. split; [done |]. eexists [_], []. simpl. rewrite app_nil_r.
    repeat (split; [done |]). constructor.
  - unfold confirm_stage. rewrite Hflag. unfold contact_stage. rewrite Htruthy. simpl.
    eapply wp_mono; [apply deliver_detail |].
    intros r w' (_ & _ & Hq). destruct (Hq Hquiet _ Hname) as (Hd & Hr).
    destruct (Hmessage (length (drive w))) as [message Hm]. unfold message_of in Hm.
    rewrite Hm in Hr. destruct Hr as [-> Ht]. split; [done |].
    eexists _, [_]. split; [apply Ht |]. split; [apply Hd |]. split; [done |].
    constructor; [| constructor]. by exists table_name, rv, sm.
Qed.

Lemma loop_unattended items : forall w,
  (forall u telegram, (u, telegram) ∈ items ->
     truthy telegram = true /\ exists table_name, table_name_of env config u table_name) ->
  wp (for_each items body) w (fun r w' =>
    r = Ok tt /\
    exists evs new,
      trace w' = trace w ++ evs /\
      drive w' = drive w ++ new /\
      deliveries evs = List.filter (has_work summary_df) items /\
      Forall2 (delivered_for env config month_reviews_df summary_df)
        (List.filter (has_work summary_df) items) new).
Proof.
  induction items as [| [u telegram] rest IH]; intros w Hitems.
  - apply wp_ret. split; [done |]. exists [], []. rewrite !app_nil_r.
    repeat (split; [done |]). constructor.
  - cbn [for_each]. apply wp_bind.
    destruct (Hitems u telegram) as [Htruthy Hname]; [apply list_elem_of_here |].
    eapply wp_mono; [by apply iteration_unattended |].
    intros r1 w1 (-> & evs1 & new1 & Ht1 & Hd1 & Hsent1 & Hnew1).
    eapply wp_mono.
    { apply IH. intros u' tg' Hin. apply Hitems. by apply list_elem_of_further. }
    intros r w2 (-> & evs2 & new2 & Ht2 & Hd2 & Hsent2 & Hnew2).
    split; [done |]. exists (evs1 ++ evs2), (new1 ++ new2).
    split; [by rewrite Ht2, Ht1, <- app_assoc |].
    split; [by rewrite Hd2, Hd1, <- app_assoc |].
    change ((u, telegram) :: rest) with ([(u, telegram)] ++ rest).
    rewrite List.filter_app, deliveries_app, Hsent1, Hsent2.
    split; [done |]. by apply Forall2_app.
Qed.

End Unattended.

Lemma run_events_no_prompts items r evs :
  confirm_every_reviewer config = false ->
  (forall u telegram, (u, telegram) ∈ items -> truthy telegram = true) ->
  run_events env config message_template items r evs ->
  prompts evs = [].
Proof.
  intros Hflag Hitems Hrun.
  assert (Hone : forall u telegram r' evs',
            truthy telegram = true ->
            iteration_events env config message_template u telegram r' evs' ->
            prompts evs' = []).
  { intros u telegram r' evs' Htruthy Hev.
    inversion Hev; subst; try done; try congruence.
    unfold confirm_part. rewrite Hflag. simpl. by eapply deliver_events_prompts. }
  induction Hrun as [| u tg rest e evs Hev | u tg rest evs r evs' Hev _ IH].
  - done.
  - eapply Hone; [| apply Hev]. eapply Hitems, list_elem_of_here.
  - rewrite prompts_app, IH.
    + rewrite app_nil_r. eapply Hone; [| apply Hev]. eapply Hitems, list_elem_of_here.
    + intros u' tg' Hin. eapply Hitems. by apply list_elem_of_further.
Qed.

Lemma mjoin_replicate_zero {A} (l : list A) :
  mjoin (zip_with replicate (replicate (length l) 0%nat) l) = [].
Proof. by induction l. Qed.

Lemma who_replicate u evs :
  (forall en, en ∈ evs -> who en = u) -> who <$> evs = replicate (length evs) u.
Proof.
  induction evs as [| en evs IH]; intros H; [done |]. csimpl.
  rewrite (H en), IH; [done | | apply list_elem_of_here].
  intros en' Hin. apply H. by apply list_elem_of_further.
Qed.

Lemma run_events_order items r evs :
  run_events env config message_template items r evs ->
  exists counts,
    length counts = length items /\
    who <$> evs = mjoin (zip_with replicate counts items.*1).
Proof.
  induction 1 as [| u tg rest e evs Hev | u tg rest evs r evs' Hev _ IH].
  - by exists [].
  - exists (length evs :: replicate (length rest) 0%nat).
    split; [simpl; by rewrite length_replicate |]. csimpl.
    rewrite <- (length_fmap fst rest), mjoin_replicate_zero, app_nil_r.
    apply who_replicate. intros en Hin. by eapply iteration_events_who.
  - destruct IH as (counts & Hlen & Hwho). exists (length evs :: counts).
    split; [simpl; by rewrite Hlen |]. csimpl. rewrite fmap_app, Hwho. f_equal.
    apply who_replicate. intros en Hin. by eapply iteration_events_who.
Qed.

End RunCoverage.

(** ** The login (run.py, 52-80) *)

Section LoginCoverage.
Import Login.
Variable json : Type.
Variable client : Type.
Variable json_load : string -> option json.
Variable json_dump : json -> string.
Variable oauth_from_dict : nat -> request json -> option (client * token json).
Variable open_error : string -> option error.

Local Abbreviation login := (_login json client json_load json_dump oauth_from_dict open_error).
Local Abbreviation get :=
  (get_google_client json client json_load json_dump oauth_from_dict open_error).

(** A login step by step: what it asked of the authorisation library,
    what it kept, and what it left of the files. *)
Lemma login_spec self w :
  let run := login self w in
  let path := authorized_user_file_path self in
  let source :=
    if exists_ json w path
    then (load_file json_load w path, authorized_user_info)
    else (load_file json_load w (credentials_file_path self), credentials) in
  authorized_user_file_path run.1.2 = path /\
  match source.1 with
  | Raised e => run.1.1 = Raised e /\ run.1.2 = self /\ run.2 = w
  | Returned j =>
      requests run.2 = requests w ++ [source.2 j] /\
      match oauth_from_dict (length (requests w)) (source.2 j) with
      | None =>
          run.1.1 = Raised AuthError /\ google_client run.1.2 = google_client self /\
          files run.2 = files w
      | Some (c, tok) =>
          google_client run.1.2 = Some c /\
          match run.1.1 with
          | Returned _ =>
              path <> "" /\ open_error path = None /\
              files run.2 = <[path := token_text json_dump tok]> (files w)
          | Raised e =>
              files run.2 = files w /\
              (path = "" -> e = FileNotFoundError "") /\
              (path <> "" -> open_error path = Some e)
          end
      end
  end.
Proof.
  unfold _login.
  destruct (exists_ json w (authorized_user_file_path self)); cbn [fst snd].
  - destruct (load_file json_load w (authorized_user_file_path self)) as [a | e]; [| done].
    unfold oauth.
    destruct (oauth_from_dict (length (requests w)) (authorized_user_info a))
      as [[c tok] |]; [| done].
    unfold keep_and_store, write_file. cbn.
    destruct (String.eqb (authorized_user_file_path self) "") eqn:E.
    + apply String.eqb_eq in E. cbn. repeat split; try done; intros; congruence.
    + apply String.eqb_neq in E.
      destruct (open_error (authorized_user_file_path self)); cbn;
        repeat split; try done; intros; congruence.
  - destruct (load_file json_load w (credentials_file_path self)) as [j | e]; [| done].
    unfold oauth.
    destruct (oauth_from_dict (length (requests w)) (credentials j))
      as [[c tok] |]; [| done].
    unfold keep_and_store, write_file. cbn.
    destruct (String.eqb (authorized_user_file_path self) "") eqn:E.
    + apply String.eqb_eq in E. cbn. repeat split; try done; intros; congruence.
    + apply String.eqb_neq in E.
      destruct (open_error (authorized_user_file_path self)); cbn;
        repeat split; try done; intros; congruence.
Qed.

(** What the callers of a login rely on. *)
Lemma login_facts self w :
  let run := login self w in
  authorized_user_file_path run.1.2 = authorized_user_file_path self /\
  (length (requests run.2) <= S (length (requests w)))%nat /\
  (run.1.1 = Returned tt ->
   authorized_user_file_path self <> "" /\ is_Some (google_client run.1.2)) /\
  (forall e, run.1.1 = Raised e ->
   files run.2 = files w /\
   (google_client run.1.2 = google_client self \/
    (authorized_user_file_path self = "" -> e = FileNotFoundError ""))).
Proof.
  intros run. pose proof (login_spec self w) as Hspec. fold run in Hspec.
  destruct run as [[r self1] w1]. cbn [fst snd] in *.
  destruct Hspec as [Hpath Hspec]. split; [done |].
  destruct (if exists_ json w (authorized_user_file_path self) then _ else _)
    as [[j | e0] mk]; cbn [fst snd] in Hspec.
  - destruct Hspec as [Hreq Hspec].
    split; [rewrite Hreq, length_app; simpl; lia |].
    destruct (oauth_from_dict (length (requests w)) (mk j)) as [[c tok] |].
    + destruct Hspec as [Hc Hspec]. destruct r as [[] | e].
      * destruct Hspec as (Hne & _ & _). split; [by rewrite Hc | done].
      * destruct Hspec as (Hf & Hempty & _). split; [done |].
        intros e' [= <-]. split; [done | by right].
    + destruct Hspec as (-> & Hc & Hf). split; [done |].
      intros e' [= <-]. split; [done | by left].
  - destruct Hspec as (-> & -> & ->). split; [lia |]. split; [done |].
    intros e' [= <-]. split; [done | by left].
Qed.

(** X17: the loginer logs in at most once. A call of [get_google_client]
    makes at most one request to the authorisation library; what it
    returns is a client, never [None]; and once the loginer holds a client,
    every later call returns that client without touching the files or the
    library, also when the call that obtained it raised while storing the
    token. *)
Theorem X17_login_once self w :
  let run := get_google_client json client json_load json_dump oauth_from_dict open_error self w in
  (forall v, run.1.1 = Returned v -> is_Some v /\ v = google_client run.1.2) /\
  (is_Some (google_client run.1.2) ->
   get_google_client json client json_load json_dump oauth_from_dict open_error run.1.2 run.2 =
     (Returned (google_client run.1.2), run.1.2, run.2)) /\
  (length (requests run.2) <= S (length (requests w)))%nat.
Proof.
  intros run.
  assert (Hcached : forall self' w', is_Some (google_client self') ->
            get self' w' = (Returned (google_client self'), self', w')).
  { intros self' w' [c Hc]. unfold get_google_client. by rewrite Hc. }
  destruct (google_client self) as [c |] eqn:Hc.
  - assert (Hrun : run = (Returned (google_client self), self, w)).
    { apply Hcached. by rewrite Hc. }
    rewrite Hrun. cbn [fst snd]. split; [| split; [by apply Hcached | lia]].
    intros v [= <-]. by rewrite Hc.
  - assert (Hrun : run = match login self w with
                         | (Returned _, self1, w1) => (Returned (google_client self1), self1, w1)
                         | (Raised e, self1, w1) => (Raised e, self1, w1)
                         end).
    { subst run. unfold get_google_client. by rewrite Hc. }
    rewrite Hrun. clear Hrun run.
    pose proof (login_facts self w) as (_ & Hlen & Hok & _).
    destruct (login self w) as [[[[] | e] self1] w1]; cbn [fst snd] in *.
    + destruct (Hok eq_refl) as [_ Hsome].
      split; [by intros v [= <-] |]. split; [by apply Hcached | done].
    + split; [done |]. split; [by apply Hcached | done].
Qed.

(** X18: a login that ends normally has stored the token it was given, as
    text, in the file of the stored token, and holds the client. The next
    login of any loginer with that file reads the token back and asks the
    library with it as the authorised user; when the stored text is not
    JSON it raises the decoding error instead. In neither case does it look
    at the credentials file. *)
Theorem X18_stored_token_is_used self w self1 w1 :
  _login json client json_load json_dump oauth_from_dict open_error self w = (Returned tt, self1, w1) ->
  let path := authorized_user_file_path self in
  path <> "" /\
  exists c tok,
    google_client self1 = Some c /\
    files w1 = <[path := token_text json_dump tok]> (files w) /\
    forall credentials_path,
      let next := _login json client json_load json_dump oauth_from_dict open_error
                    (init json client credentials_path path) w1 in
      match json_load (token_text json_dump tok) with
      | Some a => requests next.2 = requests w1 ++ [authorized_user_info a]
      | None => next = (Raised JSONDecodeError, init json client credentials_path path, w1)
      end.
Proof.
  intros Hlogin path. pose proof (login_spec self w) as Hspec.
  rewrite Hlogin in Hspec. cbn [fst snd] in Hspec. fold path in Hspec.
  destruct Hspec as [_ Hspec].
  destruct (if exists_ json w path then _ else _) as [[j | e0] mk];
    cbn [fst snd] in Hspec; [| by destruct Hspec].
  destruct Hspec as [_ Hspec].
  destruct (oauth_from_dict (length (requests w)) (mk j)) as [[c tok] |];
    [| by destruct Hspec].
  destruct Hspec as (Hc & Hne & _ & Hfiles).
  split; [done |]. exists c, tok. split; [done |]. split; [done |].
  intros credentials_path next.
  pose proof (login_spec (init json client credentials_path path) w1) as Hnext.
  fold next in Hnext. cbn [authorized_user_file_path init] in Hnext.
  assert (Hread : read_file w1 path = Some (token_text json_dump tok)).
  { unfold read_file. apply String.eqb_neq in Hne. rewrite Hne, Hfiles.
    apply lookup_insert_eq. }
  unfold exists_, load_file in Hnext. rewrite Hread in Hnext.
  destruct Hnext as [_ Hnext].
  destruct (json_load (token_text json_dump tok)) as [a |]; cbn [fst snd] in Hnext.
  - by destruct Hnext.
  - destruct next as [[r self2] w2]. cbn [fst snd] in Hnext.
    by destruct Hnext as (-> & -> & ->).
Qed.

(** X19: with the empty path for the file of the stored token no login
    ends normally. The first call of [get_google_client] raises and leaves
    the files as they were. When the library did give a client, what is
    raised is [FileNotFoundError] for the empty path, raised while storing
    the token, and the loginer holds the client all the same: the next call
    returns it. *)
Theorem X19_empty_token_path self w :
  authorized_user_file_path self = "" ->
  google_client self = None ->
  let run := get_google_client json client json_load json_dump oauth_from_dict open_error self w in
  (exists e, run.1.1 = Raised e) /\
  files run.2 = files w /\
  (forall c, google_client run.1.2 = Some c ->
     run.1.1 = Raised (FileNotFoundError "") /\
     get_google_client json client json_load json_dump oauth_from_dict open_error run.1.2 run.2 =
       (Returned (Some c), run.1.2, run.2)).
Proof.
  intros Hpath Hnone run.
  assert (Hrun : run = match login self w with
                       | (Returned _, self1, w1) => (Returned (google_client self1), self1, w1)
                       | (Raised e, self1, w1) => (Raised e, self1, w1)
                       end).
  { subst run. unfold get_google_client. by rewrite Hnone. }
  rewrite Hrun. clear Hrun run.
  pose proof (login_facts self w) as (_ & _ & Hok & Hraised).
  destruct (login self w) as [[[[] | e] self1] w1]; cbn [fst snd] in *.
  { by destruct (Hok eq_refl). }
  destruct (Hraised e eq_refl) as [Hfiles Hkept].
  split; [by exists e |]. split; [done |].
  intros c Hc. split.
  - destruct Hkept as [Hsame | Hempty]; [congruence | by rewrite Hempty].
  - unfold get_google_client. by rewrite Hc.
Qed.

End LoginCoverage.

(** The first login of a loginer whose token file does not exist yet. *)
Lemma X18_stored_token_witness :
  let path := "authorized_user.json" in
  path <> "" /\
  exists c tok,
    Some 0%nat = Some c /\
    <[path := "{refresh_token}"]> (Login.files sample_files) =
      <[path := Login.token_text sample_json_dump tok]> (Login.files sample_files) /\
    forall credentials_path,
      let next := sample_login (Login.init string nat credentials_path path)
                    {| Login.files := <[path := "{refresh_token}"]> (Login.files sample_files);
                       Login.requests := [Login.credentials "{installed}"] |} in
      match sample_json_load (Login.token_text sample_json_dump tok) with
      | Some a =>
          Login.requests next.2 =
            [Login.credentials "{installed}"] ++ [Login.authorized_user_info a]
      | None =>
          next = (Login.Raised Login.JSONDecodeError,
                  Login.init string nat credentials_path path,
                  {| Login.files := <[path := "{refresh_token}"]> (Login.files sample_files);
                     Login.requests := [Login.credentials "{installed}"] |})
      end.
Proof.
  exact (X18_stored_token_is_used string nat sample_json_load sample_json_dump sample_oauth
           sample_open_error (Login.init string nat "credentials.json" "authorized_user.json")
           sample_files
           (Login.set_google_client string nat 0%nat
              (Login.init string nat "credentials.json" "authorized_user.json"))
           {| Login.files := <["authorized_user.json" := "{refresh_token}"]>
                               (Login.files sample_files);
              Login.requests := [Login.credentials "{installed}"] |}
           eq_refl).
Defined.

(** The first call of a loginer made with the empty path. *)
Lemma X19_empty_token_path_witness :
  let run := sample_get_google_client (Login.init string nat "credentials.json" "")
               sample_files in
  (exists e, run.1.1 = Login.Raised e) /\
  Login.files run.2 = Login.files sample_files /\
  (forall c, Login.google_client run.1.2 = Some c ->
     run.1.1 = Login.Raised (Login.FileNotFoundError "") /\
     sample_get_google_client run.1.2 run.2 = (Login.Returned (Some c), run.1.2, run.2)).
Proof.
  apply (X19_empty_token_path string nat sample_json_load sample_json_dump sample_oauth
           sample_open_error (Login.init string nat "credentials.json" "") sample_files);
    reflexivity.
Defined.

Section AmainCoverage.
Variable env : Environment.
Variable config : Config.

Local Abbreviation invoice := (invoice_of env (month config) (year config)).

Local Abbreviation google_loginer :=
  (Login.init Json Client (google_credentials_file_path config)
     (google_authorized_user_file_path config)).

Lemma amain_input w :
  wp (amain env config) w (fun r w' =>
    exists evs, trace w' = trace w ++ evs /\ input_account w w' r evs).
Proof.
  assert (Hnothing : forall e n h, exists evs,
            trace (set_clock n (set_host h w)) = trace w ++ evs /\
            input_account w (set_clock n (set_host h w)) (Raise e) evs).
  { intros e n h. exists []. rewrite app_nil_r. split; [done |]. by apply input_account_none. }
  unfold wp. rewrite amain_setup.
  destruct (Login.read_file (host w) (message_template_filename config)) as [tpl |].
  2:{ exists []. rewrite app_nil_r. split; [done |]. by apply input_account_none. }
  destruct (get_google_client env google_loginer w) as [[c | e] w1] eqn:Hlogin;
    destruct (get_google_client_frame _ _ _ _ _ Hlogin) as [h ->].
  2:{ specialize (Hnothing e (clock w) h). by destruct w. }
  destruct (fault env (clock (set_host h w))); [apply Hnothing |].
  apply (loop_input env config tpl (month_reviews invoice) (summary invoice)
           (dvmn_reviewers invoice) (set_clock (S (clock (set_host h w))) (set_host h w))).
Qed.

(** X11: a run that needs nobody at the console. When the template file
    can be read, the login returns a client, no external call fails,
    confirmation is off, both frames have the reviewer column, every
    reviewer of the mapping has a contact, and the names and the message
    can be formatted, the run ends normally; it has sent one message for
    each reviewer who has rows in the summary, to the contact of the
    mapping and in the order of the mapping, and has added one spreadsheet
    for each of them, in the same order, each named for its reviewer,
    shared by link and holding the reviewer's two slices. *)
Theorem X11_unattended_run w message_template google_client w1 :
  quiet env ->
  Login.read_file (host w) (message_template_filename config) = Some message_template ->
  get_google_client env
    (Login.init Json Client (google_credentials_file_path config)
       (google_authorized_user_file_path config)) w = (Ok google_client, w1) ->
  confirm_every_reviewer config = false ->
  REVIEWER_COLUMN ∈ columns (summary invoice) ->
  REVIEWER_COLUMN ∈ columns (month_reviews invoice) ->
  (forall u telegram, (u, telegram) ∈ dvmn_reviewers invoice ->
     truthy telegram = true /\ exists table_name, table_name_of env config u table_name) ->
  (forall sp, exists message, message_of env config message_template sp message) ->
  let run := amain env config w in
  let served := List.filter (has_work (summary invoice)) (dvmn_reviewers invoice) in
  run.1 = Ok tt /\
  deliveries (since w run.2) = served /\
  exists new,
    drive run.2 = drive w ++ new /\
    Forall2 (delivered_for env config (month_reviews invoice) (summary invoice)) served new.
Proof.
  intros Hquiet Hfile Hlogin Hflag Hsummary Hreviews Hitems Hmessage run served.
  destruct (get_google_client_frame _ _ _ _ _ Hlogin) as [h Hw1].
  pose proof (loop_unattended env config message_template (month_reviews invoice)
                (summary invoice) Hquiet Hflag Hsummary Hreviews Hmessage
                (dvmn_reviewers invoice) (set_clock (S (clock w1)) w1) Hitems) as Hloop.
  unfold wp in Hloop. subst run. rewrite amain_setup, Hfile, Hlogin, Hquiet. cbv zeta.
  destruct (for_each _ _ _) as [r w'].
  destruct Hloop as (-> & evs & new & Ht & Hd & Hsent & Hnew). subst w1. simpl in *.
  split; [done |]. split; [by rewrite (since_app _ _ _ Ht) |].
  exists new. by split.
Qed.

(** X12: input is read at prompts only, one line for each. The lines a run
    has taken from standard input are as many as the prompts it has shown;
    or one fewer, and then the last prompt found the input at its end and
    the run has ended raising [EOFError]. *)
Theorem X12_one_line_per_prompt w :
  let run := amain env config w in
  exists consumed,
    stdin w = consumed ++ stdin run.2 /\
    (length (prompts (since w run.2)) = length consumed \/
     (length (prompts (since w run.2)) = S (length consumed) /\
      run.1 = Raise EOFError /\ stdin run.2 = [])).
Proof.
  intros run. pose proof (amain_input w) as Hspec.
  unfold wp in Hspec. fold run in Hspec. destruct run as [r w']. simpl.
  destruct Hspec as (evs & Ht & Hacc). by rewrite (since_app _ _ _ Ht).
Qed.

(** X13: with confirmation off and a contact on record for every reviewer
    of the mapping, a run shows no prompt and takes nothing from standard
    input, whatever else happens in it. *)
Theorem X13_no_input_needed w :
  confirm_every_reviewer config = false ->
  (forall u telegram, (u, telegram) ∈ dvmn_reviewers invoice -> truthy telegram = true) ->
  let run := amain env config w in
  prompts (since w run.2) = [] /\ stdin run.2 = stdin w.
Proof.
  intros Hflag Hitems run.
  pose proof (amain_input w) as Hinput. pose proof (amain_spec env config w) as Hspec.
  unfold wp in Hinput, Hspec. fold run in Hinput, Hspec. destruct run as [r w']. simpl.
  destruct Hinput as (evs & Ht & consumed & Hin & Hcount).
  destruct Hspec as (_ & _ & evs' & Ht' & _ & Hshape).
  assert (evs' = evs) as -> by (apply (app_inv_head (trace w)); congruence).
  rewrite (since_app _ _ _ Ht).
  assert (Hnone : prompts evs = []).
  { destruct Hshape as [[-> _] | (tpl & _ & Hrun)]; [done |].
    by eapply run_events_no_prompts. }
  split; [done |]. rewrite Hnone in Hcount. simpl in Hcount.
  destruct Hcount as [Hc | (Hc & _)]; [| lia].
  symmetry in Hc. apply length_zero_iff_nil in Hc. by rewrite Hin, Hc.
Qed.

(** X14: the reviewers are processed in the order of the mapping. The
    trace of a run lists, for each reviewer of the mapping in turn, all the
    entries of that reviewer together; a reviewer the run did not reach,
    or for whom nothing was recorded, has none. *)
Theorem X14_mapping_order w :
  let run := amain env config w in
  exists counts,
    length counts = length (dvmn_reviewers invoice) /\
    who <$> since w run.2 =
      mjoin (zip_with replicate counts (dvmn_reviewers invoice).*1).
Proof.
  intros run. pose proof (amain_spec env config w) as Hspec.
  unfold wp in Hspec. fold run in Hspec. destruct run as [r w']. simpl.
  destruct Hspec as (_ & _ & evs & Ht & _ & Hshape).
  rewrite (since_app _ _ _ Ht).
  destruct Hshape as [[-> _] | (tpl & _ & Hrun)].
  - exists (replicate (length (dvmn_reviewers invoice)) 0%nat).
    split; [by rewrite length_replicate |].
    rewrite <- (length_fmap fst (dvmn_reviewers invoice)).
    by rewrite mjoin_replicate_zero.
  - by eapply run_events_order.
Qed.

Lemma surfacing_amain : surfacing env (amain env config).
Proof.
  unfold amain. cbv zeta. apply surfacing_bind.
  { apply surfacing_still. intros w. unfold open_read.
    by destruct (Login.read_file (host w) _). }
  intros tpl. apply surfacing_bind.
  { apply surfacing_still. intros w.
    destruct (get_google_client env google_loginer w) as [r w1] eqn:Hlogin.
    by destruct (get_google_client_frame _ _ _ _ _ Hlogin) as [h ->]. }
  intros c. apply surfacing_bind.
  { unfold get_invoice. apply surfacing_bind; [apply surfacing_external |].
    intros _. apply surfacing_ret. }
  intros inv. apply surfacing_for_each. intros item. apply surfacing_iteration.
Qed.

(** X15: a run swallows no failure of an external call. When any of the
    calls it made has failed, the run has ended raising a service error;
    so in a run that ended normally every call succeeded. *)
Theorem X15_no_failure_swallowed w :
  let run := amain env config w in
  (clock w <= clock run.2)%nat /\
  (fault_between env w run.2 -> exists code, run.1 = Raise (ServiceError code)) /\
  (run.1 = Ok tt -> forall n, (clock w <= n < clock run.2)%nat -> fault env n = None).
Proof.
  intros run. pose proof (surfacing_amain w) as Hspec.
  unfold wp in Hspec. fold run in Hspec. destruct run as [r w']. simpl.
  destruct Hspec as [Hle Hfault]. split; [done |]. split; [done |].
  intros -> n Hn. destruct (fault env n) as [code |] eqn:Hcode; [| done].
  destruct Hfault as [code' Hr]; [by exists n, code | done].
Qed.

(** X16: a configuration with the empty path for the file of the stored
    token never gets to the invoice. Every run under it raises before the
    invoice is requested: the template cannot be read, or the login raises,
    at the latest while storing the token. The run has called neither the
    invoice server nor the spreadsheet backend nor the messaging platform,
    has created and sent nothing, has read no input and has changed no
    file. *)
Theorem X16_empty_token_path_stops_the_run w :
  google_authorized_user_file_path config = "" ->
  let run := amain env config w in
  (exists e, run.1 = Raise e) /\
  clock run.2 = clock w /\
  drive run.2 = drive w /\
  trace run.2 = trace w /\
  stdin run.2 = stdin w /\
  Login.files (host run.2) = Login.files (host w).
Proof.
  intros Hpath run. subst run. rewrite amain_setup.
  destruct (Login.read_file (host w) (message_template_filename config)) as [tpl |];
    [| by split; [eexists |]].
  unfold get_google_client.
  pose proof (login_facts Json Client (json_load env) (json_dump env) (oauth_from_dict env)
                (open_error env) google_loginer (host w)) as (_ & _ & Hok & Hraised).
  unfold Login.get_google_client. cbn [Login.google_client Login.init].
  destruct (Login._login _ _ _ _ _ _ google_loginer (host w)) as [[[[] | e] self1] h];
    cbn [fst snd] in *.
  - by destruct (Hok eq_refl).
  - destruct (Hraised e eq_refl) as [Hfiles _]. simpl. split; [by eexists | done].
Qed.

End AmainCoverage.

(** The run over the sample invoice with every contact on record. *)
Lemma X11_unattended_run_witness :
  let run := amain known_env stored_config (world_of []) in
  let served := List.filter (has_work sample_summary) (dvmn_reviewers known_invoice) in
  run.1 = Ok tt /\
  deliveries (since (world_of []) run.2) = served /\
  exists new,
    drive run.2 = new /\
    Forall2 (delivered_for known_env stored_config sample_reviews sample_summary)
      served new.
Proof.
  apply (X11_unattended_run known_env stored_config (world_of []) "Отчёт" (Some 0%nat)
           (set_host logged_in (world_of []))).
  - intros n. reflexivity.
  - reflexivity.
  - reflexivity.
  - reflexivity.
  - apply list_elem_of_here.
  - apply list_elem_of_here.
  - intros u telegram Hin. split.
    + repeat (apply elem_of_cons in Hin as [[= -> ->] | Hin]; [reflexivity |]).
      by apply elem_of_nil in Hin.
    + eexists. exists "2026_10". split; reflexivity.
  - intros sp. eexists. reflexivity.
Defined.

Lemma X13_no_input_needed_witness :
  let run := amain known_env stored_config (world_of ["да"]) in
  prompts (since (world_of ["да"]) run.2) = [] /\ stdin run.2 = ["да"].
Proof.
  apply (X13_no_input_needed known_env stored_config (world_of ["да"])).
  - reflexivity.
  - intros u telegram Hin.
    repeat (apply elem_of_cons in Hin as [[= -> ->] | Hin]; [reflexivity |]).
    by apply elem_of_nil in Hin.
Defined.

(** The run under the configuration built without a file for the token. *)
Lemma X16_empty_token_path_witness :
  let run := amain sample_env january_config (world_of []) in
  (exists e, run.1 = Raise e) /\
  clock run.2 = 0%nat /\
  drive run.2 = [] /\
  trace run.2 = [] /\
  stdin run.2 = [] /\
  Login.files (host run.2) = Login.files sample_files.
Proof.
  apply (X16_empty_token_path_stops_the_run sample_env january_config (world_of [])).
  reflexivity.
Defined.

(** ** The settings of the entry point (run.py, 156-182) *)

Section MainCoverage.
Import Main.
Variable parse_int : string -> option Z.
Variable parse_bool : string -> option bool.
Variable environ : gmap string string.

Ltac read_settings H :=
  unfold mbind, built_bind, mret, built_ret, env_str, env_int, env_bool, name_lookup in H;
  cbn [Calendar.default_month Calendar.default_year Calendar.month Calendar.year
       Calendar.with_date] in H;
  repeat (let E := fresh "E" in
          match type of H with
          | context [environ !! ?name] => destruct (environ !! name) eqn:E
          | context [parse_int ?v] => destruct (parse_int v) eqn:E
          | context [parse_bool ?v] => destruct (parse_bool v) eqn:E
          end; try discriminate H).

(** X20: the month and the year default separately. A variable that is set
    gives its parsed value; each of [MONTH] and [YEAR] that is not set
    takes its value from the month before [now], whatever the other says:
    in January an unset [YEAR] is the year before even when [MONTH] is set.
    Month and year are never left out, so the name of the period can
    always be formatted. *)
Theorem X20_period_defaults now cfg :
  Calendar.valid_datetime now ->
  build_config parse_int parse_bool environ now = Done cfg ->
  let prev := Calendar.previous_month (Calendar.year now) (Calendar.month now) in
  month cfg = match environ !! "MONTH" with
              | Some value => parse_int value
              | None => Some prev.2
              end /\
  year cfg = match environ !! "YEAR" with
             | Some value => parse_int value
             | None => Some prev.1
             end /\
  exists year_month, format_year_month (year cfg) (month cfg) = Ok year_month.
Proof.
  intros Hvalid Hbuild prev.
  unfold build_config in Hbuild.
  rewrite (default_period_value now Hvalid) in Hbuild.
  destruct ((Calendar.year now =? Calendar.MINYEAR) && (Calendar.month now =? 1));
    [done |].
  cbv zeta in Hbuild. fold prev in Hbuild.
  read_settings Hbuild; inversion Hbuild; subst cfg; cbn [month year]; by eauto.
Qed.

(** X21: a configuration is built only when the six variables read without
    a default are all set, and it carries what they hold: the strings as
    they are, the identifier of the messaging application parsed. The file
    of the stored token defaults to the empty path and the confirmation
    flag to off. *)
Theorem X21_settings_read_back now cfg :
  build_config parse_int parse_bool environ now = Done cfg ->
  environ !! "GOOGLE_CREDENTIALS_FILE_PATH" = Some (google_credentials_file_path cfg) /\
  environ !! "DEVMAN_TOKEN" = Some (devman_token cfg) /\
  environ !! "GOOGLE_TABLE_NAME" = Some (google_table_name cfg) /\
  (exists value, environ !! "TELEGRAM_API_ID" = Some value /\
                 parse_int value = Some (telegram_api_id cfg)) /\
  environ !! "TELEGRAM_API_HASH" = Some (telegram_api_hash cfg) /\
  environ !! "MESSAGE_TEMPLATE_FILENAME" = Some (message_template_filename cfg) /\
  google_authorized_user_file_path cfg =
    default "" (environ !! "GOOGLE_AUTHORIZED_USER_FILE_PATH") /\
  Some (confirm_every_reviewer cfg) =
    match environ !! "CONFIRM_EVERY_REVIEWER" with
    | Some value => parse_bool value
    | None => Some false
    end.
Proof.
  intros Hbuild. unfold build_config in Hbuild.
  destruct (Calendar.default_period now) as [offset p | |]; [| | done];
    read_settings Hbuild; inversion Hbuild; subst cfg; simpl; by eauto 10.
Qed.

Section LoginWithSettings.
Variable json : Type.
Variable client : Type.
Variable json_load : string -> option json.
Variable json_dump : json -> string.
Variable oauth_from_dict : nat -> Login.request json -> option (client * Login.token json).
Variable open_error : string -> option Login.error.

(** X22: a run that does not set the file of the stored token cannot log
    in. For a configuration the entry point has built from an environment
    without [GOOGLE_AUTHORIZED_USER_FILE_PATH], the first call of
    [get_google_client] of the loginer that [amain] makes from it raises,
    and leaves the files as they were. *)
Theorem X22_unset_token_path_fails now cfg w :
  build_config parse_int parse_bool environ now = Done cfg ->
  environ !! "GOOGLE_AUTHORIZED_USER_FILE_PATH" = None ->
  let google_loginer :=
    Login.init json client (google_credentials_file_path cfg)
      (google_authorized_user_file_path cfg) in
  let run := Login.get_google_client json client json_load json_dump oauth_from_dict
               open_error google_loginer w in
  (exists e, run.1.1 = Login.Raised e) /\ Login.files run.2 = Login.files w.
Proof.
  intros Hbuild Hunset google_loginer run.
  assert (Hpath : google_authorized_user_file_path cfg = "").
  { unfold build_config in Hbuild.
    destruct (Calendar.default_period now) as [offset p | |]; [| | done];
      read_settings Hbuild; by inversion Hbuild. }
  pose proof (login_facts json client json_load json_dump oauth_from_dict open_error
                google_loginer w) as (_ & _ & Hok & Hraised).
  subst run. unfold Login.get_google_client. cbn [Login.google_client google_loginer Login.init].
  fold google_loginer.
  destruct (Login._login _ _ _ _ _ _ google_loginer w) as [[[[] | e] self1] w1];
    cbn [fst snd] in *.
  - by destruct (Hok eq_refl).
  - destruct (Hraised e eq_refl) as [Hfiles _]. split; [by exists e | done].
Qed.

End LoginWithSettings.

End MainCoverage.

(** The tenth of January 2027 with [MONTH] set to 1 and [YEAR] not set:
    the period is January 2026. *)
Lemma X20_period_defaults_witness :
  let prev := Calendar.previous_month 2027 1 in
  month january_config = match sample_environ !! "MONTH" with
                         | Some value => sample_parse_int value
                         | None => Some prev.2
                         end /\
  year january_config = match sample_environ !! "YEAR" with
                        | Some value => sample_parse_int value
                        | None => Some prev.1
                        end /\
  exists year_month,
    format_year_month (year january_config) (month january_config) = Ok year_month.
Proof.
  apply (X20_period_defaults sample_parse_int sample_parse_bool sample_environ
           tenth_of_january january_config).
  - cbv -[Z.le Z.lt]. lia.
  - vm_compute. reflexivity.
Defined.

Lemma X21_settings_read_back_witness :
  sample_environ !! "GOOGLE_CREDENTIALS_FILE_PATH" = Some "credentials.json" /\
  sample_environ !! "DEVMAN_TOKEN" = Some "token" /\
  sample_environ !! "GOOGLE_TABLE_NAME" = Some "Инвойс" /\
  (exists value, sample_environ !! "TELEGRAM_API_ID" = Some value /\
                 sample_parse_int value = Some 1) /\
  sample_environ !! "TELEGRAM_API_HASH" = Some "hash" /\
  sample_environ !! "MESSAGE_TEMPLATE_FILENAME" = Some "message.txt" /\
  "" = default "" (sample_environ !! "GOOGLE_AUTHORIZED_USER_FILE_PATH") /\
  Some false =
    match sample_environ !! "CONFIRM_EVERY_REVIEWER" with
    | Some value => sample_parse_bool value
    | None => Some false
    end.
Proof.
  apply (X21_settings_read_back sample_parse_int sample_parse_bool sample_environ
           tenth_of_january january_config).
  vm_compute. reflexivity.
Defined.

Lemma X22_unset_token_path_witness :
  let run := sample_get_google_client (Login.init string nat "credentials.json" "")
               sample_files in
  (exists e, run.1.1 = Login.Raised e) /\ Login.files run.2 = Login.files sample_files.
Proof.
  apply (X22_unset_token_path_fails sample_parse_int sample_parse_bool sample_environ
           string nat sample_json_load sample_json_dump sample_oauth sample_open_error
           tenth_of_january january_config sample_files).
  - vm_compute. reflexivity.
  - vm_compute. reflexivity.
Defined.
